(** * Graph-instance registries of the BankingFinanceWebApp interop scripts

  A shallow embedding of the browser-side registries that drive the
  vis.js and d3 renderers:

  - [D3Graph]            src/js/d3-network-graph.js
  - [JourneyBuilder]     src/js/journey-builder-graph.js
  - [CustomerNetwork]    src/js/theme.js (window.customerNetworkGraph)
  - [CustomerGraph]      src/unnamed/part_000 (window.customerNetworkGraph)
  - [RelationshipGraph]  src/unnamed/part_001 (window.renderRelationshipGraph, ...)

  JavaScript values are a small universe ([JS.value]); every registry
  function is a computation in a state-and-exception monad ([Eff.M]) over
  the page state it reads and mutates.  The two rendering libraries are
  outside the repository; [Vis] and the simulation part of [D3Graph]
  write down the part of their documented behaviour the scripts rely
  on. *)

From Stdlib Require Import String List ZArith QArith Qcanon Qround Qabs Bool Lia.
From stdpp Require Import base option list strings pretty gmap.

Local Open Scope string_scope.
Local Open Scope list_scope.
Set Warnings "-register-all".

(** ** JavaScript values *)

Module JS.

(** Numbers are rationals in lowest terms, so that equal numbers are equal
    terms: the scripts only store and compare number literals (ids,
    widths, opacities such as [0.3]); no arithmetic on them reaches the
    registries. *)
Inductive value : Type :=
| VUndefined
| VNull
| VBool (b : bool)
| VNum (q : Qc)
| VStr (s : string)
| VArr (items : list value)
| VObj (fields : list (string * value)).

(** An object literal: its own enumerable properties in insertion order. *)
Definition obj : Type := list (string * value).

Definition num (z : Z) : value := VNum (Q2Qc (inject_Z z)).

(** A decimal literal such as [0.3]. *)
Definition dec (q : Q) : value := VNum (Q2Qc q).

(** [o[k]]: a missing property reads as [undefined]. *)
Fixpoint get (o : obj) (k : string) : value :=
  match o with
  | [] => VUndefined
  | (k', v) :: rest => if String.eqb k k' then v else get rest k
  end.

(** [o[k] = v]: an existing property keeps its place, a new one goes last. *)
Fixpoint put (o : obj) (k : string) (v : value) : obj :=
  match o with
  | [] => [(k, v)]
  | (k', v') :: rest =>
      if String.eqb k k' then (k', v) :: rest else (k', v') :: put rest k v
  end.

(** [{...a, ...b}] *)
Definition spread (a b : obj) : obj :=
  fold_left (fun acc kv => put acc (fst kv) (snd kv)) b a.

(** [Object.assign(a, b)] writes the fields of [b] onto [a] one by one.
    Unlike the spread, it writes by assignment: a value written under
    the name [__proto__] is taken for the prototype of [a] and leaves no
    field (the prototype is not part of the records here). *)
Definition assign (a b : obj) : obj :=
  spread a (List.filter (fun kv => negb (String.eqb (fst kv) "__proto__")) b).

(** Property read on an arbitrary value, [v.k]: [None] is the TypeError
    of reading a property of [undefined] or [null]; primitives have no
    own property of the names used here. *)
Definition prop (v : value) (k : string) : option value :=
  match v with
  | VUndefined | VNull => None
  | VObj o => Some (get o k)
  | _ => Some VUndefined
  end.

(** [a === b] on primitives.  Objects and arrays compare by reference;
    the literals that cross the interop bridge are fresh objects, so two
    of them are never identical. *)
Definition strict_eq (a b : value) : bool :=
  match a, b with
  | VUndefined, VUndefined => true
  | VNull, VNull => true
  | VBool x, VBool y => Bool.eqb x y
  | VNum x, VNum y => Qc_eq_bool x y
  | VStr x, VStr y => String.eqb x y
  | _, _ => false
  end.

(** [a == null] *)
Definition nullish (v : value) : bool :=
  match v with
  | VUndefined | VNull => true
  | _ => false
  end.

(** The values [===] relates to themselves: everything but object and
    array literals. *)
Definition primitive (v : value) : bool :=
  match v with
  | VArr _ | VObj _ => false
  | _ => true
  end.

(** What vis.js takes for an id: a number or a string. *)
Definition is_id (v : value) : bool :=
  match v with
  | VNum _ | VStr _ => true
  | _ => false
  end.

(** [k in o], for own properties. *)
Definition has_key (o : obj) (k : string) : bool :=
  existsb (fun kv => String.eqb k (fst kv)) o.

(** ToBoolean *)
Definition truthy (v : value) : bool :=
  match v with
  | VUndefined | VNull => false
  | VBool b => b
  | VNum q => negb (Qc_eq_bool q (Q2Qc 0))
  | VStr s => negb (String.eqb s "")
  | VArr _ | VObj _ => true
  end.

(** [a || b] *)
Definition or_else (a b : value) : value := if truthy a then a else b.

(** [xs.includes(v)] (SameValueZero; no NaN in this universe). *)
Definition includes (xs : list value) (v : value) : bool :=
  existsb (fun x => strict_eq x v) xs.

(** What a call hands back to its caller. *)
Inductive exn : Type := Error | RangeError | TypeError.

Inductive completion (A : Type) : Type :=
| Return (a : A)
| Throw (e : exn).
Arguments Return {A} a.
Arguments Throw {A} e.

End JS.
Export JS.

(** ** Computations over the page state *)

Module Eff.

(** A call runs against the mutable page state [S]; what it has written
    before throwing stays written. *)
Definition M (S A : Type) : Type := S -> completion A * S.

Definition ret {S A} (a : A) : M S A := fun s => (Return a, s).
Definition throw {S A} (e : exn) : M S A := fun s => (Throw e, s).
Definition bind {S A B} (m : M S A) (k : A -> M S B) : M S B :=
  fun s => match m s with
           | (Return a, s') => k a s'
           | (Throw e, s') => (Throw e, s')
           end.
Definition read {S} : M S S := fun s => (Return s, s).
Definition write {S} (s' : S) : M S unit := fun _ => (Return tt, s').
Definition modify {S} (f : S -> S) : M S unit := fun s => (Return tt, f s).

(** [try { body } catch (error) { handler }] *)
Definition try_catch {S A} (body : M S A) (handler : exn -> M S A) : M S A :=
  fun s => match body s with
           | (Return a, s') => (Return a, s')
           | (Throw e, s') => handler e s'
           end.

(** [xs.forEach(x => body)] *)
Fixpoint for_each {S A} (xs : list A) (body : A -> M S unit) : M S unit :=
  match xs with
  | [] => ret tt
  | x :: rest => bind (body x) (fun _ => for_each rest body)
  end.

End Eff.
Export Eff.

Declare Scope eff_scope.
Delimit Scope eff_scope with eff.
Notation "'let!' x ':=' m 'in' k" := (bind m (fun x => k))
  (at level 10, x name, m at level 100, k at level 200) : eff_scope.
Notation "m ';>' k" := (bind m (fun _ => k))
  (at level 100, k at level 200, right associativity) : eff_scope.
Local Open Scope eff_scope.

(** ** Text of values *)

Module Text.

(** The double-quote character of the validation messages. *)
Definition dquote : string := String (Ascii.ascii_of_nat 34) EmptyString.

(** *** Number::toString

    A number is printed as JavaScript prints the double nearest to it:
    the fewest significant digits that read back as that double, laid
    out as an integer, a decimal fraction or in exponent notation. *)

Definition pow2 (e : Z) : Q := Qpower (2 # 1)%Q e.
Definition pow10 (e : Z) : Q := Qpower (10 # 1)%Q e.

Definition Qleb (a b : Q) : bool := Qle_bool a b.
Definition Qltb (a b : Q) : bool := negb (Qle_bool b a).

(** Rounds to the nearest integer, a tie to the even one. *)
Definition round_half_even (x : Q) : Z :=
  let f := Qfloor x in
  match Qcompare (x - inject_Z f)%Q (1 # 2)%Q with
  | Lt => f
  | Gt => (f + 1)%Z
  | Eq => if Z.even f then f else (f + 1)%Z
  end.

(** [floor (log2 x)] for a positive [x]. *)
Definition binary_exponent (x : Q) : Z :=
  let e := (Z.log2 (Qnum x) - Z.log2 (Zpos (Qden x)))%Z in
  if Qleb (pow2 e) x then e else (e - 1)%Z.

(** The double nearest to a positive rational, as a mantissa of at most
    53 bits and an exponent, [(m, e)] standing for [m * 2^e]; [None] past
    the largest double. *)
Definition nearest_double (x : Q) : option (Z * Z) :=
  let e := Z.max (binary_exponent x - 52) (-1074) in
  let m := round_half_even (x / pow2 e)%Q in
  let '(m, e) := if Z.eqb m (2 ^ 53) then ((2 ^ 52)%Z, (e + 1)%Z) else (m, e) in
  if Z.ltb 971 e then None else Some (m, e).

(** The decimal [c] reads back as the double [m * 2^e]: it lies within
    half a gap of it, the ends included when the mantissa is even. *)
Definition reads_back (m e : Z) (c : Q) : bool :=
  let v := (inject_Z m * pow2 e)%Q in
  let above := (pow2 e / (2 # 1))%Q in
  let below := if Z.eqb m (2 ^ 52) && Z.ltb (-1074) e
               then (pow2 e / (4 # 1))%Q else (pow2 e / (2 # 1))%Q in
  if Z.even m then Qleb (v - below)%Q c && Qleb c (v + above)%Q
  else Qltb (v - below)%Q c && Qltb c (v + above)%Q.

(** The decimals [s * 10^t] with a digit string [s] of [k] digits that
    read back as the double. *)
Definition candidates (m e : Z) (k : Z) : list (Z * Z) :=
  let v := (inject_Z m * pow2 e)%Q in
  let e10 := (binary_exponent v * 30103 / 100000)%Z in
  flat_map
    (fun t =>
       let s := Qfloor (v / pow10 t)%Q in
       List.filter
         (fun st => Z.leb (10 ^ (k - 1)) (fst st) && Z.ltb (fst st) (10 ^ k)
                    && reads_back m e (inject_Z (fst st) * pow10 (snd st))%Q)
         [(s, t); ((s + 1)%Z, t)])
    (map (fun i => (e10 - k + i)%Z) [-1; 0; 1; 2; 3]%Z).

(** Of several candidates the one closest to the double, the even one on
    a tie. *)
Definition closest (m e : Z) (cs : list (Z * Z)) : option (Z * Z) :=
  let v := (inject_Z m * pow2 e)%Q in
  let dist st := Qabs (inject_Z (fst st) * pow10 (snd st) - v)%Q in
  fold_left
    (fun best st =>
       match best with
       | None => Some st
       | Some b =>
           match Qcompare (dist st) (dist b) with
           | Lt => Some st
           | Gt => Some b
           | Eq => if Z.even (fst st) then Some st else Some b
           end
       end) cs None.

(** The shortest digit string, tried from [k] digits on; seventeen
    digits always suffice for a double. *)
Fixpoint shortest (m e : Z) (fuel : nat) (k : Z) : Z * Z :=
  match fuel with
  | O => (m, 0%Z)
  | S fuel =>
      match closest m e (candidates m e k) with
      | Some st => st
      | None => shortest m e fuel (k + 1)%Z
      end
  end.

Fixpoint zeros (n : nat) : string :=
  match n with
  | O => ""
  | S n => ("0" ++ zeros n)%string
  end.

(** The layout of the digits with the decimal point after the first [n]. *)
Definition layout (digits : string) (n : Z) : string :=
  let k := Z.of_nat (String.length digits) in
  if Z.leb k n && Z.leb n 21 then (digits ++ zeros (Z.to_nat (n - k)))%string
  else if Z.ltb 0 n && Z.leb n 21
  then (substring 0 (Z.to_nat n) digits ++ "."
        ++ substring (Z.to_nat n) (Z.to_nat (k - n)) digits)%string
  else if Z.ltb (-6) n && Z.leb n 0
  then ("0." ++ zeros (Z.to_nat (- n)) ++ digits)%string
  else
    let exponent :=
      ((if Z.ltb 0 (n - 1) then "e+" else "e-") ++ pretty (Z.abs (n - 1)))%string in
    if Z.eqb k 1 then (digits ++ exponent)%string
    else (substring 0 1 digits ++ "." ++ substring 1 (Z.to_nat (k - 1)) digits
          ++ exponent)%string.

Definition positive_text (x : Q) : string :=
  match nearest_double x with
  | None => "Infinity"
  | Some (m, e) =>
      if Z.eqb m 0 then "0"
      else
        let '(s, t) := shortest m e 17 1 in
        let digits := pretty s in
        layout digits (t + Z.of_nat (String.length digits))
  end.

(** Number to text. *)
Definition num_text (q : Qc) : string :=
  let x := this q in
  match Qcompare x 0%Q with
  | Eq => "0"
  | Gt => positive_text x
  | Lt => ("-" ++ positive_text (- x)%Q)%string
  end.

(** ToString, as template literals and property keys apply it. *)
Fixpoint to_text (v : value) : string :=
  match v with
  | VUndefined => "undefined"
  | VNull => "null"
  | VBool true => "true"
  | VBool false => "false"
  | VNum q => num_text q
  | VStr s => s
  | VArr l =>
      (fix join (l : list value) : string :=
         match l with
         | [] => ""
         | [x] => if nullish x then "" else to_text x
         | x :: rest =>
             ((if nullish x then "" else to_text x) ++ "," ++ join rest)%string
         end) l
  | VObj _ => "[object Object]"
  end.

End Text.
Export Text.

(** ** Tables kept in plain objects

    The registries ([networks], [instances], [networkInstances],
    [graphInstances]) and the renderer's [body.nodes] are object literals
    indexed by caller-supplied ids, so a read [table[id]] goes through the
    prototype chain. *)

Module Proto.

(** Names every object literal inherits from [Object.prototype]: a lookup
    [table[name]] with one of them finds an inherited member, which is
    truthy and has no enumerable property of its own.  The prototype is
    the one the language defines; the one way in which the scripts
    themselves add to it is recorded in the d3 module's state. *)
Definition inherited (name : string) : bool :=
  existsb (String.eqb name)
    ["constructor"; "hasOwnProperty"; "isPrototypeOf"; "propertyIsEnumerable";
     "toLocaleString"; "toString"; "valueOf"; "__proto__";
     "__defineGetter__"; "__defineSetter__"; "__lookupGetter__";
     "__lookupSetter__"].

(** What [table[id]] reads: the entry stored under the id, or, when
    there is none and the id names a member of [Object.prototype], that
    member (a function; the prototype itself for [__proto__]). *)
Inductive slot (A : Type) : Type :=
| Entry (a : A)
| Member.
Arguments Entry {A} a.
Arguments Member {A}.

(** [own] is what the table itself stores under [id]; [None] is
    [undefined]. *)
Definition slot_of {A} (id : string) (own : option A) : option (slot A) :=
  match own with
  | Some a => Some (Entry a)
  | None => if inherited id then Some Member else None
  end.

End Proto.
Export Proto.

(** ** The vis.js collaborator

    [vis.DataSet] and [vis.Network] belong to the wrapped library, not to
    the repository.  The definitions below record the documented behaviour
    the scripts call into: a DataSet is a keyed collection in insertion
    order whose [add] refuses an id already present, whose [update] merges
    into an existing item and adds a missing one, and whose [remove] skips
    ids it does not hold; a Network keeps the two DataSets it was built
    from, a selection, and rendering resources that live until [destroy]. *)

Module Vis.

(** Items in insertion order; [minted] counts the ids the set has
    generated for items that came without one. *)
Record DataSet : Type := {
  items : list obj;
  minted : nat
}.

(** [new vis.DataSet([])] *)
Definition empty_set : DataSet := {| items := []; minted := 0 |}.

Definition id_of (it : obj) : value := get it "id".

(** The text of a generated id (the library draws a random UUID). *)
Definition uuid (n : nat) : value := VStr ("uuid-" ++ pretty n)%string.

Definition has (ds : DataSet) (id : value) : bool :=
  existsb (fun it => strict_eq (id_of it) id) (items ds).

Definition find_item (ds : DataSet) (id : value) : option obj :=
  List.find (fun it => strict_eq (id_of it) id) (items ds).

(** One item of [add]: an item without id is given a generated one; an id
    already present is refused with an Error. *)
Definition add_item (it : obj) : M DataSet value := fun ds =>
  let full := if nullish (id_of it) then put it "id" (uuid (minted ds)) else it in
  let count := if nullish (id_of it) then S (minted ds) else minted ds in
  if has ds (id_of full)
  then (Throw Error, {| items := items ds; minted := count |})
  else (Return (id_of full), {| items := items ds ++ [full]; minted := count |}).

(** [ds.add(it)] for one item. *)
Definition add (it : obj) : M DataSet unit :=
  add_item it ;> ret tt.

(** [ds.add([it1, ...])]: the items go in one after the other; every array
    the scripts add goes into a set that was just created or cleared. *)
Definition add_all (its : list obj) : M DataSet unit :=
  for_each its add.

(** [ds.update(it)]: merge into the item with this id, or add the item. *)
Definition update (it : obj) : M DataSet unit := fun ds =>
  if negb (nullish (id_of it)) && has ds (id_of it)
  then (Return tt,
        {| items := map (fun old => if strict_eq (id_of old) (id_of it)
                                    then spread old it else old) (items ds);
           minted := minted ds |})
  else add it ds.

(** [ds.remove(arg)]: an id, an object carrying one, or an array of
    these; ids the set does not hold are skipped. *)
Definition removal_ids (arg : value) : list value :=
  let id_in v := match v with VObj o => id_of o | _ => v end in
  match arg with
  | VArr args => map id_in args
  | _ => [id_in arg]
  end.

Definition remove (arg : value) : M DataSet unit := fun ds =>
  (Return tt,
   {| items := List.filter (fun it => negb (includes (removal_ids arg) (id_of it)))
                           (items ds);
      minted := minted ds |}).

(** [ds.clear()] *)
Definition clear : M DataSet unit := fun ds =>
  (Return tt, {| items := []; minted := minted ds |}).

(** [ds.get()] *)
Definition get_all (ds : DataSet) : list obj := items ds.

(** [ds.get(arg)]: with an id (a number or a string) the item or [null];
    with an array of ids the items found; anything else is read as an
    options object and yields the array of items. *)
Definition get_by (ds : DataSet) (arg : value) : value :=
  match arg with
  | VNum _ | VStr _ =>
      match find_item ds arg with
      | Some it => VObj it
      | None => VNull
      end
  | VArr ids =>
      VArr (omap (fun id => VObj <$> find_item ds id) ids)
  | _ => VArr (map VObj (items ds))
  end.

(** [ds.forEach(item => body)]: the ids are listed first, then each item
    is read as it stands when its turn comes. *)
Definition for_each_item {S} (ds_of : S -> DataSet) (body : obj -> M S unit)
  : M S unit := fun s =>
  for_each (map id_of (items (ds_of s)))
           (fun id s' => match find_item (ds_of s') id with
                         | Some it => body it s'
                         | None => (Return tt, s')
                         end) s.

(** *** vis.Network *)

(** What a script asks of the renderer without reading anything back:
    camera moves and option changes, which the library animates on its
    own schedule. *)
Inductive request : Type :=
| Focus (node : value)
| Fit
| SetOptions (options : obj)
| Stabilize.

(** A network object.  [handle] names the canvas, timers and listeners
    the library holds for it; [alive] turns false when [destroy] has
    deleted the modules its methods go through.  Rendering options are
    read by the library alone and are not carried here. *)
Record Network : Type := {
  handle : nat;
  alive : bool;
  nodes : DataSet;
  edges : DataSet;
  selection : list value;
  requests : list request;
  canvas : string
}.

(** The document and the library's resources: the ids of the elements
    present, the handles of the networks built and not yet destroyed,
    and the next handle. *)
Record browser : Type := {
  containers : list string;
  live : list nat;
  fresh : nat
}.

(** [document.getElementById(id)] finds an element.  The documents
    described have no element of id [__proto__]: the registries are
    written under the ids of elements only, and an assignment
    [table['__proto__'] = x] would replace the table's prototype instead
    of storing an entry. *)
Definition getElementById (b : browser) (id : string) : bool :=
  negb (String.eqb id "__proto__") && existsb (String.eqb id) (containers b).

(** [new vis.Network(container, data, options)] *)
Definition new_network (data_nodes data_edges : DataSet) : M browser Network :=
  fun b =>
    (Return {| handle := fresh b; alive := true;
               nodes := data_nodes; edges := data_edges;
               selection := []; requests := []; canvas := "" |},
     {| containers := containers b;
        live := live b ++ [fresh b];
        fresh := S (fresh b) |}).

(** [network.destroy()]: the library lets go of everything it holds for
    the network; the object itself stays behind, unusable. *)
Definition release (h : nat) (b : browser) : browser :=
  {| containers := containers b;
     live := List.filter (fun h' => negb (Nat.eqb h' h)) (live b);
     fresh := fresh b |}.

Definition dead (n : Network) : Network :=
  {| handle := handle n; alive := false; nodes := nodes n; edges := edges n;
     selection := []; requests := requests n; canvas := canvas n |}.

(** The network follows its node set: a node that leaves the set leaves
    the selection. *)
Definition with_nodes (ds : DataSet) (n : Network) : Network :=
  {| handle := handle n; alive := alive n; nodes := ds; edges := edges n;
     selection := List.filter (has ds) (selection n);
     requests := requests n; canvas := canvas n |}.

Definition with_edges (ds : DataSet) (n : Network) : Network :=
  {| handle := handle n; alive := alive n; nodes := nodes n; edges := ds;
     selection := selection n;
     requests := requests n; canvas := canvas n |}.

(** A DataSet method called through [network.body.data.nodes] (or through
    the [nodes] field of a registry entry, which is the same object). *)
Definition on_nodes {A} (m : M DataSet A) : M Network A := fun n =>
  let '(r, ds) := m (nodes n) in (r, with_nodes ds n).

Definition on_edges {A} (m : M DataSet A) : M Network A := fun n =>
  let '(r, ds) := m (edges n) in (r, with_edges ds n).

(** A method of a destroyed network reads a module that is gone. *)
Definition method {A} (m : M Network A) : M Network A := fun n =>
  if alive n then m n else (Throw TypeError, n).

Definition ask (r : request) : M Network unit := fun n =>
  (Return tt,
   {| handle := handle n; alive := alive n; nodes := nodes n; edges := edges n;
      selection := selection n;
      requests := requests n ++ [r]; canvas := canvas n |}).

Definition select (sel : list value) : M Network unit := fun n =>
  (Return tt,
   {| handle := handle n; alive := alive n; nodes := nodes n; edges := edges n;
      selection := sel;
      requests := requests n; canvas := canvas n |}).

(** [network.body.nodes[id]]: the renderer keeps a node object for every
    item of the node set in a plain object, under the item's id.  An id
    is therefore looked up as a property key: the number 1 and the string
    "1" name the same node (of two items under one key the later stands),
    and a name inherited from [Object.prototype] finds that member. *)
Definition body_node (ds : DataSet) (id : value) : option (slot obj) :=
  slot_of (to_text id)
          (List.find (fun it => String.eqb (to_text (id_of it)) (to_text id))
                     (rev (items ds))).

(** [network.focus(nodeId, options)]: moves the camera when
    [body.nodes[nodeId]] is not undefined; otherwise the id is reported
    on the console and nothing moves. *)
Definition focus (nodeId : value) : M Network unit :=
  method (fun n => match body_node (nodes n) nodeId with
                   | Some _ => ask (Focus nodeId) n
                   | None => (Return tt, n)
                   end).

(** [network.selectNodes(ids)]: the old selection is dropped, then the
    ids are looked up in turn and the nodes found join the selection,
    which lists each selected node's own id once; an id without node
    raises a RangeError, an inherited member is no node object and
    raises a TypeError. *)
Definition selectNodes (ids : list value) : M Network unit :=
  method (select [] ;>
          for_each ids (fun id n =>
            match body_node (nodes n) id with
            | Some (Entry node) =>
                if includes (selection n) (id_of node) then (Return tt, n)
                else select (selection n ++ [id_of node]) n
            | Some Member => (Throw TypeError, n)
            | None => (Throw RangeError, n)
            end)).

(** [network.getSelectedNodes()] *)
Definition getSelectedNodes : M Network (list value) :=
  method (fun n => (Return (selection n), n)).

(** [network.setOptions(options)] *)
Definition setOptions (options : obj) : M Network unit :=
  method (ask (SetOptions options)).

(** [network.canvas.frame.canvas.toDataURL('image/png')] *)
Definition toDataURL : M Network value :=
  method (fun n => (Return (VStr (canvas n)), n)).

(** [new vis.DataSet(items)] *)
Definition new_DataSet {S} (its : list obj) : M S DataSet := fun s =>
  match add_all its empty_set with
  | (Return _, ds) => (Return ds, s)
  | (Throw e, _) => (Throw e, s)
  end.

(** *** A registry of networks

    The scripts other than the journey builder keep one table from
    container id to network (the entry's [network] and [data] fields name
    the same objects the network holds). *)
Record page : Type := {
  env : browser;
  registry : gmap string Network
}.

(** [instances[containerId]] *)
Definition lookup_instance (containerId : string) : M page (option (slot Network)) :=
  fun st => (Return (slot_of containerId (registry st !! containerId)), st).

Definition set_instance (containerId : string) (network : Network) (st : page)
  : page :=
  {| env := env st; registry := <[containerId := network]> (registry st) |}.

(** Runs a method on the network object held at [containerId]; what
    the table reads there otherwise (nothing, or an inherited member) has
    neither the method nor the properties that lead to it, which is a
    TypeError. *)
Definition in_instance {A} (containerId : string) (m : M Network A) : M page A :=
  fun st =>
    match registry st !! containerId with
    | Some network =>
        let '(r, network') := m network in (r, set_instance containerId network' st)
    | None => (Throw TypeError, st)
    end.

Definition in_env {A} (m : M browser A) : M page A := fun st =>
  let '(r, b) := m (env st) in
  (r, {| env := b; registry := registry st |}).

Definition store (containerId : string) (network : Network) : M page unit :=
  modify (set_instance containerId network).

(** [instance.network.destroy(); delete registry[containerId]] *)
Definition destroy_and_delete (containerId : string) (network : Network)
  : M page unit :=
  modify (fun st => {| env := release (handle network) (env st);
                       registry := delete containerId (registry st) |}).

End Vis.

(** ** src/js/journey-builder-graph.js *)

Module JourneyBuilder.
Import Vis.

(** [window.journeyBuilderGraph] with its two tables, and the page around it. *)
Record state : Type := {
  env : browser;
  networks : gmap string Network;
  dotNetRefs : gmap string value
}.

(** [this.networks[containerId]] *)
Definition lookup_network (containerId : string) : M state (option (slot Network)) :=
  fun st => (Return (slot_of containerId (networks st !! containerId)), st).

Definition set_network (containerId : string) (network : Network) (st : state)
  : state :=
  {| env := env st;
     networks := <[containerId := network]> (networks st);
     dotNetRefs := dotNetRefs st |}.

(** Runs a method on the network object held at [containerId]; what
    the table reads there otherwise (nothing, or an inherited member) has
    neither the method nor the properties that lead to it, which is a
    TypeError. *)
Definition in_network {A} (containerId : string) (m : M Network A) : M state A :=
  fun st =>
    match networks st !! containerId with
    | Some network =>
        let '(r, network') := m network in (r, set_network containerId network' st)
    | None => (Throw TypeError, st)
    end.

Definition in_env {A} (m : M browser A) : M state A := fun st =>
  let '(r, b) := m (env st) in
  (r, {| env := b; networks := networks st; dotNetRefs := dotNetRefs st |}).

(** initialize (lines 13-201).  The option literals and the event
    listeners configure the renderer and the host callbacks; neither
    reads or writes the registry. *)
Definition initialize (containerId : string) (dotNetRef : value) (options : obj)
  : M state value :=
  let! st := read in
  if negb (getElementById (env st) containerId) then ret (VBool false)
  else
    let! network := in_env (new_network empty_set empty_set) in
    modify (fun st => {| env := env st;
                         networks := <[containerId := network]> (networks st);
                         dotNetRefs := <[containerId := dotNetRef]> (dotNetRefs st) |}) ;>
    ret (VBool true).

Definition color2 (background border : string) : value :=
  VObj [("background", VStr background); ("border", VStr border)].

Definition icon (code : string) : value :=
  VObj [("face", VStr "FontAwesome"); ("code", VStr code);
        ("size", num 50); ("color", VStr "#ffffff")].

(** The [styles] table of styleNode (lines 223-260); icon codes are kept
    as their escape text. *)
Definition styles : list (string * obj) :=
  [ ("Start", [("color", color2 "#4CAF50" "#388E3C"); ("shape", VStr "ellipse");
               ("icon", icon "\uf04b")]);
    ("SendEmail", [("color", color2 "#2196F3" "#1976D2"); ("icon", icon "\uf0e0")]);
    ("SendSMS", [("color", color2 "#00BCD4" "#0097A7"); ("icon", icon "\uf4ad")]);
    ("Wait", [("color", color2 "#FF9800" "#F57C00"); ("icon", icon "\uf017")]);
    ("DecisionSplit", [("color", color2 "#FFC107" "#FFA000"); ("shape", VStr "diamond");
                       ("icon", icon "\uf126")]);
    ("ABTest", [("color", color2 "#9C27B0" "#7B1FA2"); ("shape", VStr "diamond");
                ("icon", icon "\uf0ec")]);
    ("UpdateProfile", [("color", color2 "#3F51B5" "#303F9F"); ("icon", icon "\uf007")]);
    ("End", [("color", color2 "#F44336" "#D32F2F"); ("shape", VStr "ellipse");
             ("icon", icon "\uf04d")]) ].

Definition default_style : obj :=
  [("color", color2 "#607D8B" "#455A64"); ("icon", icon "\uf013")].

(** [styles[node.type] || { ... }] *)
Definition style_for (type : value) : obj :=
  let key := to_text type in
  match List.find (fun entry => String.eqb key (fst entry)) styles with
  | Some entry => snd entry
  | None => if inherited key then [] else default_style
  end.

(** styleNode (lines 222-272) *)
Definition styleNode (node : obj) : obj :=
  spread (spread node (style_for (get node "type")))
         [("font", VObj [("color", VStr "#ffffff"); ("size", num 14)])].

(** addNode (lines 206-217) *)
Definition addNode (containerId : string) (nodeData : obj) : M state value :=
  let! network := lookup_network containerId in
  match network with
  | None => ret (VBool false)
  | Some _ =>
      let styledNode := styleNode nodeData in
      in_network containerId (on_nodes (add styledNode)) ;>
      ret (VBool true)
  end.

(** addEdge (lines 277-284) *)
Definition addEdge (containerId : string) (edgeData : obj) : M state value :=
  let! network := lookup_network containerId in
  match network with
  | None => ret (VBool false)
  | Some _ =>
      in_network containerId (on_edges (add edgeData)) ;>
      ret (VBool true)
  end.

(** removeNode (lines 289-296) *)
Definition removeNode (containerId : string) (nodeId : value) : M state value :=
  let! network := lookup_network containerId in
  match network with
  | None => ret (VBool false)
  | Some _ =>
      in_network containerId (on_nodes (remove nodeId)) ;>
      ret (VBool true)
  end.

(** removeEdge (lines 301-308) *)
Definition removeEdge (containerId : string) (edgeId : value) : M state value :=
  let! network := lookup_network containerId in
  match network with
  | None => ret (VBool false)
  | Some _ =>
      in_network containerId (on_edges (remove edgeId)) ;>
      ret (VBool true)
  end.

(** updateNode (lines 313-321) *)
Definition updateNode (containerId : string) (nodeId : value) (updates : obj)
  : M state value :=
  let! network := lookup_network containerId in
  match network with
  | None => ret (VBool false)
  | Some _ =>
      let styledUpdates := styleNode (put updates "id" nodeId) in
      in_network containerId (on_nodes (update styledUpdates)) ;>
      ret (VBool true)
  end.

(** updateEdge (lines 326-333) *)
Definition updateEdge (containerId : string) (edgeId : value) (updates : obj)
  : M state value :=
  let! network := lookup_network containerId in
  match network with
  | None => ret (VBool false)
  | Some _ =>
      in_network containerId (on_edges (update (put updates "id" edgeId))) ;>
      ret (VBool true)
  end.

(** The [journeyData] argument of loadData: [None] stands for a property
    that is missing or null. *)
Record journeyData : Type := {
  data_nodes : option (list obj);
  data_edges : option (list obj)
}.

(** loadData (lines 338-371).  The delayed [network.fit] runs from a
    timer after the call has returned. *)
Definition loadData (containerId : string) (data : journeyData) : M state value :=
  let! network := lookup_network containerId in
  match network with
  | None => ret (VBool false)
  | Some _ =>
      in_network containerId (on_nodes clear) ;>
      in_network containerId (on_edges clear) ;>
      match data_nodes data with
      | Some (n :: ns) =>
          let styledNodes := map styleNode (n :: ns) in
          in_network containerId (on_nodes (add_all styledNodes))
      | _ => ret tt
      end ;>
      match data_edges data with
      | Some (e :: es) => in_network containerId (on_edges (add_all (e :: es)))
      | _ => ret tt
      end ;>
      ret (VBool true)
  end.

(** getData (lines 376-387) *)
Definition getData (containerId : string) : M state value :=
  let! network := lookup_network containerId in
  match network with
  | None => ret VNull
  | Some (Entry network) =>
      ret (VObj [("nodes", VArr (map VObj (get_all (nodes network))));
                 ("edges", VArr (map VObj (get_all (edges network))))])
  | Some Member => throw TypeError
  end.

(** focusNode (lines 392-405) *)
Definition focusNode (containerId : string) (nodeId : value) : M state value :=
  let! network := lookup_network containerId in
  match network with
  | None => ret (VBool false)
  | Some _ =>
      in_network containerId (focus nodeId) ;>
      in_network containerId (selectNodes [nodeId]) ;>
      ret (VBool true)
  end.

(** resetHighlight (lines 453-477) *)
Definition resetHighlight (containerId : string) : M state value :=
  let! network := lookup_network containerId in
  match network with
  | None => ret (VBool false)
  | Some _ =>
      in_network containerId
        (for_each_item nodes (fun node =>
           on_nodes (update [("id", get node "id"); ("borderWidth", num 2);
                             ("borderWidthSelected", num 3)]))) ;>
      in_network containerId
        (for_each_item edges (fun edge =>
           on_edges (update [("id", get edge "id"); ("width", num 2);
                             ("color", VObj [("color", VStr "#848484");
                                             ("highlight", VStr "#2B7CE9")])]))) ;>
      ret (VBool true)
  end.

(** The index pairs [(i, i + 1)] of the loop at lines 433-445, as the
    elements they select. *)
Definition consecutive (nodeIds : list value) : list (value * value) :=
  combine nodeIds (tl nodeIds).

(** highlightPath (lines 410-448) *)
Definition highlightPath (containerId : string) (nodeIds : list value)
  : M state value :=
  let! network := lookup_network containerId in
  match network with
  | None => ret (VBool false)
  | Some _ =>
      resetHighlight containerId ;>
      for_each nodeIds (fun nodeId =>
        let! node := in_network containerId
                       (fun n => (Return (get_by (nodes n) nodeId), n)) in
        if truthy node
        then in_network containerId
               (on_nodes (update [("id", nodeId); ("borderWidth", num 5);
                                  ("borderWidthSelected", num 6)]))
        else ret tt) ;>
      for_each (consecutive nodeIds) (fun step =>
        let! edgesData :=
          in_network containerId
            (fun n => (Return (List.filter
                                 (fun edge => strict_eq (get edge "from") (fst step)
                                              && strict_eq (get edge "to") (snd step))
                                 (get_all (edges n))), n)) in
        for_each edgesData (fun edge =>
          in_network containerId
            (on_edges (update [("id", get edge "id"); ("width", num 4);
                               ("color", VObj [("color", VStr "#FF5722");
                                               ("highlight", VStr "#FF5722")])])))) ;>
      ret (VBool true)
  end.

(** clear (lines 534-544) *)
Definition clear (containerId : string) : M state value :=
  let! network := lookup_network containerId in
  match network with
  | None => ret (VBool false)
  | Some _ =>
      in_network containerId (on_nodes Vis.clear) ;>
      in_network containerId (on_edges Vis.clear) ;>
      ret (VBool true)
  end.

(** setPhysics (lines 549-555) *)
Definition setPhysics (containerId : string) (enabled : value) : M state value :=
  let! network := lookup_network containerId in
  match network with
  | None => ret (VBool false)
  | Some _ =>
      in_network containerId
        (setOptions [("physics", VObj [("enabled", enabled)])]) ;>
      ret (VBool true)
  end.

(** exportToPNG (lines 571-577) *)
Definition exportToPNG (containerId : string) : M state value :=
  let! network := lookup_network containerId in
  match network with
  | None => ret VNull
  | Some _ => in_network containerId toDataURL
  end.

(** The checks of validate (lines 589-619), in the order they push. *)
Definition is_type (type : string) (n : obj) : bool :=
  strict_eq (get n "type") (VStr type).

Definition start_errors (nodes : list obj) : list string :=
  let startNodes := List.filter (is_type "Start") nodes in
  if Nat.eqb (length startNodes) 0 then ["Journey must have a Start node"]
  else if Nat.ltb 1 (length startNodes) then ["Journey can only have one Start node"]
  else [].

Definition end_errors (nodes : list obj) : list string :=
  let endNodes := List.filter (is_type "End") nodes in
  if Nat.eqb (length endNodes) 0 then ["Journey must have at least one End node"]
  else [].

Definition hasIncoming (edges : list obj) (node : obj) : bool :=
  existsb (fun e => strict_eq (get e "to") (get node "id")) edges.

Definition hasOutgoing (edges : list obj) (node : obj) : bool :=
  existsb (fun e => strict_eq (get e "from") (get node "id")) edges.

Definition node_errors (edges : list obj) (node : obj) : list string :=
  if negb (is_type "Start" node) && negb (is_type "End" node) then
    let label := (dquote ++ to_text (get node "label") ++ dquote)%string in
    if negb (hasIncoming edges node) && negb (hasOutgoing edges node)
    then [("Node " ++ label ++ " is not connected")%string]
    else if negb (hasIncoming edges node)
    then [("Node " ++ label ++ " has no incoming connections")%string]
    else if negb (hasOutgoing edges node)
    then [("Node " ++ label ++ " has no outgoing connections")%string]
    else []
  else [].

Definition errors_of (nodes edges : list obj) : list string :=
  start_errors nodes ++ end_errors nodes ++ flat_map (node_errors edges) nodes.

(** validate (lines 582-629) *)
Definition validate (containerId : string) : M state value :=
  let! network := lookup_network containerId in
  match network with
  | None => ret (VObj [("valid", VBool false);
                       ("errors", VArr [VStr "Network not found"])])
  | Some (Entry network) =>
      let nodes := get_all (nodes network) in
      let edges := get_all (edges network) in
      let errors := errors_of nodes edges in
      ret (VObj [("valid", VBool (Nat.eqb (length errors) 0));
                 ("errors", VArr (map VStr errors));
                 ("warnings", VArr [])])
  | Some Member => throw TypeError
  end.

(** destroy (lines 634-642) *)
Definition destroy (containerId : string) : M state value :=
  let! network := lookup_network containerId in
  match network with
  | Some (Entry network) =>
      modify (fun st => {| env := release (handle network) (env st);
                           networks := delete containerId (networks st);
                           dotNetRefs := delete containerId (dotNetRefs st) |})
  | Some Member => throw TypeError
  | None => ret tt
  end ;>
  ret (VBool true).

(** fit (lines 518-529) *)
Definition fit (containerId : string) : M state value :=
  let! network := lookup_network containerId in
  match network with
  | None => ret (VBool false)
  | Some _ =>
      in_network containerId (method (ask Fit)) ;>
      ret (VBool true)
  end.

(** stabilize (lines 560-566) *)
Definition stabilize (containerId : string) : M state value :=
  let! network := lookup_network containerId in
  match network with
  | None => ret (VBool false)
  | Some _ =>
      in_network containerId (method (ask Stabilize)) ;>
      ret (VBool true)
  end.

End JourneyBuilder.

(** ** src/js/theme.js: window.customerNetworkGraph

    getNodeSize goes through [Math.log10] and the two tooltip builders
    through [toLocaleString] and the decimal text of numbers, which the
    values here do not carry: loadData takes the three helpers as
    functions from a record to a value. *)

Module CustomerNetwork.
Import Vis.

(** initialize (lines 24-123) *)
Definition initialize (containerId : string) (options : obj) : M page value :=
  try_catch
    (let! st := read in
     if negb (getElementById (env st) containerId) then ret (VBool false)
     else
       let! network := in_env (new_network empty_set empty_set) in
       store containerId network ;>
       ret (VBool true))
    (fun _ => ret (VBool false)).

(** focusNode (lines 307-331) *)
Definition focusNode (containerId : string) (nodeId : value) : M page value :=
  try_catch
    (let! instance := lookup_instance containerId in
     match instance with
     | None => ret (VBool false)
     | Some _ =>
         in_instance containerId (focus nodeId) ;>
         in_instance containerId (selectNodes [nodeId]) ;>
         ret (VBool true)
     end)
    (fun _ => ret (VBool false)).

Definition opacity (highlighted : bool) : value :=
  if highlighted then dec 1.0 else dec 0.3.

(** highlightPath (lines 333-368) *)
Definition highlightPath (containerId : string) (nodeIds : list value)
  : M page value :=
  try_catch
    (let! instance := lookup_instance containerId in
     match instance with
     | None => ret (VBool false)
     | Some Member => throw TypeError
     | Some (Entry instance) =>
         let edges := get_all (edges instance) in
         let highlightEdges :=
           List.filter (fun edge => includes nodeIds (get edge "from")
                                    && includes nodeIds (get edge "to")) edges in
         in_instance containerId
           (for_each_item nodes (fun node =>
              on_nodes (update [("id", get node "id");
                                ("opacity", opacity (includes nodeIds (get node "id")))]))) ;>
         in_instance containerId
           (for_each_item Vis.edges (fun edge =>
              let isHighlighted :=
                existsb (fun e => strict_eq (get e "id") (get edge "id")) highlightEdges in
              on_edges (update [("id", get edge "id");
                                ("opacity", opacity isHighlighted)]))) ;>
         ret (VBool true)
     end)
    (fun _ => ret (VBool false)).

(** resetHighlight (lines 370-392) *)
Definition resetHighlight (containerId : string) : M page value :=
  try_catch
    (let! instance := lookup_instance containerId in
     match instance with
     | None => ret (VBool false)
     | Some _ =>
         in_instance containerId
           (for_each_item nodes (fun node =>
              on_nodes (update [("id", get node "id"); ("opacity", opacity true)]))) ;>
         in_instance containerId
           (for_each_item edges (fun edge =>
              on_edges (update [("id", get edge "id"); ("opacity", opacity true)]))) ;>
         ret (VBool true)
     end)
    (fun _ => ret (VBool false)).

(** exportToPNG (lines 394-408) *)
Definition exportToPNG (containerId : string) : M page value :=
  try_catch
    (let! instance := lookup_instance containerId in
     match instance with
     | None => ret VNull
     | Some _ => in_instance containerId toDataURL
     end)
    (fun _ => ret VNull).

(** destroy (lines 410-423) *)
Definition destroy (containerId : string) : M page value :=
  try_catch
    (let! instance := lookup_instance containerId in
     match instance with
     | Some (Entry instance) => destroy_and_delete containerId instance
     | Some Member => throw TypeError
     | None => ret tt
     end ;>
     ret (VBool true))
    (fun _ => ret (VBool false)).

(** setPhysicsEnabled (lines 425-442) *)
Definition setPhysicsEnabled (containerId : string) (enabled : value)
  : M page value :=
  try_catch
    (let! instance := lookup_instance containerId in
     match instance with
     | None => ret (VBool false)
     | Some _ =>
         in_instance containerId
           (setOptions [("physics", VObj [("enabled", enabled)])]) ;>
         ret (VBool true)
     end)
    (fun _ => ret (VBool false)).

(** stabilize (lines 444-458) *)
Definition stabilize (containerId : string) : M page value :=
  try_catch
    (let! instance := lookup_instance containerId in
     match instance with
     | None => ret (VBool false)
     | Some _ =>
         in_instance containerId (method (ask Stabilize)) ;>
         ret (VBool true)
     end)
    (fun _ => ret (VBool false)).

(** A colour record of getNodeColor. *)
Definition gradient (background border highlight_background highlight_border : string)
  : value :=
  VObj [("background", VStr background); ("border", VStr border);
        ("highlight", VObj [("background", VStr highlight_background);
                            ("border", VStr highlight_border)])].

(** getNodeColor (lines 181-224) *)
Definition getNodeColor (node : obj) : value :=
  if strict_eq (get node "nodeType") (VStr "customer")
  then gradient "#3b82f6" "#2563eb" "#2563eb" "#1d4ed8"
  else if truthy (get node "isBeneficialOwner")
  then gradient "#dc2626" "#b91c1c" "#b91c1c" "#991b1b"
  else if strict_eq (get node "tier") (VStr "PLATINUM")
          || strict_eq (get node "tier") (VStr "GOLD")
  then gradient "#f59e0b" "#d97706" "#d97706" "#b45309"
  else gradient "#6b7280" "#4b5563" "#4b5563" "#374151".

(** The [graphData] argument of loadData: [None] stands for a property
    that is missing, on which [.map] raises a TypeError. *)
Record graphData : Type := {
  graph_nodes : option (list obj);
  graph_edges : option (list obj)
}.

Section Helpers.

(** getNodeSize (lines 226-242), createNodeTooltip (lines 244-266) and
    createEdgeTooltip (lines 268-282). *)
Variable getNodeSize : obj -> value.
Variable createNodeTooltip : obj -> value.
Variable createEdgeTooltip : obj -> value.

(** The node literal of loadData (lines 134-145). *)
Definition node_record (node : obj) : obj :=
  [("id", get node "id");
   ("label", get node "label");
   ("title", createNodeTooltip node);
   ("color", getNodeColor node);
   ("size", getNodeSize node);
   ("font",
    VObj [("color", if strict_eq (get node "nodeType") (VStr "customer")
                    then VStr "#ffffff" else VStr "#343a40")]);
   ("borderWidth", if truthy (get node "isBeneficialOwner") then num 4 else num 2);
   ("borderWidthSelected",
    if truthy (get node "isBeneficialOwner") then num 6 else num 3)].

(** The edge literal of loadData (lines 148-157). *)
Definition edge_record (edge : obj) : obj :=
  [("from", get edge "from");
   ("to", get edge "to");
   ("label", get edge "label");
   ("title", createEdgeTooltip edge);
   ("width", if truthy (get edge "isBeneficialOwner") then num 3 else num 2);
   ("color",
    if truthy (get edge "isBeneficialOwner")
    then VObj [("color", VStr "#dc2626"); ("highlight", VStr "#b91c1c")]
    else VObj [("color", VStr "#848484"); ("highlight", VStr "#3b82f6")])].

(** loadData (lines 125-179) *)
Definition loadData (containerId : string) (data : graphData) : M page value :=
  try_catch
    (let! instance := lookup_instance containerId in
     match instance with
     | None => ret (VBool false)
     | Some _ =>
         match graph_nodes data with
         | None => throw TypeError
         | Some ns =>
             let nodes := map node_record ns in
             match graph_edges data with
             | None => throw TypeError
             | Some es =>
                 let edges := map edge_record es in
                 in_instance containerId (on_nodes clear) ;>
                 in_instance containerId (on_edges clear) ;>
                 in_instance containerId (on_nodes (add_all nodes)) ;>
                 in_instance containerId (on_edges (add_all edges)) ;>
                 in_instance containerId (method (ask Fit)) ;>
                 ret (VBool true)
             end
         end
     end)
    (fun _ => ret (VBool false)).

End Helpers.

End CustomerNetwork.

(** ** src/unnamed/part_000: window.customerNetworkGraph over networkInstances *)

Module CustomerGraph.
Import Vis.

(** initialize (lines 7-103) *)
Definition initialize (containerId : string) (dotNetRef : value) : M page value :=
  let! st := read in
  if negb (getElementById (env st) containerId) then ret (VBool false)
  else
    let! network := in_env (new_network empty_set empty_set) in
    store containerId network ;>
    ret (VBool true).

(** The node literal of addNode (lines 113-132). *)
Definition node_of (nodeData : obj) : obj :=
  [("id", get nodeData "id");
   ("label", get nodeData "label");
   ("title", or_else (get nodeData "title") (get nodeData "label"));
   ("group", get nodeData "group");
   ("color",
    VObj [("background", or_else (get nodeData "color") (VStr "#3b82f6"));
          ("border", or_else (get nodeData "borderColor") (VStr "#2563eb"));
          ("highlight",
           VObj [("background", or_else (get nodeData "highlightColor") (VStr "#60a5fa"));
                 ("border", or_else (get nodeData "highlightBorderColor") (VStr "#1d4ed8"))])]);
   ("size", or_else (get nodeData "size") (num 20));
   ("font", VObj [("color", VStr "#ffffff");
                  ("size", or_else (get nodeData "fontSize") (num 14))]);
   ("shape", or_else (get nodeData "shape") (VStr "dot"))].

(** addNode (lines 105-140) *)
Definition addNode (containerId : string) (nodeData : obj) : M page value :=
  let! instance := lookup_instance containerId in
  match instance with
  | None => ret (VBool false)
  | Some _ =>
      try_catch
        (in_instance containerId (on_nodes (add (node_of nodeData))) ;>
         ret (VBool true))
        (fun _ => ret (VBool false))
  end.

(** The edge literal of addEdge (lines 150-167). *)
Definition edge_of (edgeData : obj) : obj :=
  [("from", get edgeData "from");
   ("to", get edgeData "to");
   ("label", or_else (get edgeData "label") (VStr ""));
   ("title", or_else (get edgeData "title") (get edgeData "label"));
   ("color",
    VObj [("color", or_else (get edgeData "color") (VStr "#94a3b8"));
          ("highlight", or_else (get edgeData "highlightColor") (VStr "#475569"))]);
   ("width", or_else (get edgeData "width") (num 2));
   ("dashes", or_else (get edgeData "dashed") (VBool false));
   ("arrows",
    VObj [("to",
           VObj [("enabled", VBool (negb (strict_eq (get edgeData "directed") (VBool false))));
                 ("scaleFactor", dec 0.5)])])].

(** addEdge (lines 142-175) *)
Definition addEdge (containerId : string) (edgeData : obj) : M page value :=
  let! instance := lookup_instance containerId in
  match instance with
  | None => ret (VBool false)
  | Some _ =>
      try_catch
        (in_instance containerId (on_edges (add (edge_of edgeData))) ;>
         ret (VBool true))
        (fun _ => ret (VBool false))
  end.

(** updateNode (lines 177-188): [{ id: nodeId, ...updates }] *)
Definition updateNode (containerId : string) (nodeId : value) (updates : obj)
  : M page value :=
  let! instance := lookup_instance containerId in
  match instance with
  | None => ret (VBool false)
  | Some _ =>
      try_catch
        (in_instance containerId
           (on_nodes (update (spread [("id", nodeId)] updates))) ;>
         ret (VBool true))
        (fun _ => ret (VBool false))
  end.

(** removeNode (lines 190-201) *)
Definition removeNode (containerId : string) (nodeId : value) : M page value :=
  let! instance := lookup_instance containerId in
  match instance with
  | None => ret (VBool false)
  | Some _ =>
      try_catch
        (in_instance containerId (on_nodes (remove nodeId)) ;>
         ret (VBool true))
        (fun _ => ret (VBool false))
  end.

(** clearNetwork (lines 203-215) *)
Definition clearNetwork (containerId : string) : M page value :=
  let! instance := lookup_instance containerId in
  match instance with
  | None => ret (VBool false)
  | Some _ =>
      try_catch
        (in_instance containerId (on_nodes clear) ;>
         in_instance containerId (on_edges clear) ;>
         ret (VBool true))
        (fun _ => ret (VBool false))
  end.

(** focusNode (lines 235-252) *)
Definition focusNode (containerId : string) (nodeId : value) : M page value :=
  let! instance := lookup_instance containerId in
  match instance with
  | None => ret (VBool false)
  | Some _ =>
      try_catch
        (in_instance containerId (focus nodeId) ;>
         ret (VBool true))
        (fun _ => ret (VBool false))
  end.

(** enablePhysics (lines 280-291) *)
Definition enablePhysics (containerId : string) (enable : value) : M page value :=
  let! instance := lookup_instance containerId in
  match instance with
  | None => ret (VBool false)
  | Some _ =>
      try_catch
        (in_instance containerId
           (setOptions [("physics", VObj [("enabled", enable)])]) ;>
         ret (VBool true))
        (fun _ => ret (VBool false))
  end.

(** setLayout (lines 293-319) *)
Definition setLayout (containerId : string) (layoutType : value) : M page value :=
  let! instance := lookup_instance containerId in
  match instance with
  | None => ret (VBool false)
  | Some _ =>
      try_catch
        (let layoutOptions :=
           [("hierarchical",
             if strict_eq layoutType (VStr "hierarchical")
             then VObj [("enabled", VBool true); ("direction", VStr "UD");
                        ("sortMethod", VStr "directed");
                        ("levelSeparation", num 150); ("nodeSpacing", num 200)]
             else VBool false);
            ("improvedLayout", VBool true)] in
         in_instance containerId (setOptions [("layout", VObj layoutOptions)]) ;>
         ret (VBool true))
        (fun _ => ret (VBool false))
  end.

(** exportNetwork (lines 321-334) *)
Definition exportNetwork (containerId : string) : M page value :=
  let! instance := lookup_instance containerId in
  match instance with
  | None => ret VNull
  | Some (Entry instance) =>
      try_catch
        (ret (VObj [("nodes", VArr (map VObj (get_all (nodes instance))));
                    ("edges", VArr (map VObj (get_all (edges instance))))]))
        (fun _ => ret VNull)
  | Some Member => try_catch (throw TypeError) (fun _ => ret VNull)
  end.

(** destroy (lines 336-348) *)
Definition destroy (containerId : string) : M page value :=
  let! instance := lookup_instance containerId in
  match instance with
  | None => ret (VBool false)
  | Some (Entry instance) =>
      try_catch
        (destroy_and_delete containerId instance ;>
         ret (VBool true))
        (fun _ => ret (VBool false))
  | Some Member => try_catch (throw TypeError) (fun _ => ret (VBool false))
  end.

(** fitNetwork (lines 217-233) *)
Definition fitNetwork (containerId : string) : M page value :=
  let! instance := lookup_instance containerId in
  match instance with
  | None => ret (VBool false)
  | Some _ =>
      try_catch
        (in_instance containerId (method (ask Fit)) ;>
         ret (VBool true))
        (fun _ => ret (VBool false))
  end.

(** selectNode (lines 254-265) *)
Definition selectNode (containerId : string) (nodeId : value) : M page value :=
  let! instance := lookup_instance containerId in
  match instance with
  | None => ret (VBool false)
  | Some _ =>
      try_catch
        (in_instance containerId (selectNodes [nodeId]) ;>
         ret (VBool true))
        (fun _ => ret (VBool false))
  end.

(** setOptions (lines 267-278) *)
Definition setOptions (containerId : string) (options : obj) : M page value :=
  let! instance := lookup_instance containerId in
  match instance with
  | None => ret (VBool false)
  | Some _ =>
      try_catch
        (in_instance containerId (Vis.setOptions options) ;>
         ret (VBool true))
        (fun _ => ret (VBool false))
  end.

End CustomerGraph.

(** ** src/unnamed/part_001: window.renderRelationshipGraph and companions *)

Module RelationshipGraph.
Import Vis.

(** renderRelationshipGraph (lines 13-93).  The listeners it installs log
    to the console and fit the view after stabilization. *)
Definition renderRelationshipGraph (containerId : string)
    (nodes edges : list obj) (options : obj) : M page value :=
  try_catch
    (let! st := read in
     if negb (getElementById (env st) containerId) then ret VUndefined
     else
       let! nodesDataSet := new_DataSet nodes in
       let! edgesDataSet := new_DataSet edges in
       let! existing := lookup_instance containerId in
       match existing with
       | Some (Entry old) =>
           modify (fun st => {| env := release (handle old) (env st);
                                registry := <[containerId := dead old]> (registry st) |})
       | Some Member => throw TypeError
       | None => ret tt
       end ;>
       let! network := in_env (new_network nodesDataSet edgesDataSet) in
       store containerId network ;>
       ret (VBool true))
    (fun _ => ret (VBool false)).

(** exportGraph (lines 99-126): the image is handed to a download link
    from the canvas' callback; the call itself returns nothing. *)
Definition exportGraph (containerId : string) : M page value :=
  try_catch
    (let! network := lookup_instance containerId in
     match network with
     | None => ret VUndefined
     | Some _ => in_instance containerId toDataURL ;> ret VUndefined
     end)
    (fun _ => ret VUndefined).

(** updateGraphData (lines 134-161) *)
Definition updateGraphData (containerId : string) (nodes edges : list obj)
  : M page value :=
  try_catch
    (let! network := lookup_instance containerId in
     match network with
     | None => ret (VBool false)
     | Some _ =>
         in_instance containerId (on_nodes clear) ;>
         in_instance containerId (on_nodes (add_all nodes)) ;>
         in_instance containerId (on_edges clear) ;>
         in_instance containerId (on_edges (add_all edges)) ;>
         in_instance containerId (method (ask Fit)) ;>
         ret (VBool true)
     end)
    (fun _ => ret (VBool false)).

(** highlightNodes (lines 168-193) *)
Definition highlightNodes (containerId : string) (nodeIds : list value)
  : M page value :=
  try_catch
    (let! network := lookup_instance containerId in
     match network with
     | None => ret (VBool false)
     | Some _ =>
         in_instance containerId (selectNodes nodeIds) ;>
         in_instance containerId (focus (hd VUndefined nodeIds)) ;>
         ret (VBool true)
     end)
    (fun _ => ret (VBool false)).

(** getSelectedNodes (lines 200-213) *)
Definition getSelectedNodes (containerId : string) : M page value :=
  try_catch
    (let! network := lookup_instance containerId in
     match network with
     | None => ret (VArr [])
     | Some _ =>
         let! selected := in_instance containerId Vis.getSelectedNodes in
         ret (VArr selected)
     end)
    (fun _ => ret (VArr [])).

(** destroyGraph (lines 219-230): no return statement. *)
Definition destroyGraph (containerId : string) : M page value :=
  try_catch
    (let! network := lookup_instance containerId in
     match network with
     | Some (Entry network) => destroy_and_delete containerId network
     | Some Member => throw TypeError
     | None => ret tt
     end ;>
     ret VUndefined)
    (fun _ => ret VUndefined).

(** The beforeunload listener (lines 290-297). *)
Definition beforeunload : M page unit :=
  modify (fun st =>
    {| env := fold_left (fun b entry => release (handle (snd entry)) b)
                        (map_to_list (registry st)) (env st);
       registry := ∅ |}).

(** centerGraph (lines 236-256) *)
Definition centerGraph (containerId : string) : M page value :=
  try_catch
    (let! network := lookup_instance containerId in
     match network with
     | None => ret (VBool false)
     | Some _ =>
         in_instance containerId (method (ask Fit)) ;>
         ret (VBool true)
     end)
    (fun _ => ret (VBool false)).

End RelationshipGraph.

(** ** src/js/d3-network-graph.js

    Node and link records are JavaScript objects shared between the
    instance's arrays and the d3 force simulation, which rewrites a
    link's [source] and [target] from node ids to the node objects
    themselves.  The objects therefore live in a store and the arrays
    hold their identities.  The simulation's coordinates ([x], [y],
    [vx], [vy], [index]) are its own business and are not carried.
    zoom, resetZoom, highlightNode and clearHighlights restyle DOM
    elements only: of them the embedding keeps what they return and
    whether the element selections they go through have been set.

    Under an id that names a member of [Object.prototype] and has no
    instance, every function finds that member in place of an instance
    and fails on the first property it needs of it.  setData and
    clearGraph have by then stored their arrays on the member itself, a
    built-in object: the state records that this has happened
    ([extended]) and nothing more. *)

Module D3Graph.

(** An end of a link: what the caller gave, or the node object the link
    force has put in its place. *)
Inductive endpoint : Type :=
| Given (v : value)
| Node (k : nat).

Record link : Type := {
  source : endpoint;
  target : endpoint;
  fields : obj
}.

Record instance : Type := {
  node_objects : gmap nat obj;
  link_objects : gmap nat link;
  next : nat;
  nodes : list nat;
  links : list nat;
  (** the link force's own array; [None] while it is [instance.links] itself *)
  force_links : option (list nat);
  (** nodeElements, linkElements and labelElements are set *)
  elements : bool;
  (** the simulation's timer runs *)
  running : bool;
  (** the x and y forces of the hierarchical layout are installed *)
  layered : bool
}.

(** The document (ids of the elements present), the colour schemes of
    the d3 build the page has loaded (the names [X] for which [d3.schemeX]
    is an array of colours), and [graphInstances].

    [extended] tells that a call has stored [nodes] and [links] on a
    member of [Object.prototype].  The members are bare no longer, and,
    when the id was [__proto__], every object has come to inherit the two
    arrays, the table included, which then reads them under the ids
    [nodes] and [links].  What the table reads under an id without
    instance is described for the pages where this has not happened. *)
Record state : Type := {
  containers : list string;
  d3_schemes : list string;
  graphInstances : gmap string instance;
  extended : bool
}.

(** The colour schemes of d3 7. *)
Definition d3_7_schemes : list string :=
  ["Category10"; "Accent"; "Dark2"; "Observable10"; "Paired"; "Pastel1"; "Pastel2";
   "Set1"; "Set2"; "Set3"; "Tableau10";
   "BrBG"; "PRGn"; "PiYG"; "PuOr"; "RdBu"; "RdGy"; "RdYlBu"; "RdYlGn"; "Spectral";
   "BuGn"; "BuPu"; "GnBu"; "OrRd"; "PuBuGn"; "PuBu"; "PuRd"; "RdPu"; "YlGnBu";
   "YlGn"; "YlOrBr"; "YlOrRd";
   "Blues"; "Greens"; "Greys"; "Oranges"; "Purples"; "Reds"].

(** As for the vis.js pages, no element has the id [__proto__]. *)
Definition getElementById (st : state) (id : string) : bool :=
  negb (String.eqb id "__proto__") && existsb (String.eqb id) (containers st).

(** [graphInstances[containerId]] *)
Definition lookup_instance (containerId : string) : M state (option (slot instance)) :=
  fun st => (Return (slot_of containerId (graphInstances st !! containerId)), st).

Definition set_instance (containerId : string) (inst : instance) (st : state)
  : state :=
  {| containers := containers st;
     d3_schemes := d3_schemes st;
     graphInstances := <[containerId := inst]> (graphInstances st);
     extended := extended st |}.

(** [member.nodes = ...; member.links = ...] on a member of
    [Object.prototype]. *)
Definition extend_member (st : state) : state :=
  {| containers := containers st;
     d3_schemes := d3_schemes st;
     graphInstances := graphInstances st;
     extended := true |}.

(** Runs a step on the instance held at [containerId]; what the table
    reads there otherwise (nothing, or an inherited member) has none of
    [g], [svg], [simulation], [nodes], [links] and the element
    selections, so that the step ends in a TypeError. *)
Definition in_instance {A} (containerId : string) (m : M instance A) : M state A :=
  fun st =>
    match graphInstances st !! containerId with
    | Some inst =>
        let '(r, inst') := m inst in (r, set_instance containerId inst' st)
    | None => (Throw TypeError, st)
    end.

Definition node_at (inst : instance) (k : nat) : obj :=
  default [] (node_objects inst !! k).

Definition link_at (inst : instance) (k : nat) : link :=
  default {| source := Given VUndefined; target := Given VUndefined; fields := [] |}
          (link_objects inst !! k).

Definition set_node (k : nat) (o : obj) (inst : instance) : instance :=
  {| node_objects := <[k := o]> (node_objects inst);
     link_objects := link_objects inst; next := next inst;
     nodes := nodes inst; links := links inst; force_links := force_links inst;
     elements := elements inst; running := running inst; layered := layered inst |}.

Definition set_link (k : nat) (l : link) (inst : instance) : instance :=
  {| node_objects := node_objects inst;
     link_objects := <[k := l]> (link_objects inst); next := next inst;
     nodes := nodes inst; links := links inst; force_links := force_links inst;
     elements := elements inst; running := running inst; layered := layered inst |}.

(** [{ ...n }]: a new node object. *)
Definition new_node (n : obj) : M instance nat := fun inst =>
  (Return (next inst),
   {| node_objects := <[next inst := n]> (node_objects inst);
      link_objects := link_objects inst; next := S (next inst);
      nodes := nodes inst; links := links inst; force_links := force_links inst;
      elements := elements inst; running := running inst; layered := layered inst |}).

(** [{ ...l }]: a new link object. *)
Definition new_link (l : obj) : M instance nat := fun inst =>
  (Return (next inst),
   {| node_objects := node_objects inst;
      link_objects := <[next inst := {| source := Given (get l "source");
                                        target := Given (get l "target");
                                        fields := l |}]> (link_objects inst);
      next := S (next inst);
      nodes := nodes inst; links := links inst; force_links := force_links inst;
      elements := elements inst; running := running inst; layered := layered inst |}).

(** [xs.map(x => ({ ...x }))] *)
Fixpoint new_all {A} (alloc : A -> M instance nat) (xs : list A)
  : M instance (list nat) :=
  match xs with
  | [] => ret []
  | x :: rest =>
      let! k := alloc x in
      let! ks := new_all alloc rest in
      ret (k :: ks)
  end.

(** [instance.nodes = ks] and [instance.links = ks]: a new array; the
    link force keeps the one it was given. *)
Definition set_nodes (ks : list nat) : M instance unit := fun inst =>
  (Return tt,
   {| node_objects := node_objects inst; link_objects := link_objects inst;
      next := next inst; nodes := ks; links := links inst;
      force_links := force_links inst;
      elements := elements inst; running := running inst; layered := layered inst |}).

Definition set_links (ks : list nat) : M instance unit := fun inst =>
  (Return tt,
   {| node_objects := node_objects inst; link_objects := link_objects inst;
      next := next inst; nodes := nodes inst; links := ks;
      force_links := Some (default (links inst) (force_links inst));
      elements := elements inst; running := running inst; layered := layered inst |}).

(** [instance.links.push(k)]: the array is extended in place, so the link
    force sees the new element when it holds this array. *)
Definition push_link (k : nat) : M instance unit := fun inst =>
  (Return tt,
   {| node_objects := node_objects inst; link_objects := link_objects inst;
      next := next inst; nodes := nodes inst; links := links inst ++ [k];
      force_links := force_links inst;
      elements := elements inst; running := running inst; layered := layered inst |}).

Definition push_node (k : nat) : M instance unit := fun inst =>
  (Return tt,
   {| node_objects := node_objects inst; link_objects := link_objects inst;
      next := next inst; nodes := nodes inst ++ [k]; links := links inst;
      force_links := force_links inst;
      elements := elements inst; running := running inst; layered := layered inst |}).

(** *** The d3 link force *)

(** The force's [nodeById] map: for an id carried twice the later node
    stands. *)
Definition node_by_id (inst : instance) (id : value) : option nat :=
  List.find (fun k => strict_eq (get (node_at inst k) "id") id) (rev (nodes inst)).

(** [typeof e !== "object"] fails for objects, arrays and [null]. *)
Definition resolve (inst : instance) (e : endpoint) : completion endpoint :=
  match e with
  | Node k => Return (Node k)
  | Given (VObj _) | Given (VArr _) | Given VNull => Return e
  | Given v =>
      match node_by_id inst v with
      | Some k => Return (Node k)
      | None => Throw Error
      end
  end.

(** One round of the force's initialization for the link object [k]:
    both ends are resolved, then their [index] is read. *)
Definition initialize_link (k : nat) : M instance unit := fun inst =>
  let l := link_at inst k in
  match resolve inst (source l) with
  | Throw e => (Throw e, inst)
  | Return s =>
      let inst1 := set_link k {| source := s; target := target l; fields := fields l |} inst in
      match resolve inst1 (target l) with
      | Throw e => (Throw e, inst1)
      | Return t =>
          let inst2 := set_link k {| source := s; target := t; fields := fields l |} inst1 in
          match s, t with
          | Given VNull, _ | _, Given VNull => (Throw TypeError, inst2)
          | _, _ => (Return tt, inst2)
          end
      end
  end.

Definition current_force_links (inst : instance) : list nat :=
  default (links inst) (force_links inst).

(** renderGraph (lines 296-368): the elements are rebuilt and stored,
    [simulation.nodes(nodes)] re-initializes the link force over the
    links it already holds, [force('link').links(links)] hands it the
    instance's array and initializes again, and the simulation restarts. *)
Definition renderGraph_instance : M instance unit :=
  modify (fun inst =>
    {| node_objects := node_objects inst; link_objects := link_objects inst;
       next := next inst; nodes := nodes inst; links := links inst;
       force_links := force_links inst;
       elements := true; running := running inst; layered := layered inst |}) ;>
  (let! inst := read in for_each (current_force_links inst) initialize_link) ;>
  modify (fun inst =>
    {| node_objects := node_objects inst; link_objects := link_objects inst;
       next := next inst; nodes := nodes inst; links := links inst;
       force_links := None;
       elements := elements inst; running := running inst; layered := layered inst |}) ;>
  (let! inst := read in for_each (links inst) initialize_link) ;>
  modify (fun inst =>
    {| node_objects := node_objects inst; link_objects := link_objects inst;
       next := next inst; nodes := nodes inst; links := links inst;
       force_links := force_links inst;
       elements := elements inst; running := true; layered := layered inst |}).

Definition renderGraph (containerId : string) : M state unit :=
  let! instance := lookup_instance containerId in
  match instance with
  | None => ret tt
  | Some _ => in_instance containerId renderGraph_instance
  end.

(** *** The exported functions *)

Definition empty_instance : instance :=
  {| node_objects := ∅; link_objects := ∅; next := 0;
     nodes := []; links := []; force_links := Some [];
     elements := false; running := true; layered := false |}.

(** The first character of a string (held as UTF-8) whose upper-case
    form begins with a letter A to Z without being a letter a to z, and
    that form: the long s, the dotless i, the sharp s and the Latin
    ligatures ff, fi, fl, ffi, ffl, st and st.  The capital letters that
    come with a combining mark (of the j with caron and the like) are
    left out: no name in ASCII contains them. *)
Definition upper_special (s : string) : option string :=
  let byte c := Ascii.nat_of_ascii c in
  match s with
  | String a (String b rest) =>
      if Nat.eqb (byte a) 197 && Nat.eqb (byte b) 191 then Some ("S" ++ rest)%string
      else if Nat.eqb (byte a) 196 && Nat.eqb (byte b) 177 then Some ("I" ++ rest)%string
      else if Nat.eqb (byte a) 195 && Nat.eqb (byte b) 159 then Some ("SS" ++ rest)%string
      else if Nat.eqb (byte a) 239 && Nat.eqb (byte b) 172 then
        match rest with
        | String c rest' =>
            if Nat.eqb (byte c) 128 then Some ("FF" ++ rest')%string
            else if Nat.eqb (byte c) 129 then Some ("FI" ++ rest')%string
            else if Nat.eqb (byte c) 130 then Some ("FL" ++ rest')%string
            else if Nat.eqb (byte c) 131 then Some ("FFI" ++ rest')%string
            else if Nat.eqb (byte c) 132 then Some ("FFL" ++ rest')%string
            else if Nat.eqb (byte c) 133 then Some ("ST" ++ rest')%string
            else if Nat.eqb (byte c) 134 then Some ("ST" ++ rest')%string
            else None
        | EmptyString => None
        end
      else None
  | _ => None
  end.

(** [s.charAt(0).toUpperCase() + s.slice(1)], as far as it can be the
    name of a colour scheme: the letters a to z and the characters of
    [upper_special] are turned into capitals; any other first character
    is kept: where toUpperCase would change it, the outcome holds a
    character outside ASCII as the string itself does, and [has_scheme]
    below takes neither for a name. *)
Definition capitalize (s : string) : string :=
  match s with
  | EmptyString => EmptyString
  | String c rest =>
      let n := Ascii.nat_of_ascii c in
      if Nat.leb 97 n && Nat.leb n 122 then String (Ascii.ascii_of_nat (n - 32)) rest
      else match upper_special s with
           | Some upper => upper
           | None => s
           end
  end.

Definition ascii_name (name : string) : bool :=
  forallb (fun c => Nat.ltb (Ascii.nat_of_ascii c) 128) (list_ascii_of_string name).

(** [d3['scheme' + name]] is one of the colour arrays.  The names of
    [d3]'s members are in ASCII. *)
Definition has_scheme (st : state) (name : string) : bool :=
  ascii_name name && existsb (String.eqb name) (d3_schemes st).

(** initialize (lines 7-92).  [config.colorScheme.charAt] needs a
    string, and [d3.scaleOrdinal] an array: handed the [undefined] that
    [d3] holds under the name of no scheme, it raises a TypeError before
    the instance is stored.  Everything else in [config] only
    parameterizes the drawing. *)
Definition initialize (containerId : string) (options : obj) : M state value :=
  let! st := read in
  if negb (getElementById st containerId) then ret (VBool false)
  else
    let config := spread [("colorScheme", VStr "category10")] options in
    match get config "colorScheme" with
    | VStr scheme =>
        if has_scheme st (capitalize scheme)
        then modify (set_instance containerId empty_instance) ;>
             ret (VBool true)
        else throw TypeError
    | _ => throw TypeError
    end.

(** setData (lines 94-108).  On a member of [Object.prototype] the two
    assignments go through, and renderGraph fails on its [g]. *)
Definition setData (containerId : string) (data_nodes data_links : list obj)
  : M state value :=
  let! instance := lookup_instance containerId in
  match instance with
  | None => ret (VBool false)
  | Some (Entry _) =>
      in_instance containerId
        (let! ns := new_all new_node data_nodes in set_nodes ns) ;>
      in_instance containerId
        (let! ls := new_all new_link data_links in set_links ls) ;>
      renderGraph containerId ;>
      ret (VBool true)
  | Some Member => modify extend_member ;> throw TypeError
  end.

(** addNode (lines 110-117) *)
Definition addNode (containerId : string) (node : obj) : M state value :=
  let! instance := lookup_instance containerId in
  match instance with
  | None => ret (VBool false)
  | Some _ =>
      in_instance containerId (let! k := new_node node in push_node k) ;>
      renderGraph containerId ;>
      ret (VBool true)
  end.

(** addLink (lines 119-126) *)
Definition addLink (containerId : string) (l : obj) : M state value :=
  let! instance := lookup_instance containerId in
  match instance with
  | None => ret (VBool false)
  | Some _ =>
      in_instance containerId (let! k := new_link l in push_link k) ;>
      renderGraph containerId ;>
      ret (VBool true)
  end.

(** [e.id] for an end [e] of a link; [None] is the TypeError of reading
    it off [undefined] or [null]. *)
Definition endpoint_id (inst : instance) (e : endpoint) : option value :=
  match e with
  | Node k => Some (get (node_at inst k) "id")
  | Given v => prop v "id"
  end.

(** [l.source.id !== nodeId && l.target.id !== nodeId] *)
Definition unrelated (inst : instance) (nodeId : value) (k : nat)
  : completion bool :=
  match endpoint_id inst (source (link_at inst k)) with
  | None => Throw TypeError
  | Some s =>
      if strict_eq s nodeId then Return false
      else match endpoint_id inst (target (link_at inst k)) with
           | None => Throw TypeError
           | Some t => Return (negb (strict_eq t nodeId))
           end
  end.

(** [links.filter(l => ...)] with a predicate that can throw. *)
Fixpoint filter_links (inst : instance) (nodeId : value) (ks : list nat)
  : completion (list nat) :=
  match ks with
  | [] => Return []
  | k :: rest =>
      match unrelated inst nodeId k with
      | Throw e => Throw e
      | Return keep =>
          match filter_links inst nodeId rest with
          | Throw e => Throw e
          | Return kept => Return (if keep then k :: kept else kept)
          end
      end
  end.

(** removeNode (lines 128-136) *)
Definition removeNode (containerId : string) (nodeId : value) : M state value :=
  let! instance := lookup_instance containerId in
  match instance with
  | None => ret (VBool false)
  | Some _ =>
      in_instance containerId
        (let! inst := read in
         set_nodes (List.filter
                      (fun k => negb (strict_eq (get (node_at inst k) "id") nodeId))
                      (nodes inst))) ;>
      in_instance containerId
        (let! inst := read in
         match filter_links inst nodeId (links inst) with
         | Throw e => throw e
         | Return kept => set_links kept
         end) ;>
      renderGraph containerId ;>
      ret (VBool true)
  end.

(** [instance.nodes.find(n => n.id === nodeId)] *)
Definition find_node (inst : instance) (nodeId : value) : option nat :=
  List.find (fun k => strict_eq (get (node_at inst k) "id") nodeId) (nodes inst).

(** updateNode (lines 138-148) *)
Definition updateNode (containerId : string) (nodeId : value) (updates : obj)
  : M state value :=
  let! instance := lookup_instance containerId in
  match instance with
  | None => ret (VBool false)
  | Some (Entry instance) =>
      match find_node instance nodeId with
      | Some node =>
          in_instance containerId
            (modify (set_node node (assign (node_at instance node) updates))) ;>
          renderGraph containerId
      | None => ret tt
      end ;>
      ret (VBool true)
  | Some Member => throw TypeError
  end.

(** clearGraph (lines 150-158); on a member of [Object.prototype] as
    setData. *)
Definition clearGraph (containerId : string) : M state value :=
  let! instance := lookup_instance containerId in
  match instance with
  | None => ret (VBool false)
  | Some (Entry _) =>
      in_instance containerId (set_nodes []) ;>
      in_instance containerId (set_links []) ;>
      renderGraph containerId ;>
      ret (VBool true)
  | Some Member => modify extend_member ;> throw TypeError
  end.

(** focusNode (lines 186-206): the zoom transition it starts on success
    changes the view only. *)
Definition focusNode (containerId : string) (nodeId : value) : M state value :=
  let! instance := lookup_instance containerId in
  match instance with
  | None => ret (VBool false)
  | Some (Entry instance) =>
      match find_node instance nodeId with
      | None => ret (VBool false)
      | Some _ => ret (VBool true)
      end
  | Some Member => throw TypeError
  end.

Definition set_simulation (run : bool) (layer : option bool) : M instance unit :=
  modify (fun inst =>
    {| node_objects := node_objects inst; link_objects := link_objects inst;
       next := next inst; nodes := nodes inst; links := links inst;
       force_links := force_links inst; elements := elements inst;
       running := run; layered := default (layered inst) layer |}).

(** setLayout (lines 247-266) *)
Definition setLayout (containerId : string) (layoutType : value) : M state value :=
  let! instance := lookup_instance containerId in
  match instance with
  | None => ret (VBool false)
  | Some _ =>
      in_instance containerId
        (set_simulation true (Some (strict_eq layoutType (VStr "hierarchical")))) ;>
      ret (VBool true)
  end.

(** enableSimulation (lines 268-279) *)
Definition enableSimulation (containerId : string) (enable : value) : M state value :=
  let! instance := lookup_instance containerId in
  match instance with
  | None => ret (VBool false)
  | Some _ =>
      in_instance containerId (set_simulation (truthy enable) None) ;>
      ret (VBool true)
  end.

(** destroy (lines 281-293) *)
Definition destroy (containerId : string) : M state value :=
  let! instance := lookup_instance containerId in
  match instance with
  | None => ret (VBool false)
  | Some _ =>
      in_instance containerId (set_simulation false None) ;>
      modify (fun st =>
        {| containers := containers st;
           d3_schemes := d3_schemes st;
           graphInstances := delete containerId (graphInstances st);
           extended := extended st |}) ;>
      ret (VBool true)
  end.

(** zoom (lines 160-173) and resetZoom (lines 175-184): a transition on
    the svg element the instance was created with. *)
Definition zoom (containerId : string) (scale : value) : M state value :=
  let! instance := lookup_instance containerId in
  match instance with
  | None => ret (VBool false)
  | Some (Entry _) => ret (VBool true)
  | Some Member => throw TypeError
  end.

Definition resetZoom (containerId : string) : M state value :=
  let! instance := lookup_instance containerId in
  match instance with
  | None => ret (VBool false)
  | Some (Entry _) => ret (VBool true)
  | Some Member => throw TypeError
  end.

(** [instance.nodeElements.attr(...)]: [nodeElements] is null until the
    first renderGraph. *)
Definition restyle_elements : M instance unit := fun inst =>
  if elements inst then (Return tt, inst) else (Throw TypeError, inst).

(** highlightNode (lines 208-234) *)
Definition highlightNode (containerId : string) (nodeId : value) : M state value :=
  let! instance := lookup_instance containerId in
  match instance with
  | None => ret (VBool false)
  | Some (Entry instance) =>
      in_instance containerId restyle_elements ;>
      match find_node instance nodeId with
      | None => ret (VBool false)
      | Some _ => ret (VBool true)
      end
  | Some Member => throw TypeError
  end.

(** clearHighlights (lines 236-245) *)
Definition clearHighlights (containerId : string) : M state value :=
  let! instance := lookup_instance containerId in
  match instance with
  | None => ret (VBool false)
  | Some _ =>
      in_instance containerId restyle_elements ;>
      ret (VBool true)
  end.

(** *** Settled instances *)

(** An end the link force leaves alone: a node object, or an object the
    caller supplied. *)
Definition resolved (e : endpoint) : bool :=
  match e with
  | Node _ | Given (VObj _) | Given (VArr _) => true
  | Given _ => false
  end.

(** Every link the instance or the link force holds has both ends
    resolved, which is how a render that ran to its end leaves them. *)
Definition settled (inst : instance) : Prop :=
  forall k, In k (links inst) \/ In k (current_force_links inst) ->
    exists l, link_objects inst !! k = Some l /\
              resolved (source l) = true /\ resolved (target l) = true.

(** What renderGraph changes on a settled instance. *)
Definition rendered (inst : instance) : instance :=
  {| node_objects := node_objects inst; link_objects := link_objects inst;
     next := next inst; nodes := nodes inst; links := links inst;
     force_links := None;
     elements := true; running := true; layered := layered inst |}.

(** Object identities are handed out in order: every object the
    instance holds was allocated before [next]. *)
Definition well_allocated (inst : instance) : Prop :=
  (forall k, is_Some (node_objects inst !! k) -> k < next inst) /\
  (forall k, is_Some (link_objects inst !! k) -> k < next inst).

(** What allocating objects and resolving links leaves alone. *)
Definition arrays_kept (inst inst' : instance) : Prop :=
  nodes inst' = nodes inst /\ links inst' = links inst /\
  force_links inst' = force_links inst /\ elements inst' = elements inst /\
  running inst' = running inst /\ layered inst' = layered inst.

(** [v] is an id and some record of [ns] carries it. *)
Definition names_node (ns : list obj) (v : value) : bool :=
  is_id v && existsb (fun n => strict_eq (get n "id") v) ns.

(** Every link record names a node record at both ends. *)
Definition links_closed (ns ls : list obj) : bool :=
  forallb (fun l => names_node ns (get l "source") && names_node ns (get l "target")) ls.

(** The link force holds a link whose source is still an id, behind
    links it has resolved. *)
Definition stuck (inst : instance) : Prop :=
  exists pre k post l v,
    current_force_links inst = pre ++ k :: post /\
    (forall k', In k' pre ->
       exists l', link_objects inst !! k' = Some l' /\
                  resolved (source l') = true /\ resolved (target l') = true) /\
    link_objects inst !! k = Some l /\
    source l = Given v /\ is_id v = true.

End D3Graph.

(** ** Vocabulary for the highlight loops *)

Module Marks.
Import Vis.

(** A DataSet as the library keeps it: every id a number or a string, no
    id twice. *)
Definition well_keyed (ds : DataSet) : Prop :=
  NoDup (map id_of (items ds)) /\
  Forall (fun it => is_id (id_of it) = true) (items ds).

(** An update record made for an id: it binds [id] to that id, and no
    property twice. *)
Definition patch_for (patch : value -> obj) : Prop :=
  forall v, In ("id", v) (patch v) /\ NoDup (map fst (patch v)).

(** The item merged with the update record made for its id. *)
Definition mark_with (patch : value -> obj) (old : obj) : obj :=
  spread old (patch (id_of old)).

(** The set after the items whose id is among [targets] were marked. *)
Definition mark_ids (patch : value -> obj) (targets : list value) (ds : DataSet)
  : DataSet :=
  {| items := map (fun old => if includes targets (id_of old)
                              then mark_with patch old else old) (items ds);
     minted := minted ds |}.



(** The properties styleNode writes. *)
Definition display_key (k : string) : bool :=
  existsb (String.eqb k) ["color"; "shape"; "icon"; "font"].

(** A node record without its display properties. *)
Definition plain (node : obj) : obj :=
  List.filter (fun kv => negb (display_key (fst kv))) node.

(** What a method on one of the two DataSets leaves alone. *)
Definition same_but_nodes (n n' : Network) : Prop :=
  edges n' = edges n /\ alive n' = alive n /\ handle n' = handle n.

Definition same_but_edges (n n' : Network) : Prop :=
  nodes n' = nodes n /\ alive n' = alive n /\ handle n' = handle n.

(** The node set and the edge set registered under an id of the journey
    builder. *)
Definition data_at (containerId : string) (st : JourneyBuilder.state)
  : option (DataSet * DataSet) :=
  (fun n => (nodes n, edges n)) <$> JourneyBuilder.networks st !! containerId.

(** The update records of the journey builder's highlight functions. *)
Definition reset_node (v : value) : obj :=
  [("id", v); ("borderWidth", num 2); ("borderWidthSelected", num 3)].

Definition reset_edge (v : value) : obj :=
  [("id", v); ("width", num 2);
   ("color", VObj [("color", VStr "#848484"); ("highlight", VStr "#2B7CE9")])].

Definition highlight_node (v : value) : obj :=
  [("id", v); ("borderWidth", num 5); ("borderWidthSelected", num 6)].

Definition highlight_edge (v : value) : obj :=
  [("id", v); ("width", num 4);
   ("color", VObj [("color", VStr "#FF5722"); ("highlight", VStr "#FF5722")])].

(** The test of the filter at lines 434-436 of the journey builder. *)
Definition joins (step : value * value) (edge : obj) : bool :=
  strict_eq (get edge "from") (fst step) && strict_eq (get edge "to") (snd step).

(** An update record that binds neither end of an edge. *)
Definition keeps_ends (patch : value -> obj) : Prop :=
  forall v kv, In kv (patch v) -> fst kv <> "from" /\ fst kv <> "to".

(** The edge runs from one element of the path to the next. *)
Definition on_path (nodeIds : list value) (edge : obj) : bool :=
  existsb (fun step => strict_eq (get edge "from") (fst step)
                       && strict_eq (get edge "to") (snd step))
          (JourneyBuilder.consecutive nodeIds).

(** Two states of one network object with the same data: only the
    selection, the requests to the renderer and the canvas may differ. *)
Definition same_graph (n n' : Network) : Prop :=
  nodes n' = nodes n /\ edges n' = edges n /\
  alive n' = alive n /\ handle n' = handle n.

Definition same_entry (before after : option Network) : Prop :=
  match before, after with
  | Some n, Some n' => same_graph n n'
  | None, None => True
  | _, _ => False
  end.

(** Two states of a page that differ at most in the view of the network
    registered under [containerId]. *)
Definition view_only (containerId : string) (st st' : page) : Prop :=
  env st' = env st /\
  (forall other, other <> containerId -> registry st' !! other = registry st !! other) /\
  same_entry (registry st !! containerId) (registry st' !! containerId).

Definition journey_view_only (containerId : string) (st st' : JourneyBuilder.state)
  : Prop :=
  JourneyBuilder.env st' = JourneyBuilder.env st /\
  JourneyBuilder.dotNetRefs st' = JourneyBuilder.dotNetRefs st /\
  (forall other, other <> containerId ->
     JourneyBuilder.networks st' !! other = JourneyBuilder.networks st !! other) /\
  same_entry (JourneyBuilder.networks st !! containerId)
             (JourneyBuilder.networks st' !! containerId).

(** Two states of one network object: the data and the view may differ,
    the object is the same and as usable as before. *)
Definition same_identity (n n' : Network) : Prop :=
  alive n' = alive n /\ handle n' = handle n.

Definition entry_kept (before after : option Network) : Prop :=
  match before, after with
  | Some n, Some n' => same_identity n n'
  | None, None => True
  | _, _ => False
  end.


(** A page in order: every registered network is usable and held by the
    library, no network is registered under two ids, and the handles in
    use were all handed out already. *)
Definition coherent (st : page) : Prop :=
  (forall containerId n, registry st !! containerId = Some n ->
     alive n = true /\ In (handle n) (live (env st))) /\
  (forall id1 id2 n1 n2,
     registry st !! id1 = Some n1 -> registry st !! id2 = Some n2 ->
     handle n1 = handle n2 -> id1 = id2) /\
  Forall (fun h => h < fresh (env st)) (live (env st)).

(** The same for the journey builder, whose two tables go together. *)
Definition journey_identities_kept (st st' : JourneyBuilder.state) : Prop :=
  JourneyBuilder.env st' = JourneyBuilder.env st /\
  JourneyBuilder.dotNetRefs st' = JourneyBuilder.dotNetRefs st /\
  forall containerId,
    entry_kept (JourneyBuilder.networks st !! containerId)
               (JourneyBuilder.networks st' !! containerId).

Definition journey_coherent (st : JourneyBuilder.state) : Prop :=
  (forall containerId n, JourneyBuilder.networks st !! containerId = Some n ->
     alive n = true /\ In (handle n) (live (JourneyBuilder.env st))) /\
  (forall id1 id2 n1 n2,
     JourneyBuilder.networks st !! id1 = Some n1 ->
     JourneyBuilder.networks st !! id2 = Some n2 ->
     handle n1 = handle n2 -> id1 = id2) /\
  Forall (fun h => h < fresh (JourneyBuilder.env st)) (live (JourneyBuilder.env st)) /\
  (forall containerId,
     is_Some (JourneyBuilder.networks st !! containerId) <->
     is_Some (JourneyBuilder.dotNetRefs st !! containerId)).

(** A computation every run of which ends in a state related to the one
    it started in, whether it returns or throws. *)
Definition keeps {S A} (rel : S -> S -> Prop) (m : M S A) : Prop :=
  forall s, rel s (snd (m s)).

(** The renderer finds the item [node] under the id: the item's id and
    the id given make the same property key. *)
Definition node_named (ds : DataSet) (id : value) (node : obj) : Prop :=
  body_node ds id = Some (Entry node).

(** No two items of the set share a property key, as the number 1 and
    the string "1" would. *)
Definition one_node_per_key (ds : DataSet) : Prop :=
  NoDup (map (fun it => to_text (id_of it)) (items ds)).

(** The renderer's table holds the nodes of the set, each under its own
    key: no two items share a key, and none has the key [__proto__],
    which the table would take for its prototype. *)
Definition body_mirrors (ds : DataSet) : Prop :=
  one_node_per_key ds /\
  ~ In "__proto__" (map (fun it => to_text (id_of it)) (items ds)).

(** A DataSet all of whose ids the set generated itself. *)
Definition generated (ds : DataSet) : Prop :=
  Forall (fun it => exists k, k < minted ds /\ id_of it = uuid k) (items ds).

End Marks.

(** ** The validity of a journey, in the words of its specification *)

Module ValidateSpec.

(** The node carries the tag. *)
Definition tagged (tag : string) (n : obj) : Prop := get n "type" = VStr tag.

(** Exactly one element of the list satisfies [P]. *)
Definition exactly_one (P : obj -> Prop) (ns : list obj) : Prop :=
  exists pre n post,
    ns = pre ++ n :: post /\ P n /\ forall m, In m (pre ++ post) -> ~ P m.

(** The edge ends at the node, and starts from it: the edge names the
    node's id, a number or a string or another primitive. *)
Definition comes_in (n e : obj) : Prop :=
  get e "to" = get n "id" /\ primitive (get n "id") = true.

Definition goes_out (n e : obj) : Prop :=
  get e "from" = get n "id" /\ primitive (get n "id") = true.

(** Exactly one Start node, at least one End node, and every other node
    has an edge coming in and an edge going out. *)
Definition valid_journey (ns es : list obj) : Prop :=
  exactly_one (tagged "Start") ns /\
  (exists n, In n ns /\ tagged "End" n) /\
  (forall n, In n ns -> ~ tagged "Start" n -> ~ tagged "End" n ->
     (exists e, In e es /\ comes_in n e) /\ (exists e, In e es /\ goes_out n e)).

End ValidateSpec.

(** ** Sample pages *)

Module Examples.
Import Vis.

(** A network as [new vis.Network] leaves it, holding the given items. *)
Definition network_of (h : nat) (ns es : list obj) : Network :=
  {| handle := h; alive := true;
     nodes := {| items := ns; minted := 0 |};
     edges := {| items := es; minted := 0 |};
     selection := []; requests := []; canvas := "" |}.

Definition journey_page (ns es : list obj) : JourneyBuilder.state :=
  {| JourneyBuilder.env := {| containers := ["journey"]; live := [0]; fresh := 1 |};
     JourneyBuilder.networks := {[ "journey" := network_of 0 ns es ]};
     JourneyBuilder.dotNetRefs := {[ "journey" := VNull ]} |}.

Definition start_node : obj :=
  JourneyBuilder.styleNode [("id", num 1); ("type", VStr "Start"); ("label", VStr "Welcome")].

Definition wait_node : obj :=
  JourneyBuilder.styleNode [("id", num 2); ("type", VStr "Wait"); ("label", VStr "Two days")].

(** An edge from the Start node to the Wait node. *)
Definition edge_1_2 : obj := [("id", VStr "e1"); ("from", num 1); ("to", num 2)].

(** A d3 graph after [setData] with the nodes a and b and the link a-b. *)
Definition d3_page : D3Graph.state :=
  {| D3Graph.containers := ["graph"];
     D3Graph.d3_schemes := D3Graph.d3_7_schemes;
     D3Graph.extended := false;
     D3Graph.graphInstances :=
       {[ "graph" :=
            {| D3Graph.node_objects := {[ 0 := [("id", VStr "a")]; 1 := [("id", VStr "b")] ]};
               D3Graph.link_objects :=
                 {[ 2 := {| D3Graph.source := D3Graph.Node 0;
                            D3Graph.target := D3Graph.Node 1;
                            D3Graph.fields := [("source", VStr "a"); ("target", VStr "b")] |} ]};
               D3Graph.next := 3;
               D3Graph.nodes := [0; 1];
               D3Graph.links := [2];
               D3Graph.force_links := None;
               D3Graph.elements := true;
               D3Graph.running := true;
               D3Graph.layered := false |} ]} |}.

(** A customer graph with the nodes a and b and the edge ab between them. *)
Definition customer_page : page :=
  {| env := {| containers := ["customer-graph"]; live := [0]; fresh := 1 |};
     registry :=
       {[ "customer-graph" :=
            network_of 0 [[("id", VStr "a"); ("label", VStr "Acme Ltd")];
                          [("id", VStr "b"); ("label", VStr "B. Owner")]]
                         [[("id", VStr "ab"); ("from", VStr "a"); ("to", VStr "b")]] ]} |}.

(** The same graph with its edge drawn by addEdge of part_000: the edge
    carries the first id the edge set generated. *)
Definition drawn_page : page :=
  {| env := {| containers := ["customer-graph"]; live := [0]; fresh := 1 |};
     registry :=
       {[ "customer-graph" :=
            {| handle := 0; alive := true;
               nodes := {| items := [[("id", VStr "a"); ("label", VStr "Acme Ltd")];
                                     [("id", VStr "b"); ("label", VStr "B. Owner")]];
                           minted := 0 |};
               edges := {| items := [CustomerGraph.edge_of
                                       [("from", VStr "a"); ("to", VStr "b")]
                                       ++ [("id", uuid 0)]];
                           minted := 1 |};
               selection := []; requests := []; canvas := "" |} ]} |}.

Definition raw_wait : obj := [("id", num 2); ("type", VStr "Wait"); ("label", VStr "Two days")].

(** A page with one container and no network yet. *)
Definition empty_page : page :=
  {| env := {| containers := ["customer-graph"]; live := []; fresh := 0 |};
     registry := ∅ |}.

End Examples.

(** ** Proof steps *)

(** Unfolds a registry function down to its lookup of the id. *)
Ltac to_lookup :=
  cbv beta iota delta
    [JourneyBuilder.addNode JourneyBuilder.addEdge JourneyBuilder.removeNode
     JourneyBuilder.removeEdge JourneyBuilder.updateNode JourneyBuilder.updateEdge
     JourneyBuilder.loadData JourneyBuilder.getData JourneyBuilder.focusNode
     JourneyBuilder.highlightPath JourneyBuilder.resetHighlight JourneyBuilder.clear
     JourneyBuilder.setPhysics JourneyBuilder.exportToPNG JourneyBuilder.destroy
     JourneyBuilder.fit JourneyBuilder.stabilize
     JourneyBuilder.lookup_network
     CustomerNetwork.focusNode CustomerNetwork.highlightPath
     CustomerNetwork.resetHighlight CustomerNetwork.exportToPNG
     CustomerNetwork.destroy CustomerNetwork.setPhysicsEnabled
     CustomerNetwork.stabilize CustomerNetwork.loadData
     CustomerGraph.addNode CustomerGraph.addEdge CustomerGraph.updateNode
     CustomerGraph.removeNode CustomerGraph.clearNetwork CustomerGraph.focusNode
     CustomerGraph.enablePhysics CustomerGraph.setLayout CustomerGraph.exportNetwork
     CustomerGraph.destroy CustomerGraph.fitNetwork CustomerGraph.selectNode
     CustomerGraph.setOptions
     RelationshipGraph.exportGraph RelationshipGraph.updateGraphData
     RelationshipGraph.highlightNodes RelationshipGraph.getSelectedNodes
     RelationshipGraph.destroyGraph RelationshipGraph.centerGraph
     Vis.lookup_instance
     D3Graph.setData D3Graph.addNode D3Graph.addLink D3Graph.removeNode
     D3Graph.updateNode D3Graph.clearGraph D3Graph.focusNode D3Graph.setLayout
     D3Graph.enableSimulation D3Graph.destroy D3Graph.zoom D3Graph.resetZoom
     D3Graph.highlightNode D3Graph.clearHighlights D3Graph.lookup_instance
     try_catch bind ret].

(** The property names of an update record are distinct. *)
Ltac distinct_keys :=
  repeat (apply NoDup_cons; split;
          [rewrite list_elem_of_In; simpl; intuition discriminate|]);
  constructor.

(** * Properties *)

(** ** Values and objects *)

Lemma strict_eq_eq (a b : value) : strict_eq a b = true -> a = b.
Proof.
  destruct a, b; simpl; try discriminate; intros H; try reflexivity.
  - apply Bool.eqb_prop in H. congruence.
  - apply Qc_eq_bool_correct in H. congruence.
  - apply String.eqb_eq in H. congruence.
Qed.

Lemma strict_eq_refl (a : value) : primitive a = true -> strict_eq a a = true.
Proof.
  destruct a; simpl; try discriminate; intros _; try reflexivity.
  - apply Bool.eqb_reflx.
  - unfold Qc_eq_bool. destruct (Qcanon.Qc_eq_dec q q); congruence.
  - apply String.eqb_refl.
Qed.

Lemma strict_eq_primitive (a b : value) : strict_eq a b = true -> primitive a = true.
Proof. destruct a, b; simpl; congruence. Qed.

Lemma strict_eq_sym (a b : value) : strict_eq a b = strict_eq b a.
Proof.
  destruct (strict_eq a b) eqn:Hab.
  - pose proof (strict_eq_primitive _ _ Hab) as Hp.
    apply strict_eq_eq in Hab. subst b. symmetry. now apply strict_eq_refl.
  - destruct (strict_eq b a) eqn:Hba; [|reflexivity].
    pose proof (strict_eq_primitive _ _ Hba) as Hp.
    apply strict_eq_eq in Hba. subst b.
    rewrite strict_eq_refl in Hab by assumption. discriminate.
Qed.

Lemma includes_In (xs : list value) (v : value) :
  includes xs v = true -> In v xs.
Proof.
  unfold includes. rewrite existsb_exists. intros [x [Hx Heq]].
  apply strict_eq_eq in Heq. now subst.
Qed.

Lemma In_includes (xs : list value) (v : value) :
  primitive v = true -> In v xs -> includes xs v = true.
Proof.
  intros Hp Hin. unfold includes. rewrite existsb_exists.
  exists v. split; [assumption | now apply strict_eq_refl].
Qed.

Lemma get_put_same (o : obj) (k : string) (v : value) : get (put o k v) k = v.
Proof.
  induction o as [|[k' v'] o IH]; simpl.
  - now rewrite String.eqb_refl.
  - destruct (String.eqb k k') eqn:E; simpl; rewrite E; [reflexivity | exact IH].
Qed.

Lemma get_put_other (o : obj) (k k' : string) (v : value) :
  k <> k' -> get (put o k v) k' = get o k'.
Proof.
  intros Hne. induction o as [|[k0 v0] o IH]; simpl.
  - destruct (String.eqb k' k) eqn:E; [|reflexivity].
    apply String.eqb_eq in E. congruence.
  - destruct (String.eqb k k0) eqn:E; simpl.
    + apply String.eqb_eq in E. subst k0.
      destruct (String.eqb k' k) eqn:E'; [|reflexivity].
      apply String.eqb_eq in E'. congruence.
    + destruct (String.eqb k' k0); [reflexivity | exact IH].
Qed.

(** Reading a property of a merge: the right operand wins where it has
    the property (with several entries of one name, the last). *)
Lemma get_spread_other (a b : obj) (k : string) :
  (forall kv, In kv b -> fst kv <> k) -> get (spread a b) k = get a k.
Proof.
  unfold spread. revert a.
  induction b as [|[k' v'] b IH]; intros a Hb; simpl; [reflexivity|].
  rewrite IH by (intros kv Hin; apply Hb; now right).
  apply get_put_other. apply (Hb (k', v')). now left.
Qed.

(** ** Computations *)

Lemma bind_run {S A B} (m : M S A) (k : A -> M S B) (s : S) (a : A) (s' : S) :
  m s = (Return a, s') -> bind m k s = k a s'.
Proof. intros H. unfold bind. now rewrite H. Qed.

Lemma for_each_app {S A} (xs ys : list A) (body : A -> M S unit) (s : S) :
  for_each (xs ++ ys) body s =
  match for_each xs body s with
  | (Return _, s') => for_each ys body s'
  | (Throw e, s') => (Throw e, s')
  end.
Proof.
  revert s. induction xs as [|x xs IH]; intros s; simpl; [reflexivity|].
  unfold bind. destruct (body x s) as [[[]|e] s']; [apply IH | reflexivity].
Qed.

(** A loop whose every round returns and keeps an invariant returns and
    keeps it. *)
Lemma for_each_invariant {S A} (P : S -> Prop) (xs : list A)
    (body : A -> M S unit) (s : S) :
  P s ->
  (forall x s0, In x xs -> P s0 -> exists s1, body x s0 = (Return tt, s1) /\ P s1) ->
  exists s', for_each xs body s = (Return tt, s') /\ P s'.
Proof.
  revert s. induction xs as [|x xs IH]; intros s HP Hbody; simpl.
  - exists s. split; [reflexivity | assumption].
  - destruct (Hbody x s (or_introl eq_refl) HP) as [s1 [Hrun HP1]].
    unfold bind. rewrite Hrun.
    apply IH; [assumption|].
    intros y s0 Hy. apply Hbody. now right.
Qed.

(** ** The text of numbers *)

(** Numbers print as JavaScript prints them: integers in full up to
    twenty-one digits, fractions in decimal notation with the fewest
    digits that read back, the rest in exponent notation. *)
Lemma num_text_examples :
  to_text (num 12) = "12" /\
  to_text (num (-7)) = "-7" /\
  to_text (dec (1 # 2)) = "0.5" /\
  to_text (dec (3 # 10)) = "0.3" /\
  to_text (dec (1 # 3)) = "0.3333333333333333" /\
  to_text (dec (-5 # 4)) = "-1.25" /\
  to_text (num (10 ^ 20)) = "100000000000000000000" /\
  to_text (num (10 ^ 21)) = "1e+21" /\
  to_text (num (2 ^ 53 + 1)) = "9007199254740992" /\
  to_text (dec (1 # 1000000)) = "0.000001" /\
  to_text (dec (1 # 10000000)) = "1e-7" /\
  to_text (dec (123 # 1000000000)) = "1.23e-7".
Proof. repeat split; vm_compute; reflexivity. Qed.

(** An array prints its elements between commas, and an object does not
    print its fields: as property keys, [[1]] is "1". *)
Lemma to_text_examples :
  to_text (VArr [num 1]) = "1" /\
  to_text (VArr [num 1; VNull; VStr "a"]) = "1,,a" /\
  to_text (VObj [("id", num 1)]) = "[object Object]" /\
  to_text VUndefined = "undefined".
Proof. repeat split; vm_compute; reflexivity. Qed.

(** [Object.assign] leaves no field [__proto__]; the spread does. *)
Lemma assign_examples :
  assign [("id", VStr "a")] [("__proto__", VNull); ("x", num 1)]
    = [("id", VStr "a"); ("x", num 1)] /\
  spread [("id", VStr "a")] [("__proto__", VNull); ("x", num 1)]
    = [("id", VStr "a"); ("__proto__", VNull); ("x", num 1)].
Proof. split; reflexivity. Qed.

(** ** Reading a table *)

(** The names an empty table answers to, and one it does not. *)
Lemma inherited_examples :
  inherited "constructor" = true /\ inherited "toString" = true /\
  inherited "__proto__" = true /\ inherited "customer-graph" = false /\
  inherited "nodes" = false.
Proof. repeat split; reflexivity. Qed.

Lemma slot_of_entry {A} (id : string) (a : A) : slot_of id (Some a) = Some (Entry a).
Proof. reflexivity. Qed.

Lemma slot_of_nothing {A} (id : string) :
  inherited id = false -> slot_of id (@None A) = None.
Proof. intros H. unfold slot_of. now rewrite H. Qed.

Lemma slot_of_member {A} (id : string) :
  inherited id = true -> slot_of id (@None A) = Some Member.
Proof. intros H. unfold slot_of. now rewrite H. Qed.

(** ** journeyBuilderGraph.validate *)

Section Validate.
Import Vis JourneyBuilder.

Lemma validate_reads_only (containerId : string) (st : state) :
  snd (validate containerId st) = st.
Proof.
  unfold validate, lookup_network, bind, ret, throw, slot_of.
  destruct (networks st !! containerId); [|destruct (inherited containerId)]; reflexivity.
Qed.

Lemma start_errors_nil (ns : list obj) :
  start_errors ns = [] <-> length (List.filter (is_type "Start") ns) = 1.
Proof.
  unfold start_errors.
  destruct (length (List.filter (is_type "Start") ns)) as [|[|n]]; simpl;
    split; intros H; try discriminate; reflexivity.
Qed.

Lemma end_errors_nil (ns : list obj) :
  end_errors ns = [] <-> 1 <= length (List.filter (is_type "End") ns).
Proof.
  unfold end_errors.
  destruct (length (List.filter (is_type "End") ns)) as [|n]; simpl;
    split; intros H; try discriminate; try reflexivity; lia.
Qed.

Lemma node_errors_nil (es : list obj) (n : obj) :
  node_errors es n = [] <->
  (is_type "Start" n = false -> is_type "End" n = false ->
   hasIncoming es n = true /\ hasOutgoing es n = true).
Proof.
  unfold node_errors.
  destruct (is_type "Start" n), (is_type "End" n),
    (hasIncoming es n), (hasOutgoing es n); simpl;
    split; intros H; try reflexivity; try discriminate;
    try (intros; discriminate); try (intros; split; reflexivity);
    destruct H as [H1 H2]; try reflexivity; discriminate.
Qed.

Lemma flat_map_nil {A B} (f : A -> list B) (xs : list A) :
  flat_map f xs = [] <-> Forall (fun x => f x = []) xs.
Proof.
  induction xs as [|x xs IH]; simpl.
  - split; [constructor | reflexivity].
  - split.
    + intros H. apply app_eq_nil in H as [H1 H2].
      constructor; [assumption | now apply IH].
    + intros H. inversion H; subst.
      apply app_nil; split;[assumption | now apply IH].
Qed.

Lemma errors_of_nil (ns es : list obj) :
  errors_of ns es = [] <->
  length (List.filter (is_type "Start") ns) = 1 /\
  1 <= length (List.filter (is_type "End") ns) /\
  Forall (fun n => is_type "Start" n = false -> is_type "End" n = false ->
                   hasIncoming es n = true /\ hasOutgoing es n = true) ns.
Proof.
  unfold errors_of.
  rewrite <- start_errors_nil, <- end_errors_nil.
  split.
  - intros H. apply app_eq_nil in H as [H1 H]. apply app_eq_nil in H as [H2 H3].
    repeat split; try assumption.
    apply flat_map_nil in H3. eapply Forall_impl; [exact H3|].
    intros n Hn. now apply node_errors_nil.
  - intros [H1 [H2 H3]]. rewrite H1, H2. simpl.
    apply flat_map_nil. eapply Forall_impl; [exact H3|].
    intros n Hn. now apply node_errors_nil.
Qed.

Lemma errors_of_lone_start (n : obj) (es : list obj) :
  is_type "Start" n = true ->
  errors_of [n] es = ["Journey must have at least one End node"].
Proof.
  intros Hs. unfold errors_of, start_errors, end_errors, node_errors. simpl.
  assert (He : is_type "End" n = false).
  { unfold is_type in *. apply strict_eq_eq in Hs. rewrite Hs. reflexivity. }
  rewrite Hs, He. reflexivity.
Qed.

Lemma strict_eq_iff (a b : value) :
  strict_eq a b = true <-> a = b /\ primitive b = true.
Proof.
  split.
  - intros H. pose proof (strict_eq_eq _ _ H) as ->.
    split; [reflexivity|]. destruct b; simpl in *; try reflexivity; discriminate.
  - intros [-> Hp]. now apply strict_eq_refl.
Qed.

Lemma is_type_tagged (tag : string) (n : obj) :
  is_type tag n = true <-> ValidateSpec.tagged tag n.
Proof.
  unfold is_type, ValidateSpec.tagged. rewrite strict_eq_iff. simpl. tauto.
Qed.

Lemma is_type_not_tagged (tag : string) (n : obj) :
  is_type tag n = false <-> ~ ValidateSpec.tagged tag n.
Proof.
  rewrite <- is_type_tagged. destruct (is_type tag n); split; congruence.
Qed.

Lemma hasIncoming_comes_in (es : list obj) (n : obj) :
  hasIncoming es n = true <-> exists e, In e es /\ ValidateSpec.comes_in n e.
Proof.
  unfold hasIncoming, ValidateSpec.comes_in. rewrite existsb_exists.
  split; intros [e [Hin He]]; exists e; (split; [assumption|]); now apply strict_eq_iff.
Qed.

Lemma hasOutgoing_goes_out (es : list obj) (n : obj) :
  hasOutgoing es n = true <-> exists e, In e es /\ ValidateSpec.goes_out n e.
Proof.
  unfold hasOutgoing, ValidateSpec.goes_out. rewrite existsb_exists.
  split; intros [e [Hin He]]; exists e; (split; [assumption|]); now apply strict_eq_iff.
Qed.

Lemma filter_none {A} (f : A -> bool) (xs : list A) :
  length (List.filter f xs) = 0 <-> forall x, In x xs -> f x = false.
Proof.
  induction xs as [|x xs IH]; simpl.
  - split; [intros _ y [] | reflexivity].
  - destruct (f x) eqn:Hx; simpl.
    + split; [discriminate|]. intros H. specialize (H x (or_introl eq_refl)). congruence.
    + rewrite IH. split.
      * intros H y [<- | Hy]; [assumption | now apply H].
      * intros H y Hy. apply H. now right.
Qed.

Lemma filter_one {A} (f : A -> bool) (xs : list A) :
  length (List.filter f xs) = 1 <->
  exists pre x post, xs = pre ++ x :: post /\ f x = true /\
                     forall y, In y (pre ++ post) -> f y = false.
Proof.
  induction xs as [|x xs IH]; simpl.
  - split; [discriminate|]. intros [pre [y [post [H _]]]]. now destruct pre.
  - destruct (f x) eqn:Hx; simpl.
    + split.
      * intros H. injection H as H. pose proof (proj1 (filter_none f xs) H) as Hnone.
        exists [], x, xs. split; [reflexivity|]. split; [assumption | exact Hnone].
      * intros [pre [y [post [Hsplit [Hy Hrest]]]]]. f_equal.
        apply (proj2 (filter_none f xs)).
        destruct pre as [|z pre]; simpl in Hsplit; injection Hsplit as <- ->.
        -- exact Hrest.
        -- specialize (Hrest x (or_introl eq_refl)). congruence.
    + rewrite IH. split.
      * intros [pre [y [post [-> [Hy Hrest]]]]].
        exists (x :: pre), y, post. split; [reflexivity|]. split; [assumption|].
        intros z [<- | Hz]; [assumption | now apply Hrest].
      * intros [pre [y [post [Hsplit [Hy Hrest]]]]].
        destruct pre as [|z pre]; simpl in Hsplit; injection Hsplit as <- ->.
        -- congruence.
        -- exists pre, y, post. split; [reflexivity|]. split; [assumption|].
           intros z Hz. apply Hrest. now right.
Qed.

Lemma filter_some {A} (f : A -> bool) (xs : list A) :
  1 <= length (List.filter f xs) <-> exists x, In x xs /\ f x = true.
Proof.
  split.
  - intros H. destruct (List.filter f xs) as [|x l] eqn:Hf; [simpl in H; lia|].
    exists x. apply filter_In. rewrite Hf. now left.
  - intros [x Hx]. apply filter_In in Hx.
    destruct (List.filter f xs); [destruct Hx | simpl; lia].
Qed.

(** The checks of the code say what the specification says. *)
Lemma errors_of_nil_valid (ns es : list obj) :
  errors_of ns es = [] <-> ValidateSpec.valid_journey ns es.
Proof.
  rewrite errors_of_nil. unfold ValidateSpec.valid_journey, ValidateSpec.exactly_one.
  rewrite filter_one, filter_some, List.Forall_forall.
  split.
  - intros [[pre [x [post [Hsplit [Hx Hrest]]]]] [[y [Hy Hend]] Hall]].
    split; [|split].
    + exists pre, x, post. split; [assumption|]. split; [now apply is_type_tagged|].
      intros m Hm. apply is_type_not_tagged. now apply Hrest.
    + exists y. split; [assumption | now apply is_type_tagged].
    + intros n Hn Hs He.
      destruct (Hall n Hn) as [Hi Ho]; [now apply is_type_not_tagged..|].
      split; [now apply hasIncoming_comes_in | now apply hasOutgoing_goes_out].
  - intros [[pre [x [post [Hsplit [Hx Hrest]]]]] [[y [Hy Hend]] Hall]].
    split; [|split].
    + exists pre, x, post. split; [assumption|]. split; [now apply is_type_tagged|].
      intros m Hm. apply is_type_not_tagged. now apply Hrest.
    + exists y. split; [assumption | now apply is_type_tagged].
    + intros n Hn Hs He. apply is_type_not_tagged in Hs, He.
      destruct (Hall n Hn Hs He) as [Hi Ho].
      split; [now apply hasIncoming_comes_in | now apply hasOutgoing_goes_out].
Qed.

End Validate.

(** C7.  [validate] writes nothing.  On a registered instance it
    answers [{valid, errors, warnings}] where [valid] holds exactly when
    there are no errors, and exactly when one node is tagged Start, at
    least one node is tagged End, and every other node has an edge that
    ends at it and an edge that starts from it; a journey whose only
    node is a Start node is invalid with the single error
    "Journey must have at least one End node". *)
Theorem validate_pure_and_exact (containerId : string) (st : JourneyBuilder.state) :
  snd (JourneyBuilder.validate containerId st) = st /\
  forall network : Vis.Network,
    JourneyBuilder.networks st !! containerId = Some network ->
    let ns := Vis.get_all (Vis.nodes network) in
    let es := Vis.get_all (Vis.edges network) in
    exists (valid : bool) (errors : list string),
      fst (JourneyBuilder.validate containerId st) =
        Return (VObj [("valid", VBool valid);
                      ("errors", VArr (map VStr errors));
                      ("warnings", VArr [])]) /\
      (valid = true <-> errors = []) /\
      (valid = true <-> ValidateSpec.valid_journey ns es) /\
      (forall n, ns = [n] -> ValidateSpec.tagged "Start" n ->
         valid = false /\ errors = ["Journey must have at least one End node"]).
Proof.
  split; [apply validate_reads_only|].
  intros network Hnet ns es.
  exists (Nat.eqb (length (JourneyBuilder.errors_of ns es)) 0),
         (JourneyBuilder.errors_of ns es).
  assert (Hnil : Nat.eqb (length (JourneyBuilder.errors_of ns es)) 0 = true <->
                 JourneyBuilder.errors_of ns es = []).
  { rewrite Nat.eqb_eq. split; [apply length_zero_iff_nil | intros ->; reflexivity]. }
  split; [|split; [|split]].
  - unfold JourneyBuilder.validate, JourneyBuilder.lookup_network, bind, ret.
    rewrite Hnet. reflexivity.
  - exact Hnil.
  - rewrite Hnil. apply errors_of_nil_valid.
  - intros n Hns Hstart. rewrite Hns.
    rewrite (errors_of_lone_start n es (proj2 (is_type_tagged "Start" n) Hstart)).
    split; reflexivity.
Qed.

Lemma validate_lone_start_witness :
  JourneyBuilder.validate "journey" (Examples.journey_page [Examples.start_node] []) =
    (Return (VObj [("valid", VBool false);
                   ("errors", VArr [VStr "Journey must have at least one End node"]);
                   ("warnings", VArr [])]),
     Examples.journey_page [Examples.start_node] []).
Proof.
  destruct (validate_pure_and_exact "journey"
              (Examples.journey_page [Examples.start_node] [])) as [Hpure Hlive].
  destruct (Hlive (Examples.network_of 0 [Examples.start_node] []) eq_refl)
    as [valid [errors [Hrun [_ [_ Hlone]]]]].
  destruct (Hlone Examples.start_node eq_refl eq_refl) as [-> ->].
  rewrite (surjective_pairing (JourneyBuilder.validate _ _)).
  rewrite Hrun, Hpure. reflexivity.
Defined.

(** ** getSelectedNodes of the relationship graph *)

(** C10.  [getSelectedNodes] always answers an array: the empty array
    when no network is registered under the id (the registry is then left
    as it was) and when the library call fails, as it does on a destroyed
    network; otherwise the network's selected ids. *)
Theorem getSelectedNodes_always_array (containerId : string) (st : Vis.page) :
  exists ids : list value,
    fst (RelationshipGraph.getSelectedNodes containerId st) = Return (VArr ids) /\
    (Vis.registry st !! containerId = None ->
       ids = [] /\ snd (RelationshipGraph.getSelectedNodes containerId st) = st) /\
    (forall network, Vis.registry st !! containerId = Some network ->
       ids = if Vis.alive network then Vis.selection network else []).
Proof.
  unfold RelationshipGraph.getSelectedNodes, try_catch, bind, ret,
    Vis.lookup_instance, Vis.in_instance, Vis.getSelectedNodes, Vis.method.
  destruct (Vis.registry st !! containerId) as [network|] eqn:Hnet; simpl.
  - rewrite Hnet. destruct (Vis.alive network) eqn:Halive; simpl.
    + exists (Vis.selection network). split; [reflexivity|].
      split; [discriminate|]. intros n [= <-]. now rewrite Halive.
    + exists []. split; [reflexivity|].
      split; [discriminate|]. intros n [= <-]. now rewrite Halive.
  - destruct (inherited containerId); simpl; [rewrite Hnet|];
      exists []; (split; [reflexivity|]); (split; [now split | discriminate]).
Qed.

(** ** destroy *)

Lemma release_gone (h : nat) (b : Vis.browser) : ~ In h (Vis.live (Vis.release h b)).
Proof.
  unfold Vis.release. simpl. rewrite filter_In. intros [_ H].
  rewrite Nat.eqb_refl in H. discriminate.
Qed.

Lemma release_keeps (h h' : nat) (b : Vis.browser) :
  h' <> h -> In h' (Vis.live b) -> In h' (Vis.live (Vis.release h b)).
Proof.
  intros Hne Hin. unfold Vis.release. simpl. rewrite filter_In.
  split; [assumption|]. apply Nat.eqb_neq in Hne. now rewrite Hne.
Qed.

Lemma journey_destroy_live (containerId : string) (st : JourneyBuilder.state)
    (network : Vis.Network) :
  JourneyBuilder.networks st !! containerId = Some network ->
  JourneyBuilder.destroy containerId st =
    (Return (VBool true),
     {| JourneyBuilder.env := Vis.release (Vis.handle network) (JourneyBuilder.env st);
        JourneyBuilder.networks := delete containerId (JourneyBuilder.networks st);
        JourneyBuilder.dotNetRefs := delete containerId (JourneyBuilder.dotNetRefs st) |}).
Proof.
  intros H. unfold JourneyBuilder.destroy, JourneyBuilder.lookup_network, bind, ret, modify.
  rewrite H. reflexivity.
Qed.

Lemma journey_destroy_missing (containerId : string) (st : JourneyBuilder.state) :
  JourneyBuilder.networks st !! containerId = None ->
  inherited containerId = false ->
  JourneyBuilder.destroy containerId st = (Return (VBool true), st).
Proof.
  intros H Hname. unfold JourneyBuilder.destroy, JourneyBuilder.lookup_network, bind, ret.
  rewrite H, (slot_of_nothing _ Hname). reflexivity.
Qed.

(** Under an inherited name the journey builder's [destroy] calls
    [destroy] on the member it finds, which has no such method. *)
Lemma journey_destroy_member (containerId : string) (st : JourneyBuilder.state) :
  JourneyBuilder.networks st !! containerId = None ->
  inherited containerId = true ->
  JourneyBuilder.destroy containerId st = (Throw TypeError, st).
Proof.
  intros H Hname. unfold JourneyBuilder.destroy, JourneyBuilder.lookup_network, bind, ret.
  rewrite H, (slot_of_member _ Hname). reflexivity.
Qed.

Lemma customer_destroy_live (containerId : string) (st : Vis.page)
    (network : Vis.Network) :
  Vis.registry st !! containerId = Some network ->
  CustomerNetwork.destroy containerId st =
    (Return (VBool true),
     {| Vis.env := Vis.release (Vis.handle network) (Vis.env st);
        Vis.registry := delete containerId (Vis.registry st) |}).
Proof.
  intros H. unfold CustomerNetwork.destroy, try_catch, Vis.lookup_instance,
    Vis.destroy_and_delete, bind, ret, modify.
  rewrite H. reflexivity.
Qed.

Lemma customer_destroy_missing (containerId : string) (st : Vis.page) :
  Vis.registry st !! containerId = None ->
  inherited containerId = false ->
  CustomerNetwork.destroy containerId st = (Return (VBool true), st).
Proof.
  intros H Hname.
  unfold CustomerNetwork.destroy, try_catch, Vis.lookup_instance, bind, ret.
  rewrite H, (slot_of_nothing _ Hname). reflexivity.
Qed.

(** In theme.js the same TypeError is caught. *)
Lemma customer_destroy_member (containerId : string) (st : Vis.page) :
  Vis.registry st !! containerId = None ->
  inherited containerId = true ->
  CustomerNetwork.destroy containerId st = (Return (VBool false), st).
Proof.
  intros H Hname.
  unfold CustomerNetwork.destroy, try_catch, Vis.lookup_instance, bind, ret.
  rewrite H, (slot_of_member _ Hname). reflexivity.
Qed.

(** C3, as the code has it.  In journeyBuilderGraph and in theme.js'
    customerNetworkGraph, [destroy] on a registered instance answers
    true, releases the network's handle and deletes the registry entry,
    leaving the other entries alone.  On an id without instance it
    changes nothing; it answers true, unless the id names a member of
    Object.prototype: the journey builder then throws a TypeError and
    theme.js answers false.  Hence, for an id that is no such name, a
    second call is a no-op that answers true again. *)
Theorem destroy_idempotent_answers_true (containerId : string) :
  (forall st : JourneyBuilder.state,
     let st' := snd (JourneyBuilder.destroy containerId st) in
     (forall network, JourneyBuilder.networks st !! containerId = Some network ->
        fst (JourneyBuilder.destroy containerId st) = Return (VBool true) /\
        JourneyBuilder.networks st' !! containerId = None /\
        ~ In (Vis.handle network) (Vis.live (JourneyBuilder.env st')) /\
        (forall other, other <> containerId ->
           JourneyBuilder.networks st' !! other = JourneyBuilder.networks st !! other)) /\
     (JourneyBuilder.networks st !! containerId = None ->
        JourneyBuilder.destroy containerId st =
          (if inherited containerId then Throw TypeError else Return (VBool true), st)) /\
     (inherited containerId = false ->
        JourneyBuilder.destroy containerId st' = (Return (VBool true), st'))) /\
  (forall st : Vis.page,
     let st' := snd (CustomerNetwork.destroy containerId st) in
     (forall network, Vis.registry st !! containerId = Some network ->
        fst (CustomerNetwork.destroy containerId st) = Return (VBool true) /\
        Vis.registry st' !! containerId = None /\
        ~ In (Vis.handle network) (Vis.live (Vis.env st')) /\
        (forall other, other <> containerId ->
           Vis.registry st' !! other = Vis.registry st !! other)) /\
     (Vis.registry st !! containerId = None ->
        CustomerNetwork.destroy containerId st =
          (Return (VBool (negb (inherited containerId))), st)) /\
     (inherited containerId = false ->
        CustomerNetwork.destroy containerId st' = (Return (VBool true), st'))).
Proof.
  split; intros st st'; subst st'.
  - split; [|split].
    + intros network H. rewrite (journey_destroy_live _ _ _ H). simpl.
      split; [reflexivity|]. split; [apply lookup_delete_eq|].
      split; [apply release_gone|].
      intros other Hne. now apply lookup_delete_ne.
    + intros H. destruct (inherited containerId) eqn:Hname.
      * now apply journey_destroy_member.
      * now apply journey_destroy_missing.
    + intros Hname.
      destruct (JourneyBuilder.networks st !! containerId) as [network|] eqn:H.
      * rewrite (journey_destroy_live _ _ _ H). simpl.
        apply journey_destroy_missing; [apply lookup_delete_eq | assumption].
      * rewrite (journey_destroy_missing _ _ H Hname). simpl.
        now apply journey_destroy_missing.
  - split; [|split].
    + intros network H. rewrite (customer_destroy_live _ _ _ H). simpl.
      split; [reflexivity|]. split; [apply lookup_delete_eq|].
      split; [apply release_gone|].
      intros other Hne. now apply lookup_delete_ne.
    + intros H. destruct (inherited containerId) eqn:Hname.
      * now apply customer_destroy_member.
      * now apply customer_destroy_missing.
    + intros Hname.
      destruct (Vis.registry st !! containerId) as [network|] eqn:H.
      * rewrite (customer_destroy_live _ _ _ H). simpl.
        apply customer_destroy_missing; [apply lookup_delete_eq | assumption].
      * rewrite (customer_destroy_missing _ _ H Hname). simpl.
        now apply customer_destroy_missing.
Qed.

Lemma destroy_idempotent_witness :
  JourneyBuilder.destroy "journey"
    (snd (JourneyBuilder.destroy "journey" (Examples.journey_page [Examples.start_node] []))) =
  (Return (VBool true),
   snd (JourneyBuilder.destroy "journey" (Examples.journey_page [Examples.start_node] []))) /\
  fst (CustomerNetwork.destroy "customer-graph" Examples.customer_page)
    = Return (VBool true) /\
  CustomerNetwork.destroy "customer-graph"
    (snd (CustomerNetwork.destroy "customer-graph" Examples.customer_page)) =
  (Return (VBool true),
   snd (CustomerNetwork.destroy "customer-graph" Examples.customer_page)).
Proof.
  destruct (destroy_idempotent_answers_true "journey") as [Hjourney _].
  destruct (destroy_idempotent_answers_true "customer-graph") as [_ Hcustomer].
  destruct (Hjourney (Examples.journey_page [Examples.start_node] []))
    as [_ [_ Hagain]].
  destruct (Hcustomer Examples.customer_page) as [Hlive [_ Hagain']].
  split; [exact (Hagain eq_refl)|].
  split; [exact (proj1 (Hlive _ eq_refl)) | exact (Hagain' eq_refl)].
Defined.

(** Under the name of a member of Object.prototype the two functions
    part: the journey builder throws, theme.js answers false. *)
Lemma destroy_inherited_name :
  JourneyBuilder.destroy "constructor" (Examples.journey_page [Examples.start_node] []) =
    (Throw TypeError, Examples.journey_page [Examples.start_node] []) /\
  CustomerNetwork.destroy "constructor" Examples.customer_page =
    (Return (VBool false), Examples.customer_page).
Proof. split; vm_compute; reflexivity. Qed.

(** The claim's "second call returns false" fails: the second [destroy]
    of the journey builder answers true. *)
Lemma second_destroy_answers_true :
  fst (JourneyBuilder.destroy "journey"
         (snd (JourneyBuilder.destroy "journey"
                 (Examples.journey_page [Examples.start_node] [])))) = Return (VBool true) /\
  fst (JourneyBuilder.destroy "journey"
         (snd (JourneyBuilder.destroy "journey"
                 (Examples.journey_page [Examples.start_node] [])))) <> Return (VBool false).
Proof.
  assert (H : fst (JourneyBuilder.destroy "journey"
         (snd (JourneyBuilder.destroy "journey"
                 (Examples.journey_page [Examples.start_node] [])))) = Return (VBool true))
    by (vm_compute; reflexivity).
  split; [exact H | rewrite H; discriminate].
Qed.

(** ** Calls on an id without instance *)

(** C4, as the code has it.  On an id without instance that is not the
    name of a member of Object.prototype (in the d3 module, on a page
    where no call has stored its arrays on such a member), every
    operation other than [destroy] returns at once, without throwing and
    without touching the page: [false], or [null] from the readers
    (getData, exportToPNG, exportNetwork), or nothing at all from
    part_001's exportGraph.
    [destroy] on such an id changes nothing either, but what it answers
    depends on the script: [true] in journeyBuilderGraph and in theme.js,
    [undefined] in destroyGraph, [false] in part_000 and in the d3
    module. *)
Theorem unknown_id_changes_nothing (containerId : string) :
  inherited containerId = false ->
  (forall st : JourneyBuilder.state,
     JourneyBuilder.networks st !! containerId = None ->
     (forall nodeData, JourneyBuilder.addNode containerId nodeData st = (Return (VBool false), st)) /\
     (forall edgeData, JourneyBuilder.addEdge containerId edgeData st = (Return (VBool false), st)) /\
     (forall nodeId updates,
        JourneyBuilder.updateNode containerId nodeId updates st = (Return (VBool false), st)) /\
     (forall edgeId updates,
        JourneyBuilder.updateEdge containerId edgeId updates st = (Return (VBool false), st)) /\
     (forall nodeId, JourneyBuilder.removeNode containerId nodeId st = (Return (VBool false), st)) /\
     (forall edgeId, JourneyBuilder.removeEdge containerId edgeId st = (Return (VBool false), st)) /\
     (forall data, JourneyBuilder.loadData containerId data st = (Return (VBool false), st)) /\
     JourneyBuilder.getData containerId st = (Return VNull, st) /\
     JourneyBuilder.clear containerId st = (Return (VBool false), st) /\
     (forall enabled, JourneyBuilder.setPhysics containerId enabled st = (Return (VBool false), st)) /\
     (forall nodeIds,
        JourneyBuilder.highlightPath containerId nodeIds st = (Return (VBool false), st)) /\
     JourneyBuilder.resetHighlight containerId st = (Return (VBool false), st) /\
     (forall nodeId, JourneyBuilder.focusNode containerId nodeId st = (Return (VBool false), st)) /\
     JourneyBuilder.fit containerId st = (Return (VBool false), st) /\
     JourneyBuilder.stabilize containerId st = (Return (VBool false), st) /\
     JourneyBuilder.exportToPNG containerId st = (Return VNull, st) /\
     JourneyBuilder.destroy containerId st = (Return (VBool true), st)) /\
  (forall st : Vis.page,
     Vis.registry st !! containerId = None ->
     (forall getNodeSize createNodeTooltip createEdgeTooltip data,
        CustomerNetwork.loadData getNodeSize createNodeTooltip createEdgeTooltip
          containerId data st = (Return (VBool false), st)) /\
     (forall nodeId, CustomerNetwork.focusNode containerId nodeId st = (Return (VBool false), st)) /\
     (forall nodeIds,
        CustomerNetwork.highlightPath containerId nodeIds st = (Return (VBool false), st)) /\
     CustomerNetwork.resetHighlight containerId st = (Return (VBool false), st) /\
     (forall enabled,
        CustomerNetwork.setPhysicsEnabled containerId enabled st = (Return (VBool false), st)) /\
     CustomerNetwork.stabilize containerId st = (Return (VBool false), st) /\
     CustomerNetwork.exportToPNG containerId st = (Return VNull, st) /\
     CustomerNetwork.destroy containerId st = (Return (VBool true), st) /\
     (forall nodeData, CustomerGraph.addNode containerId nodeData st = (Return (VBool false), st)) /\
     (forall edgeData, CustomerGraph.addEdge containerId edgeData st = (Return (VBool false), st)) /\
     (forall nodeId updates,
        CustomerGraph.updateNode containerId nodeId updates st = (Return (VBool false), st)) /\
     (forall nodeId, CustomerGraph.removeNode containerId nodeId st = (Return (VBool false), st)) /\
     CustomerGraph.clearNetwork containerId st = (Return (VBool false), st) /\
     CustomerGraph.fitNetwork containerId st = (Return (VBool false), st) /\
     (forall enable, CustomerGraph.enablePhysics containerId enable st = (Return (VBool false), st)) /\
     (forall options, CustomerGraph.setOptions containerId options st = (Return (VBool false), st)) /\
     (forall layoutType,
        CustomerGraph.setLayout containerId layoutType st = (Return (VBool false), st)) /\
     (forall nodeId, CustomerGraph.focusNode containerId nodeId st = (Return (VBool false), st)) /\
     (forall nodeId, CustomerGraph.selectNode containerId nodeId st = (Return (VBool false), st)) /\
     CustomerGraph.exportNetwork containerId st = (Return VNull, st) /\
     CustomerGraph.destroy containerId st = (Return (VBool false), st) /\
     (forall nodes edges,
        RelationshipGraph.updateGraphData containerId nodes edges st = (Return (VBool false), st)) /\
     (forall nodeIds,
        RelationshipGraph.highlightNodes containerId nodeIds st = (Return (VBool false), st)) /\
     RelationshipGraph.centerGraph containerId st = (Return (VBool false), st) /\
     RelationshipGraph.exportGraph containerId st = (Return VUndefined, st) /\
     RelationshipGraph.destroyGraph containerId st = (Return VUndefined, st)) /\
  (forall st : D3Graph.state,
     D3Graph.extended st = false ->
     D3Graph.graphInstances st !! containerId = None ->
     (forall nodes links, D3Graph.setData containerId nodes links st = (Return (VBool false), st)) /\
     (forall node, D3Graph.addNode containerId node st = (Return (VBool false), st)) /\
     (forall l, D3Graph.addLink containerId l st = (Return (VBool false), st)) /\
     (forall nodeId updates,
        D3Graph.updateNode containerId nodeId updates st = (Return (VBool false), st)) /\
     (forall nodeId, D3Graph.removeNode containerId nodeId st = (Return (VBool false), st)) /\
     D3Graph.clearGraph containerId st = (Return (VBool false), st) /\
     (forall enable, D3Graph.enableSimulation containerId enable st = (Return (VBool false), st)) /\
     (forall layoutType, D3Graph.setLayout containerId layoutType st = (Return (VBool false), st)) /\
     (forall nodeId, D3Graph.highlightNode containerId nodeId st = (Return (VBool false), st)) /\
     D3Graph.clearHighlights containerId st = (Return (VBool false), st) /\
     (forall nodeId, D3Graph.focusNode containerId nodeId st = (Return (VBool false), st)) /\
     (forall scale, D3Graph.zoom containerId scale st = (Return (VBool false), st)) /\
     D3Graph.resetZoom containerId st = (Return (VBool false), st) /\
     D3Graph.destroy containerId st = (Return (VBool false), st)).
Proof.
  intros Hname.
  repeat split; intros;
    match goal with
    | Hnone : _ !! containerId = None |- _ =>
        to_lookup; rewrite Hnone, (slot_of_nothing _ Hname); reflexivity
    end.
Qed.

Lemma addNode_missing_id_witness :
  JourneyBuilder.addNode "missing-id" [("id", num 7); ("type", VStr "Wait")]
    (Examples.journey_page [Examples.start_node] []) =
  (Return (VBool false), Examples.journey_page [Examples.start_node] []) /\
  CustomerNetwork.loadData (fun _ => num 16) (fun _ => VStr "") (fun _ => VStr "")
    "missing-id"
    {| CustomerNetwork.graph_nodes := Some []; CustomerNetwork.graph_edges := Some [] |}
    Examples.customer_page =
  (Return (VBool false), Examples.customer_page) /\
  D3Graph.highlightNode "missing-id" (VStr "a") Examples.d3_page =
  (Return (VBool false), Examples.d3_page).
Proof.
  destruct (unknown_id_changes_nothing "missing-id" eq_refl) as [Hjourney [Hvis Hd3]].
  destruct (Hjourney (Examples.journey_page [Examples.start_node] []))
    as [HaddNode _]; [vm_compute; reflexivity|].
  destruct (Hvis Examples.customer_page) as [HloadData _]; [vm_compute; reflexivity|].
  destruct (Hd3 Examples.d3_page eq_refl) as [_ [_ [_ [_ [_ [_ [_ [_ [Hhighlight _]]]]]]]]];
    [vm_compute; reflexivity|].
  split; [apply HaddNode|]. split; [apply HloadData | apply Hhighlight].
Defined.

(** Under an id that names a member of Object.prototype and has no
    instance, the lookup finds the member.  The functions of the journey
    builder and of the d3 module then throw the TypeError of the first
    property or method they need of it.  Nothing is changed, except that
    setData and clearGraph of the d3 module have stored their arrays on
    the member.  part_000 and part_001 catch the error. *)
Lemma inherited_id_finds_member (containerId : string) :
  inherited containerId = true ->
  (forall st : JourneyBuilder.state,
     JourneyBuilder.networks st !! containerId = None ->
     (forall nodeData, JourneyBuilder.addNode containerId nodeData st = (Throw TypeError, st)) /\
     (forall nodeId, JourneyBuilder.removeNode containerId nodeId st = (Throw TypeError, st)) /\
     (forall data, JourneyBuilder.loadData containerId data st = (Throw TypeError, st)) /\
     JourneyBuilder.getData containerId st = (Throw TypeError, st) /\
     (forall nodeId, JourneyBuilder.focusNode containerId nodeId st = (Throw TypeError, st)) /\
     (forall nodeIds,
        JourneyBuilder.highlightPath containerId nodeIds st = (Throw TypeError, st)) /\
     JourneyBuilder.validate containerId st = (Throw TypeError, st) /\
     JourneyBuilder.exportToPNG containerId st = (Throw TypeError, st)) /\
  (forall st : D3Graph.state,
     D3Graph.extended st = false ->
     D3Graph.graphInstances st !! containerId = None ->
     (forall nodes links,
        D3Graph.setData containerId nodes links st
          = (Throw TypeError, D3Graph.extend_member st)) /\
     (forall node, D3Graph.addNode containerId node st = (Throw TypeError, st)) /\
     (forall nodeId updates,
        D3Graph.updateNode containerId nodeId updates st = (Throw TypeError, st)) /\
     (forall nodeId, D3Graph.removeNode containerId nodeId st = (Throw TypeError, st)) /\
     D3Graph.clearGraph containerId st = (Throw TypeError, D3Graph.extend_member st) /\
     (forall nodeId, D3Graph.focusNode containerId nodeId st = (Throw TypeError, st)) /\
     (forall nodeId, D3Graph.highlightNode containerId nodeId st = (Throw TypeError, st)) /\
     D3Graph.destroy containerId st = (Throw TypeError, st)) /\
  (forall st : Vis.page,
     Vis.registry st !! containerId = None ->
     (forall nodeData, CustomerGraph.addNode containerId nodeData st = (Return (VBool false), st)) /\
     CustomerGraph.exportNetwork containerId st = (Return VNull, st) /\
     RelationshipGraph.exportGraph containerId st = (Return VUndefined, st) /\
     RelationshipGraph.destroyGraph containerId st = (Return VUndefined, st)).
Proof.
  intros Hname.
  repeat split; intros;
    match goal with
    | Hnone : _ !! containerId = None |- _ =>
        unfold JourneyBuilder.validate;
        to_lookup;
        cbv beta iota delta [JourneyBuilder.in_network Vis.in_instance D3Graph.in_instance
                             try_catch bind ret throw modify];
        repeat (rewrite ?Hnone, ?(slot_of_member _ Hname); cbv beta iota zeta);
        reflexivity
    end.
Qed.

(** The claim's "failure indicator (false or null)" fails for [destroy]:
    on an id without instance the journey builder's [destroy] answers
    true. *)
Lemma destroy_missing_id_answers_true :
  JourneyBuilder.destroy "missing-id" (Examples.journey_page [Examples.start_node] []) =
    (Return (VBool true), Examples.journey_page [Examples.start_node] []) /\
  fst (JourneyBuilder.destroy "missing-id" (Examples.journey_page [Examples.start_node] []))
    <> Return (VBool false) /\
  fst (JourneyBuilder.destroy "missing-id" (Examples.journey_page [Examples.start_node] []))
    <> Return VNull.
Proof.
  assert (H : JourneyBuilder.destroy "missing-id"
                (Examples.journey_page [Examples.start_node] []) =
              (Return (VBool true), Examples.journey_page [Examples.start_node] [])).
  { apply journey_destroy_missing; vm_compute; reflexivity. }
  rewrite H. repeat split; discriminate.
Qed.

(** ** Creating over a live instance *)

(** theme.js' [initialize] lets go of nothing: whatever the library held
    before the call it still holds after it. *)
Lemma customer_initialize_releases_nothing (containerId : string) (options : obj)
    (st : Vis.page) (h : nat) :
  In h (Vis.live (Vis.env st)) ->
  In h (Vis.live (Vis.env (snd (CustomerNetwork.initialize containerId options st)))).
Proof.
  intros Hin.
  unfold CustomerNetwork.initialize, try_catch, bind, ret, read,
    Vis.in_env, Vis.new_network, Vis.store, modify.
  destruct (Vis.getElementById (Vis.env st) containerId); simpl; [|assumption].
  apply in_or_app. now left.
Qed.

(** On a page whose container exists, theme.js' [initialize] answers
    true and stores a network with a new handle under the id, whatever
    was stored there. *)
Lemma customer_initialize_stores_new (containerId : string) (options : obj)
    (st : Vis.page) :
  Vis.getElementById (Vis.env st) containerId = true ->
  fst (CustomerNetwork.initialize containerId options st) = Return (VBool true) /\
  Vis.handle <$> (Vis.registry (snd (CustomerNetwork.initialize containerId options st))
                    !! containerId) = Some (Vis.fresh (Vis.env st)).
Proof.
  intros Hc.
  unfold CustomerNetwork.initialize, try_catch, bind, ret, read,
    Vis.in_env, Vis.new_network, Vis.store, modify.
  rewrite Hc. simpl. split; [reflexivity|].
  now rewrite lookup_insert_eq.
Qed.

(** The sibling in part_001 destroys the network it replaces. *)
Lemma render_releases_previous (containerId : string) (ns es : list obj)
    (options : obj) (st : Vis.page) (old : Vis.Network) :
  Vis.registry st !! containerId = Some old ->
  Vis.handle old < Vis.fresh (Vis.env st) ->
  fst (RelationshipGraph.renderRelationshipGraph containerId ns es options st)
    = Return (VBool true) ->
  ~ In (Vis.handle old)
       (Vis.live (Vis.env (snd (RelationshipGraph.renderRelationshipGraph
                                  containerId ns es options st)))).
Proof.
  intros Hold Hlt.
  unfold RelationshipGraph.renderRelationshipGraph, try_catch, bind, ret, read,
    Vis.new_DataSet, Vis.lookup_instance, Vis.in_env, Vis.new_network, Vis.store, modify.
  destruct (Vis.getElementById (Vis.env st) containerId); simpl; [|discriminate].
  destruct (Vis.add_all ns Vis.empty_set) as [[[]|e] nds]; simpl; [|discriminate].
  destruct (Vis.add_all es Vis.empty_set) as [[[]|e] eds]; simpl; [|discriminate].
  rewrite Hold. simpl. intros _ Hin.
  apply in_app_or in Hin as [Hin|Hin].
  - apply filter_In in Hin as [_ Hin]. rewrite Nat.eqb_refl in Hin. discriminate.
  - destruct Hin as [Hin|[]]. lia.
Qed.

(** C1 on the code: two [initialize] calls of theme.js' customerNetworkGraph
    on the same container both answer true; the registry then holds the
    second network (handle 1) while the library still holds the first
    (handle 0), which nothing refers to any more. *)
Theorem initialize_twice_leaks_first_network :
  fst (CustomerNetwork.initialize "customer-graph" [] Examples.empty_page)
    = Return (VBool true) /\
  fst (CustomerNetwork.initialize "customer-graph" []
         (snd (CustomerNetwork.initialize "customer-graph" [] Examples.empty_page)))
    = Return (VBool true) /\
  map (fun entry => (fst entry, Vis.handle (snd entry)))
      (map_to_list
         (Vis.registry
            (snd (CustomerNetwork.initialize "customer-graph" []
                    (snd (CustomerNetwork.initialize "customer-graph" []
                            Examples.empty_page))))))
    = [("customer-graph", 1)] /\
  Vis.live
    (Vis.env
       (snd (CustomerNetwork.initialize "customer-graph" []
               (snd (CustomerNetwork.initialize "customer-graph" []
                       Examples.empty_page)))))
    = [0; 1].
Proof. repeat split; vm_compute; reflexivity. Qed.

(** The same two calls through part_001's renderRelationshipGraph leave
    one live handle, the second. *)
Lemma render_twice_keeps_one_network :
  Vis.live
    (Vis.env
       (snd (RelationshipGraph.renderRelationshipGraph "customer-graph" [] [] []
               (snd (RelationshipGraph.renderRelationshipGraph "customer-graph" [] [] []
                       Examples.empty_page)))))
    = [1].
Proof. vm_compute. reflexivity. Qed.

(** ** removeNode *)

(** The journey builder's [removeNode] filters the node set and nothing
    else: the edge set it leaves is the edge set it found. *)
Lemma journey_removeNode_edges_stay (containerId : string) (nodeId : value)
    (st : JourneyBuilder.state) (network : Vis.Network) :
  JourneyBuilder.networks st !! containerId = Some network ->
  fst (JourneyBuilder.removeNode containerId nodeId st) = Return (VBool true) /\
  exists network',
    JourneyBuilder.networks (snd (JourneyBuilder.removeNode containerId nodeId st))
      !! containerId = Some network' /\
    Vis.edges network' = Vis.edges network.
Proof.
  intros Hnet.
  unfold JourneyBuilder.removeNode, JourneyBuilder.lookup_network,
    JourneyBuilder.in_network, bind, ret.
  rewrite Hnet. unfold Vis.on_nodes, Vis.remove. simpl. rewrite Hnet. simpl.
  split; [reflexivity|].
  eexists. split; [apply lookup_insert_eq | reflexivity].
Qed.

(** C2 on the code: in a journey with the nodes 1 and 2 and the edge e1
    from 1 to 2, [removeNode] of node 1 answers true and getData then
    shows node 2 alone, and still the edge e1 whose source is the
    removed node. *)
Theorem journey_removeNode_leaves_dangling_edge :
  fst (JourneyBuilder.removeNode "journey" (num 1)
         (Examples.journey_page [Examples.start_node; Examples.wait_node]
                                [Examples.edge_1_2]))
    = Return (VBool true) /\
  fst (JourneyBuilder.getData "journey"
         (snd (JourneyBuilder.removeNode "journey" (num 1)
                 (Examples.journey_page [Examples.start_node; Examples.wait_node]
                                        [Examples.edge_1_2]))))
    = Return (VObj [("nodes", VArr [VObj Examples.wait_node]);
                    ("edges", VArr [VObj Examples.edge_1_2])]) /\
  get Examples.edge_1_2 "from" = num 1.
Proof. repeat split; vm_compute; reflexivity. Qed.

(** ** focusNode on a node the instance does not hold *)

(** The d3 module looks the node up first and answers false when it is
    not there, leaving the page as it was. *)
Lemma d3_focusNode_unknown_node (containerId : string) (nodeId : value)
    (st : D3Graph.state) (inst : D3Graph.instance) :
  D3Graph.graphInstances st !! containerId = Some inst ->
  D3Graph.find_node inst nodeId = None ->
  D3Graph.focusNode containerId nodeId st = (Return (VBool false), st).
Proof.
  intros Hinst Hfind.
  unfold D3Graph.focusNode, D3Graph.lookup_instance, bind, ret.
  rewrite Hinst. cbn [slot_of]. rewrite Hfind. reflexivity.
Qed.

(** theme.js runs the same two library calls as the journey builder,
    inside try/catch: the RangeError of selectNodes becomes the answer
    false, and the two DataSets stay as they were. *)
Lemma customer_focusNode_unknown_node (containerId : string) (nodeId : value)
    (st : Vis.page) (network : Vis.Network) :
  Vis.registry st !! containerId = Some network ->
  Vis.alive network = true ->
  Vis.body_node (Vis.nodes network) nodeId = None ->
  fst (CustomerNetwork.focusNode containerId nodeId st) = Return (VBool false) /\
  exists network',
    Vis.registry (snd (CustomerNetwork.focusNode containerId nodeId st)) !! containerId
      = Some network' /\
    Vis.nodes network' = Vis.nodes network /\
    Vis.edges network' = Vis.edges network.
Proof.
  intros Hnet Halive Hhas.
  unfold CustomerNetwork.focusNode, try_catch, bind, ret, Vis.lookup_instance,
    Vis.in_instance, Vis.focus, Vis.selectNodes, Vis.method, Vis.select.
  rewrite Hnet. simpl. rewrite Hnet, Halive, Hhas. simpl.
  rewrite lookup_insert_eq, Halive. simpl. unfold bind. simpl. rewrite Hhas. simpl.
  split; [reflexivity|].
  eexists. split; [apply lookup_insert_eq | split; reflexivity].
Qed.

(** Whatever the library does, the journey builder's [focusNode] has no
    way to answer false on a live instance: it returns true or passes on
    what the library threw. *)
Lemma journey_focusNode_never_false (containerId : string) (nodeId : value)
    (st : JourneyBuilder.state) (network : Vis.Network) :
  JourneyBuilder.networks st !! containerId = Some network ->
  fst (JourneyBuilder.focusNode containerId nodeId st) <> Return (VBool false).
Proof.
  intros Hnet.
  unfold JourneyBuilder.focusNode, JourneyBuilder.lookup_network, bind, ret.
  rewrite Hnet. cbn [slot_of].
  destruct (JourneyBuilder.in_network containerId (Vis.focus nodeId) st) as [[[]|e] st1];
    simpl; [|discriminate].
  destruct (JourneyBuilder.in_network containerId (Vis.selectNodes [nodeId]) st1)
    as [[[]|e] st2]; simpl; discriminate.
Qed.

(** C9 on the code: the journey holds the nodes 1 and 2; [focusNode] of
    node 99 does not answer false, it throws the RangeError of the
    library's selectNodes. *)
Theorem journey_focusNode_unknown_node_throws :
  Vis.has (Vis.nodes (Examples.network_of 0 [Examples.start_node; Examples.wait_node]
                                            [Examples.edge_1_2])) (num 99) = false /\
  fst (JourneyBuilder.focusNode "journey" (num 99)
         (Examples.journey_page [Examples.start_node; Examples.wait_node]
                                [Examples.edge_1_2]))
    = Throw RangeError.
Proof. split; vm_compute; reflexivity. Qed.

(** ** DataSet operations *)


Lemma update_present (it : obj) (ds : Vis.DataSet) :
  nullish (Vis.id_of it) = false ->
  Vis.has ds (Vis.id_of it) = true ->
  Vis.update it ds =
    (Return tt,
     {| Vis.items := map (fun old => if strict_eq (Vis.id_of old) (Vis.id_of it)
                                     then spread old it else old) (Vis.items ds);
        Vis.minted := Vis.minted ds |}).
Proof. intros Hid Hhas. unfold Vis.update. now rewrite Hid, Hhas. Qed.


(** ** styleNode *)

Lemma style_for_keys (type : value) (kv : string * value) :
  In kv (JourneyBuilder.style_for type) ->
  fst kv = "color" \/ fst kv = "shape" \/ fst kv = "icon".
Proof.
  unfold JourneyBuilder.style_for.
  destruct (List.find _ JourneyBuilder.styles) as [entry|] eqn:Hfind.
  - apply find_some in Hfind as [Hin _]. revert kv.
    unfold JourneyBuilder.styles in Hin. simpl in Hin.
    repeat (destruct Hin as [<- | Hin];
            [simpl; intros kv Hkv;
             repeat (destruct Hkv as [<- | Hkv]; [simpl; auto|]); destruct Hkv|]).
    destruct Hin.
  - destruct (inherited (to_text type)); simpl; [intros []|].
    intros [<- | [<- | []]]; simpl; auto.
Qed.

(** styleNode writes the display properties [color], [shape], [icon]
    and [font] and reads every other property as it found it. *)
Lemma styleNode_keeps (node : obj) (k : string) :
  k <> "color" -> k <> "shape" -> k <> "icon" -> k <> "font" ->
  get (JourneyBuilder.styleNode node) k = get node k.
Proof.
  intros Hc Hs Hi Hf. unfold JourneyBuilder.styleNode.
  rewrite get_spread_other.
  - apply get_spread_other. intros kv Hin.
    destruct (style_for_keys _ _ Hin) as [-> | [-> | ->]]; congruence.
  - intros kv [<- | []]. simpl. congruence.
Qed.


(** ** The d3 renderer on a settled instance *)

Section D3Render.
Import D3Graph.

Lemma set_link_same (k : nat) (l : link) (inst : instance) :
  link_objects inst !! k = Some l -> set_link k l inst = inst.
Proof.
  intros H. destruct inst. unfold set_link. simpl in *.
  f_equal. now apply insert_id.
Qed.

Lemma resolve_resolved (inst : instance) (e : endpoint) :
  resolved e = true -> resolve inst e = Return e.
Proof. destruct e as [[]|k]; simpl; intros H; try discriminate; reflexivity. Qed.

Lemma initialize_link_settled (k : nat) (l : link) (inst : instance) :
  link_objects inst !! k = Some l ->
  resolved (source l) = true -> resolved (target l) = true ->
  initialize_link k inst = (Return tt, inst).
Proof.
  intros Hl Hs Ht. unfold initialize_link, link_at. rewrite Hl. simpl.
  rewrite (resolve_resolved _ _ Hs).
  assert (Hsame : set_link k {| source := source l; target := target l;
                                fields := fields l |} inst = inst).
  { apply set_link_same. now destruct l. }
  rewrite Hsame, (resolve_resolved _ _ Ht), Hsame.
  destruct (source l) as [[]|]; try discriminate Hs;
    destruct (target l) as [[]|]; try discriminate Ht; reflexivity.
Qed.

Lemma for_each_settled (ks : list nat) (inst : instance) :
  (forall k, In k ks ->
     exists l, link_objects inst !! k = Some l /\
               resolved (source l) = true /\ resolved (target l) = true) ->
  for_each ks initialize_link inst = (Return tt, inst).
Proof.
  intros H.
  destruct (for_each_invariant (fun s => s = inst) ks initialize_link inst eq_refl)
    as [s' [Hrun ->]]; [|exact Hrun].
  intros k s0 Hk ->. exists inst. split; [|reflexivity].
  destruct (H k Hk) as [l [Hl [Hs Ht]]]. now apply (initialize_link_settled k l).
Qed.

(** A render of a settled instance runs to its end and changes no node,
    no link and neither array. *)
Lemma render_settled (inst : instance) :
  settled inst -> renderGraph_instance inst = (Return tt, rendered inst).
Proof.
  intros Hs. unfold renderGraph_instance, bind, modify, read. simpl.
  rewrite for_each_settled.
  2:{ intros k Hk. apply Hs. right. exact Hk. }
  simpl. rewrite for_each_settled.
  2:{ intros k Hk. apply Hs. left. exact Hk. }
  reflexivity.
Qed.


End D3Render.

(** ** Methods run on a registered instance *)

Lemma in_network_run {A} (containerId : string) (m : M Vis.Network A)
    (st : JourneyBuilder.state) (network : Vis.Network) :
  JourneyBuilder.networks st !! containerId = Some network ->
  JourneyBuilder.in_network containerId m st =
    (fst (m network), JourneyBuilder.set_network containerId (snd (m network)) st).
Proof.
  intros H. unfold JourneyBuilder.in_network. rewrite H.
  now destruct (m network).
Qed.

Lemma in_instance_run {A} (containerId : string) (m : M Vis.Network A)
    (st : Vis.page) (network : Vis.Network) :
  Vis.registry st !! containerId = Some network ->
  Vis.in_instance containerId m st =
    (fst (m network), Vis.set_instance containerId (snd (m network)) st).
Proof.
  intros H. unfold Vis.in_instance. rewrite H. now destruct (m network).
Qed.

Lemma d3_in_instance_run {A} (containerId : string) (m : M D3Graph.instance A)
    (st : D3Graph.state) (inst : D3Graph.instance) :
  D3Graph.graphInstances st !! containerId = Some inst ->
  D3Graph.in_instance containerId m st =
    (fst (m inst), D3Graph.set_instance containerId (snd (m inst)) st).
Proof.
  intros H. unfold D3Graph.in_instance. rewrite H. now destruct (m inst).
Qed.

Lemma on_nodes_run {A} (m : M Vis.DataSet A) (n : Vis.Network) :
  Vis.on_nodes m n = (fst (m (Vis.nodes n)), Vis.with_nodes (snd (m (Vis.nodes n))) n).
Proof. unfold Vis.on_nodes. now destruct (m (Vis.nodes n)). Qed.

Lemma on_edges_run {A} (m : M Vis.DataSet A) (n : Vis.Network) :
  Vis.on_edges m n = (fst (m (Vis.edges n)), Vis.with_edges (snd (m (Vis.edges n))) n).
Proof. unfold Vis.on_edges. now destruct (m (Vis.edges n)). Qed.

Lemma set_network_lookup (containerId : string) (n : Vis.Network)
    (st : JourneyBuilder.state) :
  JourneyBuilder.networks (JourneyBuilder.set_network containerId n st) !! containerId
    = Some n.
Proof. apply lookup_insert_eq. Qed.

Lemma set_instance_lookup (containerId : string) (n : Vis.Network) (st : Vis.page) :
  Vis.registry (Vis.set_instance containerId n st) !! containerId = Some n.
Proof. apply lookup_insert_eq. Qed.

Lemma d3_set_instance_lookup (containerId : string) (inst : D3Graph.instance)
    (st : D3Graph.state) :
  D3Graph.graphInstances (D3Graph.set_instance containerId inst st) !! containerId
    = Some inst.
Proof. apply lookup_insert_eq. Qed.

(** ** Merging objects *)

Lemma has_key_put (o : obj) (k k' : string) (v : value) :
  has_key (put o k v) k' = has_key o k' || String.eqb k' k.
Proof.
  induction o as [|[k0 v0] o IH]; simpl.
  - now rewrite orb_false_r.
  - destruct (String.eqb k k0) eqn:E; simpl.
    + apply String.eqb_eq in E. subst k0.
      destruct (String.eqb k' k); simpl; [reflexivity | now rewrite orb_false_r].
    + rewrite IH. now rewrite orb_assoc.
Qed.

Lemma put_held (o : obj) (k : string) (v : value) :
  has_key o k = true -> get o k = v -> put o k v = o.
Proof.
  induction o as [|[k0 v0] o IH]; simpl; [discriminate|].
  destruct (String.eqb k k0) eqn:E; simpl.
  - intros _ ->. reflexivity.
  - intros Hk Hv. now rewrite IH.
Qed.

(** The bindings of [b] all hold in [a] already: merging [b] into [a]
    changes nothing. *)
Lemma spread_held (a b : obj) :
  (forall kv, In kv b -> has_key a (fst kv) = true /\ get a (fst kv) = snd kv) ->
  spread a b = a.
Proof.
  unfold spread. induction b as [|[k v] b IH]; intros H; simpl; [reflexivity|].
  destruct (H (k, v) (or_introl eq_refl)) as [Hk Hv]. simpl in Hk, Hv.
  rewrite (put_held _ _ _ Hk Hv). apply IH. intros kv Hin. apply H. now right.
Qed.

Lemma has_key_spread (a b : obj) (k : string) :
  has_key (spread a b) k = has_key a k || has_key b k.
Proof.
  unfold spread. revert a. induction b as [|[k' v'] b IH]; intros a; simpl.
  - now rewrite orb_false_r.
  - rewrite IH, has_key_put, orb_assoc. reflexivity.
Qed.

(** A property the right operand binds once reads as bound there. *)
Lemma get_spread_bound (a b : obj) (k : string) (v : value) :
  NoDup (map fst b) -> In (k, v) b -> get (spread a b) k = v.
Proof.
  unfold spread. revert a. induction b as [|[k' v'] b IH]; intros a Hnd Hin; [destruct Hin|].
  simpl in Hnd. apply NoDup_cons in Hnd as [Hnotin Hnd].
  destruct Hin as [[= -> ->]|Hin]; simpl.
  - fold (spread (put a k v) b). rewrite get_spread_other; [apply get_put_same|].
    intros kv Hkv Heq. apply Hnotin. rewrite <- Heq. apply list_elem_of_In. now apply in_map.
  - now apply IH.
Qed.

Lemma spread_idempotent (a b : obj) :
  NoDup (map fst b) -> spread (spread a b) b = spread a b.
Proof.
  intros Hnd. apply spread_held. intros [k v] Hin. simpl. split.
  - rewrite has_key_spread. apply orb_true_iff. right.
    unfold has_key. rewrite existsb_exists. exists (k, v).
    split; [assumption | apply String.eqb_refl].
  - now apply get_spread_bound.
Qed.

Lemma get_bound (b : obj) (k : string) (v : value) :
  NoDup (map fst b) -> In (k, v) b -> get b k = v.
Proof.
  induction b as [|[k' v'] b IH]; intros Hnd Hin; [destruct Hin|].
  simpl in Hnd. apply NoDup_cons in Hnd as [Hnotin Hnd].
  destruct Hin as [[= -> ->]|Hin]; simpl.
  - now rewrite String.eqb_refl.
  - destruct (String.eqb k k') eqn:E; [|now apply IH].
    apply String.eqb_eq in E. subst k'. exfalso. apply Hnotin.
    apply list_elem_of_In. change k with (fst (k, v)). now apply in_map.
Qed.

(** ** updateNode *)










(** The sample d3 graph is as a render leaves it: its one link has both
    ends resolved, and its objects were allocated in order. *)
Lemma d3_page_ready (inst : D3Graph.instance) :
  D3Graph.graphInstances Examples.d3_page !! "graph" = Some inst ->
  D3Graph.links inst = [2] /\ D3Graph.settled inst /\ D3Graph.well_allocated inst.
Proof.
  intros Hinst. unfold Examples.d3_page in Hinst.
  cbn [D3Graph.graphInstances] in Hinst.
  apply lookup_singleton_Some in Hinst. destruct Hinst as [_ <-].
  split; [reflexivity|]. split.
  - intros k Hk.
    assert (k = 2) as -> by (cbn in Hk; intuition lia).
    eexists. split; [reflexivity|]. split; reflexivity.
  - split; intros k [x Hx]; cbn [D3Graph.node_objects D3Graph.link_objects D3Graph.next] in *.
    + destruct (decide (k = 0)) as [-> | H0]; [lia|].
      rewrite lookup_insert_ne in Hx by congruence.
      apply lookup_singleton_Some in Hx. lia.
    + apply lookup_singleton_Some in Hx. lia.
Qed.



(** In the journey builder the absent node is also created: [updateNode]
    of node 9 on a journey holding node 1 alone adds a second node. *)
Lemma journey_updateNode_creates_node :
  fst (JourneyBuilder.getData "journey"
         (snd (JourneyBuilder.updateNode "journey" (num 9) [("label", VStr "Late")]
                 (Examples.journey_page [Examples.start_node] []))))
    = Return (VObj [("nodes",
                     VArr [VObj Examples.start_node;
                           VObj (JourneyBuilder.styleNode
                                   [("label", VStr "Late"); ("id", num 9)])]);
                    ("edges", VArr [])]).
Proof. vm_compute. reflexivity. Qed.

(** ** Marking items of a DataSet *)

Section Marking.
Import Vis Marks.

Variable patch : value -> obj.
Hypothesis patch_ok : patch_for patch.

Lemma patch_id (v : value) : id_of (patch v) = v.
Proof. destruct (patch_ok v) as [Hin Hnd]. now apply get_bound. Qed.

Lemma mark_with_id (old : obj) : id_of (mark_with patch old) = id_of old.
Proof.
  destruct (patch_ok (id_of old)) as [Hin Hnd].
  unfold mark_with, id_of at 1. now apply get_spread_bound.
Qed.

Lemma mark_with_twice (old : obj) :
  mark_with patch (mark_with patch old) = mark_with patch old.
Proof.
  unfold mark_with at 1. rewrite mark_with_id. unfold mark_with.
  apply spread_idempotent. apply patch_ok.
Qed.

Lemma mark_ids_ids (targets : list value) (ds : DataSet) :
  map id_of (items (mark_ids patch targets ds)) = map id_of (items ds).
Proof.
  unfold mark_ids. simpl. rewrite map_map. apply map_ext. intros old.
  destruct (includes targets (id_of old)); [apply mark_with_id | reflexivity].
Qed.

Lemma has_includes (ds : DataSet) (v : value) :
  has ds v = includes (map id_of (items ds)) v.
Proof.
  unfold has, includes. induction (items ds) as [|it its IH]; simpl; [reflexivity|].
  now rewrite IH.
Qed.

Lemma has_ids (ds ds' : DataSet) (v : value) :
  map id_of (items ds') = map id_of (items ds) -> has ds' v = has ds v.
Proof. intros H. now rewrite !has_includes, H. Qed.

Lemma mark_ids_nil (ds : DataSet) : mark_ids patch [] ds = ds.
Proof. destruct ds as [its m]. unfold mark_ids. simpl. now rewrite map_id. Qed.

Lemma includes_app (xs ys : list value) (v : value) :
  includes (xs ++ ys) v = includes xs v || includes ys v.
Proof. unfold includes. apply existsb_app. Qed.

Lemma mark_ids_app (t1 t2 : list value) (ds : DataSet) :
  mark_ids patch t2 (mark_ids patch t1 ds) = mark_ids patch (t1 ++ t2) ds.
Proof.
  unfold mark_ids. simpl. f_equal. rewrite map_map. apply map_ext. intros old.
  rewrite includes_app.
  destruct (includes t1 (id_of old)) eqn:E1; simpl.
  - rewrite mark_with_id, mark_with_twice. now destruct (includes t2 (id_of old)).
  - reflexivity.
Qed.

Lemma mark_ids_all (targets : list value) (ds : DataSet) :
  (forall it, In it (items ds) -> includes targets (id_of it) = true) ->
  items (mark_ids patch targets ds) = map (mark_with patch) (items ds).
Proof.
  intros H. unfold mark_ids. simpl. apply map_ext_in. intros it Hin.
  now rewrite H.
Qed.

(** [update] of the record made for an id the set holds marks the items
    carrying that id. *)
Lemma update_marks (v : value) (ds : DataSet) :
  nullish v = false -> has ds v = true ->
  update (patch v) ds = (Return tt, mark_ids patch [v] ds).
Proof.
  intros Hv Hhas. rewrite update_present by now rewrite patch_id.
  unfold mark_ids. f_equal. f_equal. apply map_ext. intros old.
  rewrite patch_id. unfold includes. simpl. rewrite orb_false_r.
  rewrite (strict_eq_sym v).
  destruct (strict_eq (id_of old) v) eqn:E; [|reflexivity].
  apply strict_eq_eq in E. unfold mark_with. now rewrite E.
Qed.

End Marking.

(** ** Loops that sweep a DataSet *)

(** A loop whose rounds all return, each acting on a view [abs] of the
    state as [step] prescribes, acts on the view as the fold of [step]. *)
Lemma for_each_fold {S A T} (abs : S -> T) (I : S -> Prop) (step : A -> T -> T)
    (xs : list A) (body : A -> M S unit) (s : S) :
  I s ->
  (forall x s0, In x xs -> I s0 ->
     exists s1, body x s0 = (Return tt, s1) /\ abs s1 = step x (abs s0) /\ I s1) ->
  exists s', for_each xs body s = (Return tt, s') /\
             abs s' = fold_left (fun t x => step x t) xs (abs s) /\ I s'.
Proof.
  revert s. induction xs as [|x xs IH]; intros s HI Hbody; simpl.
  - exists s. repeat split; assumption.
  - destruct (Hbody x s (or_introl eq_refl) HI) as [s1 [Hrun [Habs HI1]]].
    unfold bind. rewrite Hrun, <- Habs.
    apply IH; [assumption|].
    intros y s0 Hy. apply Hbody. now right.
Qed.

Section Sweep.
Import Vis Marks.

Variable patch : value -> obj.
Hypothesis patch_ok : patch_for patch.

Lemma fold_mark_ids (targets : list value) (ds : DataSet) :
  fold_left (fun t v => mark_ids patch [v] t) targets ds = mark_ids patch targets ds.
Proof.
  revert ds. induction targets as [|v targets IH]; intros ds; simpl.
  - symmetry. apply mark_ids_nil.
  - rewrite IH. now rewrite (mark_ids_app patch patch_ok [v] targets).
Qed.

Lemma find_item_has (ds : DataSet) (v : value) :
  has ds v = true -> exists it, find_item ds v = Some it /\ id_of it = v.
Proof.
  unfold has, find_item. intros H.
  destruct (List.find _ (items ds)) as [it|] eqn:Hfind.
  - exists it. split; [reflexivity|].
    apply find_some in Hfind as [_ Heq]. now apply strict_eq_eq.
  - apply existsb_exists in H as [it [Hin Heq]].
    apply (find_none _ _ Hfind) in Hin. congruence.
Qed.

Lemma found_has (ds : DataSet) (v : value) (it : obj) :
  find_item ds v = Some it -> has ds v = true /\ id_of it = v.
Proof.
  unfold has, find_item. intros Hfind. apply find_some in Hfind as [Hin Heq].
  split; [|now apply strict_eq_eq].
  apply existsb_exists. now exists it.
Qed.

Lemma is_id_key (v : value) : is_id v = true -> primitive v = true /\ nullish v = false.
Proof. destruct v; simpl; intros H; try discriminate; now split. Qed.

Variable S : Type.
Variable ds_of : S -> DataSet.
Variable run : M DataSet unit -> M S unit.
Variable frame : S -> S -> Prop.
Hypothesis frame_refl : forall s, frame s s.
Hypothesis frame_trans : forall s1 s2 s3, frame s1 s2 -> frame s2 s3 -> frame s1 s3.
Hypothesis run_ok : forall (m : M DataSet unit) (s : S),
  exists s', run m s = (fst (m (ds_of s)), s') /\
             ds_of s' = snd (m (ds_of s)) /\ frame s s'.

(** [ds.forEach(item => ds.update({ id: item.id, ... }))]: every item is
    merged with the record made for its id; no item comes or goes. *)
Lemma sweep_marks_all (s : S) :
  Forall (fun it => is_id (id_of it) = true) (items (ds_of s)) ->
  exists s',
    for_each_item ds_of (fun it => run (update (patch (get it "id")))) s = (Return tt, s') /\
    ds_of s' = {| items := map (mark_with patch) (items (ds_of s));
                  minted := minted (ds_of s) |} /\
    frame s s'.
Proof.
  intros Hkeys. unfold for_each_item.
  destruct (for_each_fold ds_of
              (fun s0 => map id_of (items (ds_of s0)) = map id_of (items (ds_of s))
                         /\ frame s s0)
              (fun v t => mark_ids patch [v] t)
              (map id_of (items (ds_of s)))
              (fun id s' => match find_item (ds_of s') id with
                            | Some it => run (update (patch (get it "id"))) s'
                            | None => (Return tt, s')
                            end) s) as [s' [Hrun [Habs [_ Hframe]]]].
  - split; [reflexivity | apply frame_refl].
  - intros v s0 Hv [Hids Hfr].
    assert (Hid : is_id v = true).
    { apply in_map_iff in Hv as [it [<- Hit]].
      rewrite Forall_forall in Hkeys. apply Hkeys. now apply list_elem_of_In. }
    destruct (is_id_key v Hid) as [Hprim Hnn].
    assert (Hhas : has (ds_of s0) v = true).
    { rewrite has_includes, Hids. now apply In_includes. }
    destruct (find_item_has _ _ Hhas) as [it [-> Hit]].
    change (get it "id") with (id_of it). rewrite Hit.
    destruct (run_ok (update (patch v)) s0) as [s1 [Hr [Hds Hfr1]]].
    rewrite (update_marks patch patch_ok v _ Hnn Hhas) in Hr, Hds. simpl in Hr, Hds.
    exists s1. split; [exact Hr|]. split; [exact Hds|]. split.
    + rewrite Hds, (mark_ids_ids patch patch_ok). exact Hids.
    + eapply frame_trans; eassumption.
  - exists s'. split; [exact Hrun|]. split; [|exact Hframe].
    rewrite Habs, fold_mark_ids.
    unfold mark_ids at 1. f_equal.
    apply (mark_ids_all patch). intros it Hin.
    apply In_includes.
    + rewrite Forall_forall in Hkeys.
      apply is_id_key, Hkeys. now apply list_elem_of_In.
    + now apply in_map.
Qed.

End Sweep.

(** ** highlightPath in theme.js *)

Section CustomerHighlight.
Import Vis Marks.

Lemma on_nodes_ok (m : M DataSet unit) (n : Network) :
  exists n', on_nodes m n = (fst (m (nodes n)), n') /\
             nodes n' = snd (m (nodes n)) /\ same_but_nodes n n'.
Proof.
  exists (with_nodes (snd (m (nodes n))) n). rewrite on_nodes_run.
  repeat split.
Qed.

Lemma on_edges_ok (m : M DataSet unit) (n : Network) :
  exists n', on_edges m n = (fst (m (edges n)), n') /\
             edges n' = snd (m (edges n)) /\ same_but_edges n n'.
Proof.
  exists (with_edges (snd (m (edges n))) n). rewrite on_edges_run.
  repeat split.
Qed.

Lemma same_but_nodes_trans (n1 n2 n3 : Network) :
  same_but_nodes n1 n2 -> same_but_nodes n2 n3 -> same_but_nodes n1 n3.
Proof. unfold same_but_nodes. intros [? [? ?]] [? [? ?]]. repeat split; congruence. Qed.

Lemma same_but_edges_trans (n1 n2 n3 : Network) :
  same_but_edges n1 n2 -> same_but_edges n2 n3 -> same_but_edges n1 n3.
Proof. unfold same_but_edges. intros [? [? ?]] [? [? ?]]. repeat split; congruence. Qed.

(** A sweep of the node set through [network.body.data.nodes]. *)
Lemma sweep_nodes (patch : value -> obj) (n : Network) :
  patch_for patch ->
  Forall (fun it => is_id (id_of it) = true) (items (nodes n)) ->
  exists n',
    for_each_item nodes (fun it => on_nodes (update (patch (get it "id")))) n
      = (Return tt, n') /\
    nodes n' = {| items := map (mark_with patch) (items (nodes n));
                  minted := minted (nodes n) |} /\
    same_but_nodes n n'.
Proof.
  intros Hp. apply (sweep_marks_all patch Hp Network nodes on_nodes same_but_nodes).
  - intros s. repeat split.
  - apply same_but_nodes_trans.
  - apply on_nodes_ok.
Qed.

Lemma sweep_edges (patch : value -> obj) (n : Network) :
  patch_for patch ->
  Forall (fun it => is_id (id_of it) = true) (items (edges n)) ->
  exists n',
    for_each_item edges (fun it => on_edges (update (patch (get it "id")))) n
      = (Return tt, n') /\
    edges n' = {| items := map (mark_with patch) (items (edges n));
                  minted := minted (edges n) |} /\
    same_but_edges n n'.
Proof.
  intros Hp. apply (sweep_marks_all patch Hp Network edges on_edges same_but_edges).
  - intros s. repeat split.
  - apply same_but_edges_trans.
  - apply on_edges_ok.
Qed.

Lemma NoDup_ids_inj (its : list obj) (a b : obj) :
  NoDup (map id_of its) -> In a its -> In b its -> id_of a = id_of b -> a = b.
Proof.
  induction its as [|it its IH]; intros Hnd Ha Hb Heq; [destruct Ha|].
  simpl in Hnd. apply NoDup_cons in Hnd as [Hnotin Hnd].
  destruct Ha as [->|Ha], Hb as [->|Hb]; try reflexivity.
  - exfalso. apply Hnotin. apply list_elem_of_In. rewrite Heq. now apply in_map.
  - exfalso. apply Hnotin. apply list_elem_of_In. rewrite <- Heq. now apply in_map.
  - now apply IH.
Qed.

(** Looking an item up by id among the items a test selects tells
    whether the item passes the test. *)
Lemma selected_by_id (ds : DataSet) (test : obj -> bool) (it : obj) :
  well_keyed ds -> In it (items ds) ->
  existsb (fun e => strict_eq (get e "id") (get it "id")) (List.filter test (items ds))
    = test it.
Proof.
  intros [Hnd Hkeys] Hin.
  destruct (test it) eqn:Htest.
  - apply existsb_exists. exists it. split; [now apply filter_In|].
    apply strict_eq_refl. rewrite Forall_forall in Hkeys.
    apply is_id_key, Hkeys. now apply list_elem_of_In.
  - apply not_true_is_false. intros H.
    apply existsb_exists in H as [e [He Heq]].
    apply filter_In in He as [He Hte]. apply strict_eq_eq in Heq.
    rewrite (NoDup_ids_inj _ e it Hnd He Hin Heq) in Hte. congruence.
Qed.

End CustomerHighlight.

Section CustomerHighlightPath.
Import Vis Marks.

Lemma customer_highlightPath_exact (containerId : string) (nodeIds : list value)
    (st : page) (network : Network) :
  registry st !! containerId = Some network ->
  well_keyed (nodes network) -> well_keyed (edges network) ->
  fst (CustomerNetwork.highlightPath containerId nodeIds st) = Return (VBool true) /\
  exists network',
    registry (snd (CustomerNetwork.highlightPath containerId nodeIds st)) !! containerId
      = Some network' /\
    items (nodes network') =
      map (fun n => spread n [("id", get n "id");
                              ("opacity",
                               CustomerNetwork.opacity (includes nodeIds (get n "id")))])
          (items (nodes network)) /\
    items (edges network') =
      map (fun e => spread e [("id", get e "id");
                              ("opacity",
                               CustomerNetwork.opacity
                                 (includes nodeIds (get e "from")
                                  && includes nodeIds (get e "to")))])
          (items (edges network)).
Proof.
  intros Hnet [_ Hnkeys] Hewk.
  pose (node_patch := fun v : value =>
          [("id", v); ("opacity", CustomerNetwork.opacity (includes nodeIds v))]).
  pose (hl := List.filter (fun edge => includes nodeIds (get edge "from")
                                       && includes nodeIds (get edge "to"))
                          (get_all (edges network))).
  pose (edge_patch := fun v : value =>
          [("id", v);
           ("opacity", CustomerNetwork.opacity
                         (existsb (fun e => strict_eq (get e "id") v) hl))]).
  assert (Hnp : patch_for node_patch).
  { intros v. split; [now left|]. distinct_keys. }
  assert (Hep : patch_for edge_patch).
  { intros v. split; [now left|]. distinct_keys. }
  destruct (sweep_nodes node_patch network Hnp Hnkeys) as [n1 [Hrun1 [Hn1 [He1 _]]]].
  assert (Hekeys1 : Forall (fun it => is_id (id_of it) = true) (items (edges n1))).
  { rewrite He1. apply Hewk. }
  destruct (sweep_edges edge_patch n1 Hep Hekeys1) as [n2 [Hrun2 [He2 [Hn2 _]]]].
  unfold CustomerNetwork.highlightPath, try_catch, bind, ret, lookup_instance.
  rewrite Hnet. cbn [slot_of].
  rewrite (in_instance_run _ _ _ _ Hnet).
  change (for_each_item nodes _ network)
    with (for_each_item nodes (fun it => on_nodes (update (node_patch (get it "id")))) network).
  rewrite Hrun1. simpl.
  rewrite (in_instance_run _ _ _ _ (set_instance_lookup _ _ _)).
  change (for_each_item edges _ n1)
    with (for_each_item edges (fun it => on_edges (update (edge_patch (get it "id")))) n1).
  rewrite Hrun2. simpl.
  split; [reflexivity|].
  exists n2. split; [apply lookup_insert_eq|]. split.
  - rewrite Hn2, Hn1. reflexivity.
  - rewrite He2, He1. simpl. apply map_ext_in. intros e Hin.
    unfold mark_with, edge_patch, id_of. do 3 f_equal.
    unfold hl, get_all. now rewrite (selected_by_id (edges network) _ e Hewk Hin).
Qed.

End CustomerHighlightPath.

(** ** highlightPath in the journey builder *)

Section JourneyHighlight.
Import Vis Marks.

Lemma reset_node_patch : patch_for reset_node.
Proof. intros v. split; [now left | distinct_keys]. Qed.

Lemma reset_edge_patch : patch_for reset_edge.
Proof. intros v. split; [now left | distinct_keys]. Qed.

Lemma highlight_node_patch : patch_for highlight_node.
Proof. intros v. split; [now left | distinct_keys]. Qed.

Lemma highlight_edge_patch : patch_for highlight_edge.
Proof. intros v. split; [now left | distinct_keys]. Qed.

(** resetHighlight gives every node and every edge its plain widths and
    colour. *)
Lemma journey_resetHighlight_exact (containerId : string)
    (st : JourneyBuilder.state) (network : Network) :
  JourneyBuilder.networks st !! containerId = Some network ->
  Forall (fun it => is_id (id_of it) = true) (items (nodes network)) ->
  Forall (fun it => is_id (id_of it) = true) (items (edges network)) ->
  exists st',
    JourneyBuilder.resetHighlight containerId st = (Return (VBool true), st') /\
    data_at containerId st' =
      Some ({| items := map (mark_with reset_node) (items (nodes network));
               minted := minted (nodes network) |},
            {| items := map (mark_with reset_edge) (items (edges network));
               minted := minted (edges network) |}).
Proof.
  intros Hnet Hnkeys Hekeys.
  destruct (sweep_nodes reset_node network reset_node_patch Hnkeys)
    as [n1 [Hrun1 [Hn1 [He1 _]]]].
  assert (Hekeys1 : Forall (fun it => is_id (id_of it) = true) (items (edges n1)))
    by now rewrite He1.
  destruct (sweep_edges reset_edge n1 reset_edge_patch Hekeys1)
    as [n2 [Hrun2 [He2 [Hn2 _]]]].
  unfold JourneyBuilder.resetHighlight, JourneyBuilder.lookup_network, bind, ret.
  rewrite Hnet. cbn [slot_of]. rewrite (in_network_run _ _ _ _ Hnet).
  change (for_each_item nodes _ network)
    with (for_each_item nodes (fun it => on_nodes (update (reset_node (get it "id")))) network).
  rewrite Hrun1. simpl.
  rewrite (in_network_run _ _ _ _ (set_network_lookup _ _ _)).
  change (for_each_item edges _ n1)
    with (for_each_item edges (fun it => on_edges (update (reset_edge (get it "id")))) n1).
  rewrite Hrun2. simpl.
  eexists. split; [reflexivity|].
  unfold data_at. rewrite set_network_lookup. simpl.
  now rewrite Hn2, Hn1, He2, He1.
Qed.

Lemma not_found_has (ds : DataSet) (v : value) :
  find_item ds v = None -> has ds v = false.
Proof.
  unfold has, find_item. intros Hfind. apply not_true_is_false. intros H.
  apply existsb_exists in H as [it [Hin Heq]].
  apply (find_none _ _ Hfind) in Hin. congruence.
Qed.

Lemma mark_ids_absent (patch : value -> obj) (v : value) (ds : DataSet) :
  has ds v = false -> mark_ids patch [v] ds = ds.
Proof.
  intros Hhas. destruct ds as [its m]. unfold mark_ids. simpl. f_equal.
  rewrite <- (map_id its) at 2. apply map_ext_in. intros old Hin.
  unfold includes. simpl. rewrite orb_false_r, strict_eq_sym.
  unfold has in Hhas. simpl in Hhas.
  destruct (strict_eq (id_of old) v) eqn:E; [|reflexivity].
  exfalso. apply not_true_iff_false in Hhas. apply Hhas.
  apply existsb_exists. now exists old.
Qed.

Lemma data_at_network (containerId : string) (st : JourneyBuilder.state)
    (nds eds : DataSet) :
  data_at containerId st = Some (nds, eds) ->
  exists n, JourneyBuilder.networks st !! containerId = Some n /\
            nodes n = nds /\ edges n = eds.
Proof.
  unfold data_at. destruct (JourneyBuilder.networks st !! containerId) as [n|];
    simpl; intros [= <- <-]. now exists n.
Qed.

(** One round of the loop over [nodeIds] (lines 421-430). *)
Lemma highlight_node_round (containerId : string) (v : value)
    (st : JourneyBuilder.state) (nds eds : DataSet) :
  data_at containerId st = Some (nds, eds) ->
  is_id v = true ->
  exists st',
    (let! node := JourneyBuilder.in_network containerId
                    (fun n => (Return (get_by (nodes n) v), n)) in
     if truthy node
     then JourneyBuilder.in_network containerId
            (on_nodes (update [("id", v); ("borderWidth", num 5);
                               ("borderWidthSelected", num 6)]))
     else ret tt) st = (Return tt, st') /\
    data_at containerId st' = Some (mark_ids highlight_node [v] nds, eds).
Proof.
  intros Hdata Hid.
  destruct (data_at_network _ _ _ _ Hdata) as [n [Hnet [<- <-]]].
  destruct (is_id_key v Hid) as [_ Hnn].
  unfold bind. rewrite (in_network_run _ _ _ _ Hnet). simpl.
  assert (Hget : get_by (nodes n) v =
                 match find_item (nodes n) v with Some it => VObj it | None => VNull end)
    by (destruct v; try discriminate; reflexivity).
  rewrite Hget.
  destruct (find_item (nodes n) v) as [it|] eqn:Hfind; simpl.
  - destruct (found_has _ _ _ Hfind) as [Hhas _].
    rewrite (in_network_run _ _ _ _ (set_network_lookup _ _ _)), on_nodes_run.
    change [("id", v); ("borderWidth", num 5); ("borderWidthSelected", num 6)]
      with (highlight_node v).
    rewrite (update_marks highlight_node highlight_node_patch v _ Hnn Hhas). simpl.
    eexists. split; [reflexivity|].
    unfold data_at. now rewrite set_network_lookup.
  - eexists. split; [reflexivity|].
    unfold data_at. rewrite set_network_lookup. simpl.
    now rewrite (mark_ids_absent _ _ _ (not_found_has _ _ Hfind)).
Qed.

Lemma fold_mark_nodes (patch : value -> obj) (targets : list value)
    (nds eds : DataSet) :
  patch_for patch ->
  fold_left (fun t v => (fun p : DataSet * DataSet => (mark_ids patch [v] (fst p), snd p)) <$> t)
            targets (Some (nds, eds))
    = Some (mark_ids patch targets nds, eds).
Proof.
  intros Hp. revert nds. induction targets as [|v targets IH]; intros nds; simpl.
  - now rewrite mark_ids_nil.
  - rewrite IH. now rewrite (mark_ids_app patch Hp [v] targets).
Qed.

(** The loop over [nodeIds]: the nodes whose id is listed are marked. *)
Lemma highlight_nodes_loop (containerId : string) (nodeIds : list value)
    (st : JourneyBuilder.state) (nds eds : DataSet) :
  data_at containerId st = Some (nds, eds) ->
  Forall (fun v => is_id v = true) nodeIds ->
  exists st',
    for_each nodeIds (fun nodeId =>
      let! node := JourneyBuilder.in_network containerId
                     (fun n => (Return (get_by (nodes n) nodeId), n)) in
      if truthy node
      then JourneyBuilder.in_network containerId
             (on_nodes (update [("id", nodeId); ("borderWidth", num 5);
                                ("borderWidthSelected", num 6)]))
      else ret tt) st = (Return tt, st') /\
    data_at containerId st' = Some (mark_ids highlight_node nodeIds nds, eds).
Proof.
  intros Hdata Hids.
  destruct (for_each_fold (data_at containerId) (fun st0 => is_Some (data_at containerId st0))
              (fun v t => (fun p : DataSet * DataSet =>
                             (mark_ids highlight_node [v] (fst p), snd p)) <$> t)
              nodeIds
              (fun nodeId =>
                 let! node := JourneyBuilder.in_network containerId
                                (fun n => (Return (get_by (nodes n) nodeId), n)) in
                 if truthy node
                 then JourneyBuilder.in_network containerId
                        (on_nodes (update [("id", nodeId); ("borderWidth", num 5);
                                           ("borderWidthSelected", num 6)]))
                 else ret tt) st) as [st' [Hrun [Habs _]]].
  - rewrite Hdata. now eexists.
  - intros v st0 Hv [[nds0 eds0] Hd0].
    rewrite Forall_forall in Hids.
    destruct (highlight_node_round containerId v st0 nds0 eds0 Hd0) as [st1 [Hr Hd1]].
    { apply Hids. now apply list_elem_of_In. }
    exists st1. split; [exact Hr|]. rewrite Hd1, Hd0. simpl.
    split; [reflexivity | now eexists].
  - exists st'. split; [exact Hrun|].
    rewrite Habs, Hdata. apply fold_mark_nodes. apply highlight_node_patch.
Qed.

Lemma highlight_edge_round (containerId : string) (edge : obj)
    (st : JourneyBuilder.state) (nds eds : DataSet) :
  data_at containerId st = Some (nds, eds) ->
  has eds (get edge "id") = true -> nullish (get edge "id") = false ->
  exists st',
    JourneyBuilder.in_network containerId
      (on_edges (update [("id", get edge "id"); ("width", num 4);
                         ("color", VObj [("color", VStr "#FF5722");
                                         ("highlight", VStr "#FF5722")])])) st
      = (Return tt, st') /\
    data_at containerId st' = Some (nds, mark_ids highlight_edge [id_of edge] eds).
Proof.
  intros Hdata Hhas Hnn.
  destruct (data_at_network _ _ _ _ Hdata) as [n [Hnet [<- <-]]].
  rewrite (in_network_run _ _ _ _ Hnet), on_edges_run.
  change [("id", get edge "id"); ("width", num 4);
          ("color", VObj [("color", VStr "#FF5722"); ("highlight", VStr "#FF5722")])]
    with (highlight_edge (get edge "id")).
  rewrite (update_marks highlight_edge highlight_edge_patch _ _ Hnn Hhas). simpl.
  eexists. split; [reflexivity|].
  unfold data_at. now rewrite set_network_lookup.
Qed.

Lemma fold_mark_edges (patch : value -> obj) (es : list obj) (nds eds : DataSet) :
  patch_for patch ->
  fold_left (fun t e => (fun p : DataSet * DataSet =>
                           (fst p, mark_ids patch [id_of e] (snd p))) <$> t)
            es (Some (nds, eds))
    = Some (nds, mark_ids patch (map id_of es) eds).
Proof.
  intros Hp. revert eds. induction es as [|e es IH]; intros eds; simpl.
  - now rewrite mark_ids_nil.
  - rewrite IH. now rewrite (mark_ids_app patch Hp [id_of e] (map id_of es)).
Qed.

(** One round of the loop over consecutive elements (lines 433-445): the
    edges that join the two elements are marked. *)
Lemma highlight_step_round (containerId : string) (step : value * value)
    (st : JourneyBuilder.state) (nds eds : DataSet) :
  data_at containerId st = Some (nds, eds) ->
  Forall (fun it => is_id (id_of it) = true) (items eds) ->
  exists st',
    (let! edgesData :=
       JourneyBuilder.in_network containerId
         (fun n => (Return (List.filter
                              (fun edge => strict_eq (get edge "from") (fst step)
                                           && strict_eq (get edge "to") (snd step))
                              (get_all (edges n))), n)) in
     for_each edgesData (fun edge =>
       JourneyBuilder.in_network containerId
         (on_edges (update [("id", get edge "id"); ("width", num 4);
                            ("color", VObj [("color", VStr "#FF5722");
                                            ("highlight", VStr "#FF5722")])])))) st
      = (Return tt, st') /\
    data_at containerId st' =
      Some (nds, mark_ids highlight_edge
                   (map id_of (List.filter (joins step) (items eds))) eds).
Proof.
  intros Hdata Hkeys.
  destruct (data_at_network _ _ _ _ Hdata) as [n [Hnet [Hn He]]].
  unfold bind. rewrite (in_network_run _ _ _ _ Hnet). simpl.
  unfold get_all. rewrite He.
  change (fun edge : obj => strict_eq (get edge "from") (fst step)
                            && strict_eq (get edge "to") (snd step))
    with (joins step).
  assert (Hdata1 : data_at containerId (JourneyBuilder.set_network containerId n st)
                   = Some (nds, eds)).
  { unfold data_at. rewrite set_network_lookup. simpl. now rewrite Hn, He. }
  destruct (for_each_fold (data_at containerId)
              (fun st0 => exists nds0 eds0,
                 data_at containerId st0 = Some (nds0, eds0) /\
                 map id_of (items eds0) = map id_of (items eds))
              (fun e t => (fun p : DataSet * DataSet =>
                             (fst p, mark_ids highlight_edge [id_of e] (snd p))) <$> t)
              (List.filter (joins step) (items eds))
              (fun edge =>
                 JourneyBuilder.in_network containerId
                   (on_edges (update [("id", get edge "id"); ("width", num 4);
                                      ("color", VObj [("color", VStr "#FF5722");
                                                      ("highlight", VStr "#FF5722")])])))
              (JourneyBuilder.set_network containerId n st))
    as [st' [Hrun [Habs _]]].
  - now exists nds, eds.
  - intros edge st0 Hedge [nds0 [eds0 [Hd0 Hids0]]].
    apply filter_In in Hedge as [Hedge _].
    assert (Hid : is_id (id_of edge) = true).
    { rewrite Forall_forall in Hkeys. apply Hkeys. now apply list_elem_of_In. }
    destruct (is_id_key _ Hid) as [Hprim Hnn].
    assert (Hhas : has eds0 (get edge "id") = true).
    { rewrite has_includes, Hids0. apply In_includes; [exact Hprim|].
      now apply (in_map id_of). }
    destruct (highlight_edge_round containerId edge st0 nds0 eds0 Hd0 Hhas Hnn)
      as [st1 [Hr Hd1]].
    exists st1. split; [exact Hr|]. rewrite Hd1, Hd0. simpl. split; [reflexivity|].
    eexists _, _. split; [reflexivity|].
    now rewrite (mark_ids_ids highlight_edge highlight_edge_patch).
  - exists st'. split; [exact Hrun|].
    rewrite Habs, Hdata1. apply fold_mark_edges. apply highlight_edge_patch.
Qed.

Lemma highlight_edge_keeps_ends : keeps_ends highlight_edge.
Proof.
  intros v kv [<- | [<- | [<- | []]]]; simpl; split; discriminate.
Qed.

Lemma reset_edge_keeps_ends : keeps_ends reset_edge.
Proof.
  intros v kv [<- | [<- | [<- | []]]]; simpl; split; discriminate.
Qed.

Lemma joins_marked (patch : value -> obj) (step : value * value) (e : obj) :
  keeps_ends patch -> joins step (mark_with patch e) = joins step e.
Proof.
  intros Hk. unfold joins, mark_with.
  rewrite !get_spread_other; [reflexivity| |];
    intros kv Hin; now destruct (Hk _ _ Hin).
Qed.

Lemma filter_marked (patch : value -> obj) (targets : list value) (eds : DataSet)
    (step : value * value) :
  patch_for patch -> keeps_ends patch ->
  map id_of (List.filter (joins step) (items (mark_ids patch targets eds)))
    = map id_of (List.filter (joins step) (items eds)).
Proof.
  intros Hp Hk. unfold mark_ids. simpl.
  induction (items eds) as [|e es IH]; simpl; [reflexivity|].
  assert (Hj : joins step (if includes targets (id_of e) then mark_with patch e else e)
               = joins step e)
    by (destruct (includes targets (id_of e)); [now apply joins_marked | reflexivity]).
  assert (Hi : id_of (if includes targets (id_of e) then mark_with patch e else e)
               = id_of e)
    by (destruct (includes targets (id_of e)); [now apply mark_with_id | reflexivity]).
  rewrite Hj. destruct (joins step e); simpl; [rewrite Hi|]; now rewrite IH.
Qed.

Lemma fold_steps (steps : list (value * value)) (nds eds : DataSet) :
  fold_left
    (fun t p => (fun d : DataSet * DataSet =>
                   (fst d, mark_ids highlight_edge
                             (map id_of (List.filter (joins p) (items (snd d))))
                             (snd d))) <$> t)
    steps (Some (nds, eds))
  = Some (nds, mark_ids highlight_edge
                 (flat_map (fun p => map id_of (List.filter (joins p) (items eds))) steps)
                 eds).
Proof.
  revert eds. induction steps as [|p steps IH]; intros eds; simpl.
  - now rewrite mark_ids_nil.
  - rewrite IH.
    rewrite (flat_map_ext _ (fun p => map id_of (List.filter (joins p) (items eds)))).
    + now rewrite (mark_ids_app highlight_edge highlight_edge_patch).
    + intros q. apply filter_marked;
        [apply highlight_edge_patch | apply highlight_edge_keeps_ends].
Qed.

Lemma keys_by_ids (its its' : list obj) :
  map id_of its' = map id_of its ->
  Forall (fun it => is_id (id_of it) = true) its ->
  Forall (fun it => is_id (id_of it) = true) its'.
Proof.
  revert its. induction its' as [|a its' IH]; intros its Hids Hkeys; [constructor|].
  destruct its as [|b its]; [discriminate|].
  simpl in Hids. injection Hids as Ha Hrest. inversion Hkeys; subst.
  constructor; [congruence | now apply (IH its)].
Qed.

(** The loop over consecutive elements: the edges that join two
    consecutive elements are marked. *)
Lemma highlight_steps_loop (containerId : string) (steps : list (value * value))
    (st : JourneyBuilder.state) (nds eds : DataSet) :
  data_at containerId st = Some (nds, eds) ->
  Forall (fun it => is_id (id_of it) = true) (items eds) ->
  exists st',
    for_each steps (fun step =>
      let! edgesData :=
        JourneyBuilder.in_network containerId
          (fun n => (Return (List.filter
                               (fun edge => strict_eq (get edge "from") (fst step)
                                            && strict_eq (get edge "to") (snd step))
                               (get_all (edges n))), n)) in
      for_each edgesData (fun edge =>
        JourneyBuilder.in_network containerId
          (on_edges (update [("id", get edge "id"); ("width", num 4);
                             ("color", VObj [("color", VStr "#FF5722");
                                             ("highlight", VStr "#FF5722")])])))) st
      = (Return tt, st') /\
    data_at containerId st' =
      Some (nds, mark_ids highlight_edge
                   (flat_map (fun p => map id_of (List.filter (joins p) (items eds))) steps)
                   eds).
Proof.
  intros Hdata Hkeys.
  destruct (for_each_fold (data_at containerId)
              (fun st0 => exists nds0 eds0,
                 data_at containerId st0 = Some (nds0, eds0) /\
                 map id_of (items eds0) = map id_of (items eds))
              (fun p t => (fun d : DataSet * DataSet =>
                   (fst d, mark_ids highlight_edge
                             (map id_of (List.filter (joins p) (items (snd d))))
                             (snd d))) <$> t)
              steps
              (fun step =>
                 let! edgesData :=
                   JourneyBuilder.in_network containerId
                     (fun n => (Return (List.filter
                                  (fun edge => strict_eq (get edge "from") (fst step)
                                               && strict_eq (get edge "to") (snd step))
                                  (get_all (edges n))), n)) in
                 for_each edgesData (fun edge =>
                   JourneyBuilder.in_network containerId
                     (on_edges (update [("id", get edge "id"); ("width", num 4);
                                        ("color", VObj [("color", VStr "#FF5722");
                                                        ("highlight", VStr "#FF5722")])]))))
              st) as [st' [Hrun [Habs _]]].
  - now exists nds, eds.
  - intros p st0 _ [nds0 [eds0 [Hd0 Hids0]]].
    destruct (highlight_step_round containerId p st0 nds0 eds0 Hd0) as [st1 [Hr Hd1]].
    { now apply (keys_by_ids (items eds)). }
    exists st1. split; [exact Hr|]. rewrite Hd1, Hd0. simpl. split; [reflexivity|].
    eexists _, _. split; [reflexivity|].
    now rewrite (mark_ids_ids highlight_edge highlight_edge_patch).
  - exists st'. split; [exact Hrun|]. rewrite Habs, Hdata. apply fold_steps.
Qed.

Lemma includes_map_ids (its : list obj) (v : value) :
  includes (map id_of its) v = existsb (fun it => strict_eq (get it "id") v) its.
Proof. unfold includes. induction its as [|it its IH]; simpl; [reflexivity | now rewrite IH]. Qed.

(** An edge of a well-keyed set is among the marked ones exactly when it
    joins two consecutive elements. *)
Lemma on_path_lookup (nodeIds : list value) (ds : DataSet) (e : obj) :
  well_keyed ds -> In e (items ds) ->
  includes (flat_map (fun p => map id_of (List.filter (joins p) (items ds)))
                     (JourneyBuilder.consecutive nodeIds)) (id_of e)
    = on_path nodeIds e.
Proof.
  intros Hwk Hin. unfold on_path.
  induction (JourneyBuilder.consecutive nodeIds) as [|p ps IH]; simpl; [reflexivity|].
  rewrite includes_app, IH. f_equal.
  rewrite includes_map_ids. apply (selected_by_id ds (joins p) e Hwk Hin).
Qed.

Lemma marked_well_keyed (patch : value -> obj) (ds : DataSet) :
  patch_for patch -> well_keyed ds ->
  well_keyed {| items := map (mark_with patch) (items ds); minted := minted ds |}.
Proof.
  intros Hp [Hnd Hkeys].
  assert (Hids : map id_of (map (mark_with patch) (items ds)) = map id_of (items ds)).
  { rewrite map_map. apply map_ext. intros it. now apply mark_with_id. }
  split; simpl.
  - now rewrite Hids.
  - now apply (keys_by_ids (items ds)).
Qed.

Lemma on_path_marked (patch : value -> obj) (nodeIds : list value) (e : obj) :
  keeps_ends patch -> on_path nodeIds (mark_with patch e) = on_path nodeIds e.
Proof.
  intros Hk. unfold on_path.
  induction (JourneyBuilder.consecutive nodeIds) as [|p ps IH]; simpl; [reflexivity|].
  rewrite IH. f_equal. now apply (joins_marked patch p e).
Qed.

(** The journey builder's highlightPath, end to end. *)
Lemma journey_highlightPath_exact (containerId : string) (nodeIds : list value)
    (st : JourneyBuilder.state) (network : Network) :
  JourneyBuilder.networks st !! containerId = Some network ->
  well_keyed (nodes network) -> well_keyed (edges network) ->
  Forall (fun v => is_id v = true) nodeIds ->
  exists st',
    JourneyBuilder.highlightPath containerId nodeIds st = (Return (VBool true), st') /\
    exists network',
      JourneyBuilder.networks st' !! containerId = Some network' /\
      items (nodes network') =
        map (fun n => if includes nodeIds (get n "id")
                      then mark_with highlight_node (mark_with reset_node n)
                      else mark_with reset_node n)
            (items (nodes network)) /\
      items (edges network') =
        map (fun e => if on_path nodeIds e
                      then mark_with highlight_edge (mark_with reset_edge e)
                      else mark_with reset_edge e)
            (items (edges network)).
Proof.
  intros Hnet Hnwk Hewk Hids.
  destruct (journey_resetHighlight_exact containerId st network Hnet
              (proj2 Hnwk) (proj2 Hewk)) as [st1 [Hreset Hd1]].
  destruct (highlight_nodes_loop containerId nodeIds st1 _ _ Hd1 Hids)
    as [st2 [Hloop2 Hd2]].
  pose proof (marked_well_keyed reset_edge (edges network) reset_edge_patch Hewk)
    as Hrwk.
  destruct (highlight_steps_loop containerId (JourneyBuilder.consecutive nodeIds)
              st2 _ _ Hd2 (proj2 Hrwk)) as [st3 [Hloop3 Hd3]].
  exists st3. split.
  - unfold JourneyBuilder.highlightPath.
    rewrite (bind_run (JourneyBuilder.lookup_network containerId) _ st (Some (Entry network)) st)
      by (unfold JourneyBuilder.lookup_network; now rewrite Hnet).
    cbv beta iota.
    rewrite (bind_run _ _ _ _ _ Hreset), (bind_run _ _ _ _ _ Hloop2),
      (bind_run _ _ _ _ _ Hloop3).
    reflexivity.
  - destruct (data_at_network _ _ _ _ Hd3) as [n3 [Hn3 [Hnodes Hedges]]].
    exists n3. split; [exact Hn3|]. split.
    + rewrite Hnodes. unfold mark_ids. simpl. rewrite map_map.
      apply map_ext. intros n.
      now rewrite (mark_with_id reset_node reset_node_patch).
    + rewrite Hedges. unfold mark_ids. simpl. rewrite map_map.
      apply map_ext_in. intros e Hin.
      assert (Hin' : In (mark_with reset_edge e)
                        (map (mark_with reset_edge) (items (edges network))))
        by now apply in_map.
      pose proof (on_path_lookup nodeIds _ (mark_with reset_edge e) Hrwk Hin') as Hpath.
      simpl in Hpath. rewrite Hpath.
      now rewrite (on_path_marked reset_edge nodeIds e reset_edge_keeps_ends).
Qed.

End JourneyHighlight.

(** C6, as the code has it.  Both scripts answer true, keep every node
    and edge, and write the highlight afresh on each call.  theme.js sets
    the opacity of every node to 1.0 when its id is in [nodeIds] and to
    0.3 otherwise, and the opacity of every edge to 1.0 when both its
    ends are in [nodeIds] and to 0.3 otherwise.  The journey builder
    knows no opacity: it first resets every node and edge to the plain
    widths and colour, then gives the nodes whose id is in [nodeIds] the
    wide border, and the highlight width and colour to the edges that
    run from one element of [nodeIds] to the next one, and to no other
    edge. *)
Theorem highlightPath_marks_exactly (containerId : string) (nodeIds : list value) :
  (forall (st : Vis.page) (network : Vis.Network),
     Vis.registry st !! containerId = Some network ->
     Marks.well_keyed (Vis.nodes network) ->
     Marks.well_keyed (Vis.edges network) ->
     fst (CustomerNetwork.highlightPath containerId nodeIds st) = Return (VBool true) /\
     exists network',
       Vis.registry (snd (CustomerNetwork.highlightPath containerId nodeIds st))
         !! containerId = Some network' /\
       Vis.items (Vis.nodes network') =
         map (fun n =>
                spread n [("id", get n "id");
                          ("opacity",
                           CustomerNetwork.opacity (includes nodeIds (get n "id")))])
             (Vis.items (Vis.nodes network)) /\
       Vis.items (Vis.edges network') =
         map (fun e =>
                spread e [("id", get e "id");
                          ("opacity",
                           CustomerNetwork.opacity
                             (includes nodeIds (get e "from")
                              && includes nodeIds (get e "to")))])
             (Vis.items (Vis.edges network))) /\
  (forall (st : JourneyBuilder.state) (network : Vis.Network),
     JourneyBuilder.networks st !! containerId = Some network ->
     Marks.well_keyed (Vis.nodes network) ->
     Marks.well_keyed (Vis.edges network) ->
     Forall (fun v => is_id v = true) nodeIds ->
     fst (JourneyBuilder.highlightPath containerId nodeIds st) = Return (VBool true) /\
     exists network',
       JourneyBuilder.networks (snd (JourneyBuilder.highlightPath containerId nodeIds st))
         !! containerId = Some network' /\
       Vis.items (Vis.nodes network') =
         map (fun n =>
                if includes nodeIds (get n "id")
                then spread (spread n (Marks.reset_node (get n "id")))
                            (Marks.highlight_node (get n "id"))
                else spread n (Marks.reset_node (get n "id")))
             (Vis.items (Vis.nodes network)) /\
       Vis.items (Vis.edges network') =
         map (fun e =>
                if Marks.on_path nodeIds e
                then spread (spread e (Marks.reset_edge (get e "id")))
                            (Marks.highlight_edge (get e "id"))
                else spread e (Marks.reset_edge (get e "id")))
             (Vis.items (Vis.edges network))).
Proof.
  split.
  - intros st network Hnet Hn He.
    exact (customer_highlightPath_exact containerId nodeIds st network Hnet Hn He).
  - intros st network Hnet Hn He Hids.
    destruct (journey_highlightPath_exact containerId nodeIds st network Hnet Hn He Hids)
      as [st' [Hrun [network' [Hnet' [Hnodes Hedges]]]]].
    rewrite Hrun. simpl. split; [reflexivity|].
    exists network'. split; [exact Hnet'|]. split.
    + rewrite Hnodes. apply map_ext. intros n.
      unfold Marks.mark_with at 1.
      now rewrite (mark_with_id Marks.reset_node reset_node_patch).
    + rewrite Hedges. apply map_ext. intros e.
      unfold Marks.mark_with at 1.
      now rewrite (mark_with_id Marks.reset_edge reset_edge_patch).
Qed.

Lemma customer_page_well_keyed :
  Marks.well_keyed
    (Vis.nodes (Examples.network_of 0
                  [[("id", VStr "a"); ("label", VStr "Acme Ltd")];
                   [("id", VStr "b"); ("label", VStr "B. Owner")]]
                  [[("id", VStr "ab"); ("from", VStr "a"); ("to", VStr "b")]])) /\
  Marks.well_keyed
    (Vis.edges (Examples.network_of 0
                  [[("id", VStr "a"); ("label", VStr "Acme Ltd")];
                   [("id", VStr "b"); ("label", VStr "B. Owner")]]
                  [[("id", VStr "ab"); ("from", VStr "a"); ("to", VStr "b")]])).
Proof.
  split; (split; simpl; [distinct_keys | repeat constructor]).
Defined.

Lemma highlightPath_customer_witness :
  fst (CustomerNetwork.highlightPath "customer-graph" [VStr "a"] Examples.customer_page)
    = Return (VBool true).
Proof.
  destruct (highlightPath_marks_exactly "customer-graph" [VStr "a"]) as [Hcustomer _].
  destruct (Hcustomer Examples.customer_page _ eq_refl
              (proj1 customer_page_well_keyed) (proj2 customer_page_well_keyed))
    as [Hanswer _].
  exact Hanswer.
Defined.

(** The claim's "an edge is emphasized iff both its endpoints are in S"
    fails in the journey builder: with the path [2, 1] both ends of the
    edge e1 from 1 to 2 are listed, and the edge keeps the plain width
    and colour. *)
Lemma reverse_path_leaves_edge_plain :
  includes [num 2; num 1] (get Examples.edge_1_2 "from")
    && includes [num 2; num 1] (get Examples.edge_1_2 "to") = true /\
  (fun n => Vis.items (Vis.edges n)) <$>
    (JourneyBuilder.networks
       (snd (JourneyBuilder.highlightPath "journey" [num 2; num 1]
               (Examples.journey_page [Examples.start_node; Examples.wait_node]
                                      [Examples.edge_1_2])))
       !! "journey")
    = Some [spread Examples.edge_1_2 (Marks.reset_edge (VStr "e1"))] /\
  get (spread Examples.edge_1_2 (Marks.reset_edge (VStr "e1"))) "width" = num 2.
Proof. repeat split; vm_compute; reflexivity. Qed.

(** ** loadData and getData of the journey builder *)

Section LoadData.
Import Vis Marks.




Lemma plain_put_display (o : obj) (k : string) (v : value) :
  display_key k = true -> plain (put o k v) = plain o.
Proof.
  intros Hk. induction o as [|[k' v'] o IH]; simpl.
  - now rewrite Hk.
  - destruct (String.eqb k k') eqn:E; simpl.
    + apply String.eqb_eq in E. subst k'. now rewrite Hk.
    + now rewrite IH.
Qed.


Lemma plain_spread_display (a b : obj) :
  (forall kv, In kv b -> display_key (fst kv) = true) -> plain (spread a b) = plain a.
Proof.
  unfold spread. revert a. induction b as [|[k v] b IH]; intros a H; simpl; [reflexivity|].
  rewrite IH by (intros kv Hin; apply H; now right).
  apply plain_put_display. apply (H (k, v)). now left.
Qed.

(** styleNode touches display properties only. *)
Lemma plain_styleNode (node : obj) : plain (JourneyBuilder.styleNode node) = plain node.
Proof.
  unfold JourneyBuilder.styleNode.
  rewrite plain_spread_display by (intros kv [<- | []]; reflexivity).
  apply plain_spread_display. intros kv Hin.
  destruct (style_for_keys _ _ Hin) as [-> | [-> | ->]]; reflexivity.
Qed.







End LoadData.




(** ** removeNode in the d3 module *)

Section D3RemoveNode.
Import D3Graph.

Lemma endpoint_id_resolved (inst : instance) (e : endpoint) :
  resolved e = true -> exists v, endpoint_id inst e = Some v.
Proof.
  destruct e as [[]|k]; simpl; intros H; try discriminate; eauto.
Qed.

Lemma filter_links_settled (inst : instance) (nodeId : value) (ks : list nat) :
  (forall k, In k ks ->
     exists l, link_objects inst !! k = Some l /\
               resolved (source l) = true /\ resolved (target l) = true) ->
  exists kept,
    filter_links inst nodeId ks = Return kept /\
    forall k, In k kept -> In k ks /\ unrelated inst nodeId k = Return true.
Proof.
  induction ks as [|k ks IH]; intros H; simpl.
  - exists []. split; [reflexivity | intros k []].
  - destruct IH as [kept [Hkept Hall]]; [intros k' Hk'; apply H; now right|].
    destruct (H k (or_introl eq_refl)) as [l [Hl [Hs Ht]]].
    assert (Hun : exists keep, unrelated inst nodeId k = Return keep).
    { unfold unrelated, link_at. rewrite Hl. simpl.
      destruct (endpoint_id_resolved inst _ Hs) as [s ->].
      destruct (endpoint_id_resolved inst _ Ht) as [t ->].
      destruct (strict_eq s nodeId); eauto. }
    destruct Hun as [keep Hun]. rewrite Hun, Hkept.
    destruct keep.
    + exists (k :: kept). split; [reflexivity|].
      intros k' [<- | Hk']; [split; [now left | exact Hun]|].
      destruct (Hall k' Hk'). split; [now right | assumption].
    + exists kept. split; [reflexivity|].
      intros k' Hk'. destruct (Hall k' Hk'). split; [now right | assumption].
Qed.

(** What [unrelated] vouches for: neither end of the link carries the id. *)
Lemma unrelated_ends (inst : instance) (nodeId : value) (k : nat) :
  unrelated inst nodeId k = Return true ->
  exists s t,
    endpoint_id inst (source (link_at inst k)) = Some s /\
    endpoint_id inst (target (link_at inst k)) = Some t /\
    strict_eq s nodeId = false /\ strict_eq t nodeId = false.
Proof.
  unfold unrelated.
  destruct (endpoint_id inst (source (link_at inst k))) as [s|]; [|discriminate].
  destruct (strict_eq s nodeId) eqn:Hs; [discriminate|].
  destruct (endpoint_id inst (target (link_at inst k))) as [t|]; [|discriminate].
  intros [= Ht]. exists s, t. repeat split; try assumption.
  now apply negb_true_iff.
Qed.

(** On a settled instance [removeNode] answers true, and afterwards no
    node of the instance carries the id and no link of the instance has
    an end that carries it. *)
Lemma d3_removeNode_cascades (containerId : string) (nodeId : value) (st : state)
    (inst : instance) :
  graphInstances st !! containerId = Some inst ->
  settled inst ->
  fst (removeNode containerId nodeId st) = Return (VBool true) /\
  exists inst',
    graphInstances (snd (removeNode containerId nodeId st)) !! containerId = Some inst' /\
    (forall k, In k (nodes inst') ->
       In k (nodes inst) /\ strict_eq (get (node_at inst' k) "id") nodeId = false) /\
    (forall k, In k (links inst') ->
       In k (links inst) /\
       exists s t,
         endpoint_id inst' (source (link_at inst' k)) = Some s /\
         endpoint_id inst' (target (link_at inst' k)) = Some t /\
         strict_eq s nodeId = false /\ strict_eq t nodeId = false).
Proof.
  intros Hinst Hs.
  pose (ns := List.filter (fun k => negb (strict_eq (get (node_at inst k) "id") nodeId))
                          (nodes inst)).
  pose (inst1 := snd (set_nodes ns inst)).
  destruct (filter_links_settled inst1 nodeId (links inst1)) as [kept [Hkept Hall]].
  { intros k Hk. apply Hs. left. exact Hk. }
  pose (inst2 := snd (set_links kept inst1)).
  assert (Hs2 : settled inst2).
  { intros k [Hk | Hk].
    - apply Hs. left. simpl in Hk. now apply (Hall k).
    - apply Hs. right. exact Hk. }
  unfold removeNode.
  rewrite (bind_run (lookup_instance containerId) _ st (Some (Entry inst)) st)
    by (unfold lookup_instance; now rewrite Hinst).
  cbv beta iota.
  rewrite (bind_run _ _ st tt (set_instance containerId inst1 st))
    by (rewrite (d3_in_instance_run _ _ _ _ Hinst); reflexivity).
  rewrite (bind_run _ _ _ tt (set_instance containerId inst2
                                (set_instance containerId inst1 st))).
  2:{ rewrite (d3_in_instance_run _ _ _ _ (d3_set_instance_lookup _ _ _)).
      unfold bind, read. fold inst1. rewrite Hkept. reflexivity. }
  rewrite (bind_run _ _ _ tt (set_instance containerId (rendered inst2)
                                (set_instance containerId inst2
                                   (set_instance containerId inst1 st)))).
  2:{ unfold renderGraph, lookup_instance, bind, ret.
      rewrite d3_set_instance_lookup. cbn [slot_of].
      rewrite (d3_in_instance_run _ _ _ _ (d3_set_instance_lookup _ _ _)).
      now rewrite (render_settled _ Hs2). }
  simpl. split; [reflexivity|].
  exists (rendered inst2). split; [apply lookup_insert_eq|]. split.
  - intros k Hk. simpl in Hk. apply filter_In in Hk as [Hk Hid].
    split; [exact Hk|]. now apply negb_true_iff.
  - intros k Hk. simpl in Hk. destruct (Hall k Hk) as [Hin Hun].
    split; [exact Hin|]. exact (unrelated_ends inst1 nodeId k Hun).
Qed.

End D3RemoveNode.

(** ** Well-keyed DataSets *)

Section WellKeyed.
Import Vis Marks.

Lemma empty_set_well_keyed : well_keyed empty_set.
Proof. split; constructor. Qed.

Lemma clear_well_keyed (ds : DataSet) : well_keyed (snd (clear ds)).
Proof. split; constructor. Qed.

Lemma remove_well_keyed (arg : value) (ds : DataSet) :
  well_keyed ds -> well_keyed (snd (remove arg ds)).
Proof.
  intros [Hnd Hkeys]. unfold remove. simpl. split.
  - induction (items ds) as [|it its IH]; simpl; [constructor|].
    apply NoDup_cons in Hnd as [Hnotin Hnd]. inversion Hkeys; subst.
    destruct (negb _); simpl; [|now apply IH].
    apply NoDup_cons. split; [|now apply IH].
    intros Hin. apply Hnotin. apply list_elem_of_In in Hin. apply list_elem_of_In.
    apply in_map_iff in Hin as [x [Hx Hin]]. apply filter_In in Hin as [Hin _].
    rewrite <- Hx. now apply in_map.
  - rewrite Forall_forall in *. intros it Hin.
    apply list_elem_of_In, filter_In in Hin as [Hin _].
    apply Hkeys. now apply list_elem_of_In.
Qed.

Lemma uuid_is_id (n : nat) : is_id (uuid n) = true.
Proof. reflexivity. Qed.

(** [add] keeps a set well keyed, whether it takes the item or refuses
    it, as long as the id the item brings is a number or a string. *)
Lemma add_item_well_keyed (it : obj) (ds : DataSet) :
  well_keyed ds ->
  nullish (id_of it) = true \/ is_id (id_of it) = true ->
  well_keyed (snd (add_item it ds)).
Proof.
  intros [Hnd Hkeys] Hid. unfold add_item.
  set (full := if nullish (id_of it) then put it "id" (uuid (minted ds)) else it).
  assert (Hfull : is_id (id_of full) = true).
  { unfold full. destruct (nullish (id_of it)) eqn:E.
    - unfold id_of. now rewrite get_put_same.
    - now destruct Hid as [Hid | Hid]. }
  destruct (has ds (id_of full)) eqn:Hhas; simpl; [now split|].
  split; simpl.
  - rewrite map_app. simpl. apply NoDup_app. split; [exact Hnd|]. split.
    + intros v Hv Hin. apply list_elem_of_In in Hin as [<- | []].
      apply list_elem_of_In in Hv.
      rewrite has_includes in Hhas.
      rewrite (In_includes _ _ (proj1 (is_id_key _ Hfull)) Hv) in Hhas. discriminate.
    + apply NoDup_cons. split; [apply not_elem_of_nil | constructor].
  - apply Forall_app. split; [exact Hkeys | now constructor].
Qed.

End WellKeyed.

(** * Further properties *)

(** ** styleNode *)

Lemma In_has_key (o : obj) (kv : string * value) : In kv o -> has_key o (fst kv) = true.
Proof.
  intros Hin. unfold has_key. apply existsb_exists. exists kv. split; [exact Hin|].
  apply String.eqb_refl.
Qed.

Lemma style_for_NoDup (type : value) : NoDup (map fst (JourneyBuilder.style_for type)).
Proof.
  unfold JourneyBuilder.style_for, JourneyBuilder.styles, JourneyBuilder.default_style.
  cbn [List.find fst snd].
  repeat (match goal with
          | |- context [String.eqb ?a ?b] => destruct (String.eqb a b)
          end; cbn [fst snd map]; try distinct_keys).
  destruct (inherited _); cbn [map fst]; distinct_keys.
Qed.

(** X1.  styleNode only writes the display properties: restyling a styled
    node changes nothing, every property other than color, shape, icon and
    font reads as in the record given, and the font is the white 14 pt one
    whatever the record carried. *)
Theorem styleNode_idempotent_keeps_data (node : obj) :
  JourneyBuilder.styleNode (JourneyBuilder.styleNode node) = JourneyBuilder.styleNode node /\
  (forall k, Marks.display_key k = false ->
     get (JourneyBuilder.styleNode node) k = get node k) /\
  get (JourneyBuilder.styleNode node) "font"
    = VObj [("color", VStr "#ffffff"); ("size", num 14)] /\
  Marks.plain (JourneyBuilder.styleNode node) = Marks.plain node.
Proof.
  assert (Hkeep : forall k, Marks.display_key k = false ->
            get (JourneyBuilder.styleNode node) k = get node k).
  { intros k Hk. apply styleNode_keeps; intros ->; discriminate Hk. }
  split; [|split; [exact Hkeep|split; [|apply plain_styleNode]]].
  - unfold JourneyBuilder.styleNode at 1.
    rewrite (Hkeep "type" eq_refl).
    set (s := JourneyBuilder.style_for (get node "type")).
    set (f := [("font", VObj [("color", VStr "#ffffff"); ("size", num 14)])]).
    assert (Hx : JourneyBuilder.styleNode node = spread (spread node s) f) by reflexivity.
    rewrite Hx.
    assert (Hs : spread (spread (spread node s) f) s = spread (spread node s) f).
    { apply spread_held. intros kv Hin. split.
      - rewrite !has_key_spread, (In_has_key s kv Hin). now rewrite orb_true_r.
      - rewrite get_spread_other.
        + apply get_spread_bound; [apply style_for_NoDup|]. now destruct kv.
        + intros kv' [<- | []] Heq. simpl in Heq.
          destruct (style_for_keys _ _ Hin) as [H | [H | H]]; rewrite H in Heq; discriminate. }
    rewrite Hs. apply spread_held. intros kv [<- | []]. split.
    + rewrite has_key_spread. simpl. now rewrite orb_true_r.
    + apply get_spread_bound; [distinct_keys | now left].
  - apply get_spread_bound; [distinct_keys | now left].
Qed.

(** ** Adding to a journey *)


Lemma add_fresh (it : obj) (ds : Vis.DataSet) :
  nullish (Vis.id_of it) = false ->
  Vis.has ds (Vis.id_of it) = false ->
  Vis.add it ds =
    (Return tt, {| Vis.items := Vis.items ds ++ [it]; Vis.minted := Vis.minted ds |}).
Proof.
  intros Hid Hhas. unfold Vis.add, Vis.add_item, bind, ret. now rewrite Hid, Hhas.
Qed.


Lemma data_at_set_nodes (containerId : string) (ds : Vis.DataSet) (n : Vis.Network)
    (st : JourneyBuilder.state) :
  Marks.data_at containerId
    (JourneyBuilder.set_network containerId (Vis.with_nodes ds n) st)
    = Some (ds, Vis.edges n).
Proof. unfold Marks.data_at. now rewrite set_network_lookup. Qed.

Lemma data_at_set_edges (containerId : string) (ds : Vis.DataSet) (n : Vis.Network)
    (st : JourneyBuilder.state) :
  Marks.data_at containerId
    (JourneyBuilder.set_network containerId (Vis.with_edges ds n) st)
    = Some (Vis.nodes n, ds).
Proof. unfold Marks.data_at. now rewrite set_network_lookup. Qed.



(** ** Adding to a customer graph (part_000) *)




Lemma uuid_inj (k m : nat) : Vis.uuid k = Vis.uuid m -> k = m.
Proof.
  unfold Vis.uuid. intros Heq. injection Heq as Heq.
  now apply (inj pretty).
Qed.

Lemma strict_eq_neq (a b : value) : a <> b -> strict_eq a b = false.
Proof.
  intros Hne. destruct (strict_eq a b) eqn:Heq; [|reflexivity].
  now apply strict_eq_eq in Heq.
Qed.

Lemma generated_lacks_next (ds : Vis.DataSet) :
  Marks.generated ds -> Vis.has ds (Vis.uuid (Vis.minted ds)) = false.
Proof.
  unfold Marks.generated, Vis.has. intros Hgen.
  apply not_true_is_false. intros Hex. apply existsb_exists in Hex.
  destruct Hex as [it [Hin Heq]]. apply strict_eq_eq in Heq.
  rewrite Forall_forall in Hgen. rewrite <- list_elem_of_In in Hin.
  destruct (Hgen it Hin) as [k [Hlt Hk]].
  rewrite Hk in Heq. apply uuid_inj in Heq. lia.
Qed.

(** X4.  addEdge of part_000 builds its edge record without an id, so the
    DataSet generates one.  On an instance whose edge ids were all
    generated this way the call always answers true, appends one edge
    under the next generated id (an id in [edgeData] is not used), and the
    edge set is again one of generated ids only. *)
Theorem customer_addEdge_always_appends (containerId : string) (edgeData : obj)
    (st : Vis.page) (network : Vis.Network) :
  Vis.registry st !! containerId = Some network ->
  Marks.generated (Vis.edges network) ->
  fst (CustomerGraph.addEdge containerId edgeData st) = Return (VBool true) /\
  exists network',
    Vis.registry (snd (CustomerGraph.addEdge containerId edgeData st)) !! containerId
      = Some network' /\
    Vis.nodes network' = Vis.nodes network /\
    Vis.items (Vis.edges network') =
      Vis.items (Vis.edges network)
        ++ [CustomerGraph.edge_of edgeData
              ++ [("id", Vis.uuid (Vis.minted (Vis.edges network)))]] /\
    Vis.minted (Vis.edges network') = S (Vis.minted (Vis.edges network)) /\
    Marks.generated (Vis.edges network').
Proof.
  intros Hnet Hgen.
  unfold CustomerGraph.addEdge, Vis.lookup_instance, try_catch, bind, ret.
  rewrite Hnet. cbn [slot_of]. rewrite (in_instance_run _ _ _ _ Hnet), on_edges_run.
  unfold Vis.add, Vis.add_item, bind, ret.
  change (nullish (Vis.id_of (CustomerGraph.edge_of edgeData))) with true.
  cbn beta iota.
  change (Vis.id_of (put (CustomerGraph.edge_of edgeData) "id"
                         (Vis.uuid (Vis.minted (Vis.edges network)))))
    with (Vis.uuid (Vis.minted (Vis.edges network))).
  rewrite (generated_lacks_next _ Hgen). cbn [fst snd].
  split; [reflexivity|].
  eexists. split; [apply set_instance_lookup|].
  cbn [Vis.nodes Vis.edges Vis.with_edges Vis.items Vis.minted].
  split; [reflexivity|]. split; [reflexivity|]. split; [reflexivity|].
  unfold Marks.generated. cbn [Vis.items Vis.minted].
  apply Forall_app. split.
  - eapply Forall_impl; [exact Hgen|]. intros it [k [Hlt Hk]].
    exists k. split; [lia | exact Hk].
  - constructor; [|constructor]. exists (Vis.minted (Vis.edges network)).
    split; [lia | reflexivity].
Qed.

(** The page of the example is what addEdge leaves of the customer graph
    without its edge. *)
Lemma drawn_page_by_addEdge :
  snd (CustomerGraph.addEdge "customer-graph" [("from", VStr "a"); ("to", VStr "b")]
         (Vis.set_instance "customer-graph"
            (Examples.network_of 0
               [[("id", VStr "a"); ("label", VStr "Acme Ltd")];
                [("id", VStr "b"); ("label", VStr "B. Owner")]] [])
            Examples.customer_page))
    = Examples.drawn_page.
Proof. vm_compute. reflexivity. Qed.

Lemma drawn_page_generated (network : Vis.Network) :
  Vis.registry Examples.drawn_page !! "customer-graph" = Some network ->
  Marks.generated (Vis.edges network).
Proof.
  intros Hnet. unfold Examples.drawn_page in Hnet. cbn [Vis.registry] in Hnet.
  apply lookup_singleton_Some in Hnet. destruct Hnet as [_ <-].
  constructor; [|constructor]. exists 0. split; [cbn; lia | reflexivity].
Qed.

Lemma customer_addEdge_witness :
  exists network,
    Vis.registry Examples.drawn_page !! "customer-graph" = Some network /\
    Vis.items (Vis.edges network) <> [] /\
    Marks.generated (Vis.edges network) /\
    fst (CustomerGraph.addEdge "customer-graph"
           [("id", VStr "mine"); ("from", VStr "b"); ("to", VStr "a")]
           Examples.drawn_page)
      = Return (VBool true).
Proof.
  eexists. split; [reflexivity|]. split; [discriminate|].
  split; [exact (drawn_page_generated _ eq_refl)|].
  exact (proj1 (customer_addEdge_always_appends "customer-graph"
                  [("id", VStr "mine"); ("from", VStr "b"); ("to", VStr "a")]
                  Examples.drawn_page _ eq_refl (drawn_page_generated _ eq_refl))).
Defined.

(** ** An id inside the updates of updateNode *)



(** ** Removing from a journey *)

Lemma filter_all {A} (f : A -> bool) (l : list A) :
  (forall x, In x l -> f x = true) -> List.filter f l = l.
Proof.
  induction l as [|x l IH]; intros Hall; [reflexivity|]. simpl.
  rewrite (Hall x (or_introl eq_refl)). f_equal. apply IH. intros y Hy.
  apply Hall. now right.
Qed.

Lemma remove_by_id (v : value) (ds : Vis.DataSet) :
  is_id v = true ->
  Vis.remove v ds =
    (Return tt,
     {| Vis.items := List.filter (fun it => negb (strict_eq (Vis.id_of it) v)) (Vis.items ds);
        Vis.minted := Vis.minted ds |}).
Proof.
  intros Hv. unfold Vis.remove. f_equal. f_equal.
  apply filter_ext. intros it.
  assert (Hids : Vis.removal_ids v = [v]) by now destruct v.
  rewrite Hids. simpl. now rewrite orb_false_r, strict_eq_sym.
Qed.

Lemma remove_absent (v : value) (ds : Vis.DataSet) :
  is_id v = true -> Vis.has ds v = false -> Vis.remove v ds = (Return tt, ds).
Proof.
  intros Hv Hhas. rewrite remove_by_id by exact Hv.
  rewrite filter_all; [now destruct ds|].
  intros it Hin. apply negb_true_iff. apply not_true_is_false. intros Heq.
  assert (Vis.has ds v = true); [|congruence].
  unfold Vis.has. apply existsb_exists. now exists it.
Qed.

(** X6.  removeNode and removeEdge of the journey builder, for a number
    or string id on a registered instance: the call answers true and the
    set loses exactly the items carrying the id, the other set staying
    as it is; an id the set does not hold changes no data; and removing
    the id of a node that addNode has just added gives back the data
    there was before the addition. *)
Theorem journey_remove_drops_exactly (containerId : string) (id : value)
    (st : JourneyBuilder.state) (network : Vis.Network) :
  JourneyBuilder.networks st !! containerId = Some network ->
  is_id id = true ->
  (fst (JourneyBuilder.removeNode containerId id st) = Return (VBool true) /\
   Marks.data_at containerId (snd (JourneyBuilder.removeNode containerId id st)) =
     Some ({| Vis.items := List.filter (fun it => negb (strict_eq (Vis.id_of it) id))
                                       (Vis.items (Vis.nodes network));
              Vis.minted := Vis.minted (Vis.nodes network) |},
           Vis.edges network)) /\
  (fst (JourneyBuilder.removeEdge containerId id st) = Return (VBool true) /\
   Marks.data_at containerId (snd (JourneyBuilder.removeEdge containerId id st)) =
     Some (Vis.nodes network,
           {| Vis.items := List.filter (fun it => negb (strict_eq (Vis.id_of it) id))
                                       (Vis.items (Vis.edges network));
              Vis.minted := Vis.minted (Vis.edges network) |})) /\
  (Vis.has (Vis.nodes network) id = false ->
     Marks.data_at containerId (snd (JourneyBuilder.removeNode containerId id st))
       = Some (Vis.nodes network, Vis.edges network) /\
     forall record, get record "id" = id ->
       Marks.data_at containerId
         (snd (JourneyBuilder.removeNode containerId id
                 (snd (JourneyBuilder.addNode containerId record st))))
         = Some (Vis.nodes network, Vis.edges network)).
Proof.
  intros Hnet Hid.
  assert (Hrem : forall st0 n0, JourneyBuilder.networks st0 !! containerId = Some n0 ->
            JourneyBuilder.removeNode containerId id st0 =
              (Return (VBool true),
               JourneyBuilder.set_network containerId
                 (Vis.with_nodes (snd (Vis.remove id (Vis.nodes n0))) n0) st0)).
  { intros st0 n0 Hn0.
    unfold JourneyBuilder.removeNode, JourneyBuilder.lookup_network, bind, ret.
    rewrite Hn0. cbn [slot_of]. rewrite (in_network_run _ _ _ _ Hn0), on_nodes_run.
    now rewrite remove_by_id. }
  split; [|split].
  - rewrite (Hrem _ _ Hnet). split; [reflexivity|]. cbn [snd].
    rewrite data_at_set_nodes. now rewrite remove_by_id.
  - unfold JourneyBuilder.removeEdge, JourneyBuilder.lookup_network, bind, ret.
    rewrite Hnet. cbn [slot_of]. rewrite (in_network_run _ _ _ _ Hnet), on_edges_run.
    rewrite remove_by_id by exact Hid. split; [reflexivity|]. cbn [fst snd].
    apply data_at_set_edges.
  - intros Hhas. split.
    + rewrite (Hrem _ _ Hnet). cbn [snd]. rewrite data_at_set_nodes.
      now rewrite remove_absent.
    + intros record Hrec.
      assert (Hstyled : Vis.id_of (JourneyBuilder.styleNode record) = id).
      { unfold Vis.id_of. rewrite styleNode_keeps by discriminate. exact Hrec. }
      assert (Hnull : nullish id = false) by now destruct id.
      unfold JourneyBuilder.addNode, JourneyBuilder.lookup_network, bind, ret.
      rewrite Hnet. cbn [slot_of]. rewrite (in_network_run _ _ _ _ Hnet), on_nodes_run.
      rewrite add_fresh by now rewrite Hstyled. cbn [fst snd].
      rewrite (Hrem _ _ (set_network_lookup _ _ _)). cbn [snd].
      rewrite data_at_set_nodes. rewrite remove_by_id by exact Hid.
      cbn [snd Vis.with_nodes Vis.nodes Vis.edges Vis.items Vis.minted].
      rewrite List.filter_app. cbn [List.filter]. rewrite Hstyled.
      rewrite strict_eq_refl by now destruct id. cbn [negb].
      rewrite app_nil_r.
      pose proof (remove_absent id (Vis.nodes network) Hid Hhas) as Hgone.
      rewrite remove_by_id in Hgone by exact Hid.
      injection Hgone as Hgone. now rewrite Hgone.
Qed.

Lemma journey_remove_witness :
  Marks.data_at "journey"
    (snd (JourneyBuilder.removeNode "journey" (num 2)
            (snd (JourneyBuilder.addNode "journey" Examples.raw_wait
                    (Examples.journey_page [Examples.start_node] [Examples.edge_1_2])))))
  = Some (Vis.nodes (Examples.network_of 0 [Examples.start_node] [Examples.edge_1_2]),
          Vis.edges (Examples.network_of 0 [Examples.start_node] [Examples.edge_1_2])).
Proof.
  refine (proj2 (proj2 (proj2 (journey_remove_drops_exactly "journey" (num 2)
                   (Examples.journey_page [Examples.start_node] [Examples.edge_1_2])
                   (Examples.network_of 0 [Examples.start_node] [Examples.edge_1_2])
                   eq_refl eq_refl)) eq_refl) Examples.raw_wait eq_refl).
Defined.

(** ** updateEdge of the journey builder *)



(** ** The beforeunload sweep of part_001 *)

Lemma fold_release_live {A} (f : A -> nat) (es : list A) (b : Vis.browser) (h : nat) :
  In h (Vis.live (fold_left (fun b e => Vis.release (f e) b) es b)) <->
  In h (Vis.live b) /\ ~ In h (map f es).
Proof.
  revert b. induction es as [|e es IH]; intros b; simpl.
  - tauto.
  - rewrite IH. unfold Vis.release at 1. cbn [Vis.live].
    rewrite filter_In, negb_true_iff, Nat.eqb_neq. intuition congruence.
Qed.

Lemma fold_release_frame {A} (f : A -> nat) (es : list A) (b : Vis.browser) :
  Vis.containers (fold_left (fun b e => Vis.release (f e) b) es b) = Vis.containers b /\
  Vis.fresh (fold_left (fun b e => Vis.release (f e) b) es b) = Vis.fresh b.
Proof.
  revert b. induction es as [|e es IH]; intros b; simpl; [tauto|].
  destruct (IH (Vis.release (f e) b)) as [-> ->]. split; reflexivity.
Qed.

(** X8.  The beforeunload listener of part_001 empties the table and
    destroys every network the table held: none of their handles is live
    afterwards, the networks the table did not hold are left alone, and
    the document's elements stay. *)
Theorem beforeunload_releases_every_graph (st : Vis.page) :
  fst (RelationshipGraph.beforeunload st) = Return tt /\
  Vis.registry (snd (RelationshipGraph.beforeunload st)) = ∅ /\
  (forall containerId network,
     Vis.registry st !! containerId = Some network ->
     ~ In (Vis.handle network)
          (Vis.live (Vis.env (snd (RelationshipGraph.beforeunload st))))) /\
  (forall h,
     In h (Vis.live (Vis.env st)) ->
     (forall containerId network,
        Vis.registry st !! containerId = Some network -> Vis.handle network <> h) ->
     In h (Vis.live (Vis.env (snd (RelationshipGraph.beforeunload st))))) /\
  Vis.containers (Vis.env (snd (RelationshipGraph.beforeunload st)))
    = Vis.containers (Vis.env st).
Proof.
  unfold RelationshipGraph.beforeunload, modify. cbn [fst snd Vis.registry Vis.env].
  split; [reflexivity|]. split; [reflexivity|]. split; [|split].
  - intros containerId network Hnet Hin.
    apply (fold_release_live (fun entry => Vis.handle (snd entry))) in Hin.
    destruct Hin as [_ Hout]. apply Hout.
    apply in_map_iff. exists (containerId, network). split; [reflexivity|].
    apply list_elem_of_In. now apply elem_of_map_to_list.
  - intros h Hlive Hother.
    apply (fold_release_live (fun entry => Vis.handle (snd entry))). split; [exact Hlive|].
    intros Hin. apply in_map_iff in Hin. destruct Hin as [[k n] [Heq Hin]].
    apply list_elem_of_In, elem_of_map_to_list in Hin.
    exact (Hother k n Hin Heq).
  - apply (fold_release_frame (fun entry => Vis.handle (snd entry))).
Qed.

(** ** Filling a DataSet *)





(** ** renderRelationshipGraph *)



(** ** Steps on a registered network *)

Lemma in_instance_bind {A B} (containerId : string) (m : M Vis.Network A)
    (k : A -> M Vis.page B) (st : Vis.page) (n n' : Vis.Network) (a : A) :
  Vis.registry st !! containerId = Some n ->
  m n = (Return a, n') ->
  bind (Vis.in_instance containerId m) k st = k a (Vis.set_instance containerId n' st).
Proof.
  intros Hnet Hrun. unfold bind. now rewrite (in_instance_run _ _ _ _ Hnet), Hrun.
Qed.

Lemma in_instance_throws {A B} (containerId : string) (m : M Vis.Network A)
    (k : A -> M Vis.page B) (st : Vis.page) (n n' : Vis.Network) (e : exn) :
  Vis.registry st !! containerId = Some n ->
  m n = (Throw e, n') ->
  bind (Vis.in_instance containerId m) k st = (Throw e, Vis.set_instance containerId n' st).
Proof.
  intros Hnet Hrun. unfold bind. now rewrite (in_instance_run _ _ _ _ Hnet), Hrun.
Qed.

Lemma set_instance_twice (containerId : string) (n n' : Vis.Network) (st : Vis.page) :
  Vis.set_instance containerId n' (Vis.set_instance containerId n st)
    = Vis.set_instance containerId n' st.
Proof.
  unfold Vis.set_instance. cbn [Vis.env Vis.registry]. now rewrite insert_insert_eq.
Qed.

(** ** updateGraphData *)



(** ** Calls that only move the view *)

Section Keeps.

Context {S : Type} (rel : S -> S -> Prop).
Hypothesis rel_refl : forall s, rel s s.
Hypothesis rel_trans : forall s1 s2 s3, rel s1 s2 -> rel s2 s3 -> rel s1 s3.

Lemma keeps_ret {A} (a : A) : Marks.keeps rel (ret a).
Proof. intros s. apply rel_refl. Qed.


Lemma keeps_bind {A B} (m : M S A) (k : A -> M S B) :
  Marks.keeps rel m -> (forall a, Marks.keeps rel (k a)) -> Marks.keeps rel (bind m k).
Proof.
  intros Hm Hk s. unfold bind. pose proof (Hm s) as Hs.
  destruct (m s) as [[a|e] s']; cbn [snd] in *; [|exact Hs].
  exact (rel_trans _ _ _ Hs (Hk a s')).
Qed.

Lemma keeps_try_catch {A} (body : M S A) (handler : exn -> M S A) :
  Marks.keeps rel body -> (forall e, Marks.keeps rel (handler e)) ->
  Marks.keeps rel (try_catch body handler).
Proof.
  intros Hm Hk s. unfold try_catch. pose proof (Hm s) as Hs.
  destruct (body s) as [[a|e] s']; cbn [snd] in *; [exact Hs|].
  exact (rel_trans _ _ _ Hs (Hk e s')).
Qed.

End Keeps.

Lemma same_graph_refl (n : Vis.Network) : Marks.same_graph n n.
Proof. repeat split. Qed.

Lemma same_graph_trans (n1 n2 n3 : Vis.Network) :
  Marks.same_graph n1 n2 -> Marks.same_graph n2 n3 -> Marks.same_graph n1 n3.
Proof.
  intros [H1 [H2 [H3 H4]]] [H1' [H2' [H3' H4']]]. repeat split; congruence.
Qed.

Lemma same_entry_refl (o : option Vis.Network) : Marks.same_entry o o.
Proof. destruct o; [apply same_graph_refl | exact I]. Qed.

Lemma same_entry_trans (o1 o2 o3 : option Vis.Network) :
  Marks.same_entry o1 o2 -> Marks.same_entry o2 o3 -> Marks.same_entry o1 o3.
Proof.
  destruct o1, o2, o3; simpl; try tauto. apply same_graph_trans.
Qed.

Lemma view_only_refl (containerId : string) (st : Vis.page) :
  Marks.view_only containerId st st.
Proof. repeat split. apply same_entry_refl. Qed.

Lemma view_only_trans (containerId : string) (s1 s2 s3 : Vis.page) :
  Marks.view_only containerId s1 s2 -> Marks.view_only containerId s2 s3 ->
  Marks.view_only containerId s1 s3.
Proof.
  intros [H1 [H2 H3]] [H1' [H2' H3']]. split; [congruence|]. split.
  - intros other Hne. now rewrite H2', H2.
  - eapply same_entry_trans; eassumption.
Qed.

Lemma journey_view_only_refl (containerId : string) (st : JourneyBuilder.state) :
  Marks.journey_view_only containerId st st.
Proof. repeat split. apply same_entry_refl. Qed.

Lemma journey_view_only_trans (containerId : string) (s1 s2 s3 : JourneyBuilder.state) :
  Marks.journey_view_only containerId s1 s2 -> Marks.journey_view_only containerId s2 s3 ->
  Marks.journey_view_only containerId s1 s3.
Proof.
  intros [H1 [H0 [H2 H3]]] [H1' [H0' [H2' H3']]].
  split; [congruence|]. split; [congruence|]. split.
  - intros other Hne. now rewrite H2', H2.
  - eapply same_entry_trans; eassumption.
Qed.

(** The methods of a network that leave its two DataSets alone. *)
Lemma method_same_graph {A} (m : M Vis.Network A) :
  Marks.keeps Marks.same_graph m -> Marks.keeps Marks.same_graph (Vis.method m).
Proof.
  intros Hm n. unfold Vis.method. destruct (Vis.alive n); [apply Hm | apply same_graph_refl].
Qed.

Lemma ask_same_graph (r : Vis.request) : Marks.keeps Marks.same_graph (Vis.ask r).
Proof. intros n. repeat split. Qed.

Lemma select_same_graph (sel : list value) : Marks.keeps Marks.same_graph (Vis.select sel).
Proof. intros n. repeat split. Qed.

Lemma focus_same_graph (nodeId : value) : Marks.keeps Marks.same_graph (Vis.focus nodeId).
Proof.
  apply method_same_graph. intros n.
  destruct (Vis.body_node (Vis.nodes n) nodeId);
    [apply ask_same_graph | apply same_graph_refl].
Qed.

Lemma for_each_keeps {S A} (rel : S -> S -> Prop) (xs : list A) (body : A -> M S unit) :
  (forall s, rel s s) -> (forall s1 s2 s3, rel s1 s2 -> rel s2 s3 -> rel s1 s3) ->
  (forall x, Marks.keeps rel (body x)) -> Marks.keeps rel (for_each xs body).
Proof.
  intros Hrefl Htrans Hbody. induction xs as [|x xs IH]; simpl.
  - now apply keeps_ret.
  - apply keeps_bind; [exact Htrans | apply Hbody | intros _; exact IH].
Qed.

Lemma selectNodes_same_graph (ids : list value) :
  Marks.keeps Marks.same_graph (Vis.selectNodes ids).
Proof.
  apply method_same_graph.
  apply keeps_bind; [exact same_graph_trans | apply select_same_graph | intros _].
  apply for_each_keeps; [exact same_graph_refl | exact same_graph_trans |].
  intros id n. destruct (Vis.body_node (Vis.nodes n) id) as [[node|]|];
    [|apply same_graph_refl..].
  destruct (includes (Vis.selection n) (Vis.id_of node));
    [apply same_graph_refl | apply select_same_graph].
Qed.

Lemma setOptions_same_graph (options : obj) :
  Marks.keeps Marks.same_graph (Vis.setOptions options).
Proof. apply method_same_graph, ask_same_graph. Qed.

Lemma toDataURL_same_graph : Marks.keeps Marks.same_graph Vis.toDataURL.
Proof. apply method_same_graph. intros n. apply same_graph_refl. Qed.

Lemma getSelectedNodes_same_graph : Marks.keeps Marks.same_graph Vis.getSelectedNodes.
Proof. apply method_same_graph. intros n. apply same_graph_refl. Qed.

Lemma in_instance_view_only {A} (containerId : string) (m : M Vis.Network A) :
  Marks.keeps Marks.same_graph m ->
  Marks.keeps (Marks.view_only containerId) (Vis.in_instance containerId m).
Proof.
  intros Hm st. unfold Vis.in_instance.
  destruct (Vis.registry st !! containerId) as [n|] eqn:Hnet.
  - pose proof (Hm n) as Hn. destruct (m n) as [r n']. cbn [snd] in *.
    split; [reflexivity|]. split.
    + intros other Hne. unfold Vis.set_instance. cbn [Vis.registry].
      now apply lookup_insert_ne.
    + rewrite Hnet, set_instance_lookup. exact Hn.
  - apply view_only_refl.
Qed.

Lemma in_network_view_only {A} (containerId : string) (m : M Vis.Network A) :
  Marks.keeps Marks.same_graph m ->
  Marks.keeps (Marks.journey_view_only containerId)
              (JourneyBuilder.in_network containerId m).
Proof.
  intros Hm st. unfold JourneyBuilder.in_network.
  destruct (JourneyBuilder.networks st !! containerId) as [n|] eqn:Hnet.
  - pose proof (Hm n) as Hn. destruct (m n) as [r n']. cbn [snd] in *.
    split; [reflexivity|]. split; [reflexivity|]. split.
    + intros other Hne. unfold JourneyBuilder.set_network. cbn [JourneyBuilder.networks].
      now apply lookup_insert_ne.
    + rewrite Hnet, set_network_lookup. exact Hn.
  - apply journey_view_only_refl.
Qed.

(** Builds the proof that a registry function only moves the view from
    the same fact about the network methods it calls. *)
Ltac view_only_steps :=
  repeat first
    [ apply keeps_try_catch; [apply view_only_trans | | intros ?]
    | apply keeps_bind; [apply view_only_trans | | intros ?]
    | apply keeps_bind; [apply journey_view_only_trans | | intros ?]
    | apply keeps_ret; apply view_only_refl
    | apply keeps_ret; apply journey_view_only_refl
    | apply in_instance_view_only
    | apply in_network_view_only
    | apply focus_same_graph
    | apply selectNodes_same_graph
    | apply setOptions_same_graph
    | apply toDataURL_same_graph
    | apply getSelectedNodes_same_graph
    | apply method_same_graph
    | apply ask_same_graph
    | match goal with
      | |- Marks.keeps _ (match ?o with Some _ => _ | None => _ end) =>
          destruct o as [[|]|]
      end
    | (intros ?; apply view_only_refl)
    | (intros ?; apply journey_view_only_refl) ].

(** X11.  The calls that move the camera, change rendering options,
    select, or read the canvas never touch the data: whatever they return
    and whether or not a network method throws inside them, the table has
    the same keys, the browser holds the same networks, and the network
    under the id has the node set and edge set it had. *)
Theorem view_calls_keep_the_data (containerId : string) :
  (forall st : JourneyBuilder.state,
     Marks.journey_view_only containerId st (snd (JourneyBuilder.fit containerId st)) /\
     Marks.journey_view_only containerId st (snd (JourneyBuilder.stabilize containerId st)) /\
     (forall enabled,
        Marks.journey_view_only containerId st
          (snd (JourneyBuilder.setPhysics containerId enabled st))) /\
     (forall nodeId,
        Marks.journey_view_only containerId st
          (snd (JourneyBuilder.focusNode containerId nodeId st))) /\
     Marks.journey_view_only containerId st
       (snd (JourneyBuilder.exportToPNG containerId st))) /\
  (forall st : Vis.page,
     Marks.view_only containerId st (snd (CustomerNetwork.stabilize containerId st)) /\
     (forall enabled,
        Marks.view_only containerId st
          (snd (CustomerNetwork.setPhysicsEnabled containerId enabled st))) /\
     (forall nodeId,
        Marks.view_only containerId st
          (snd (CustomerNetwork.focusNode containerId nodeId st))) /\
     Marks.view_only containerId st (snd (CustomerNetwork.exportToPNG containerId st)) /\
     Marks.view_only containerId st (snd (CustomerGraph.fitNetwork containerId st)) /\
     (forall nodeId,
        Marks.view_only containerId st
          (snd (CustomerGraph.focusNode containerId nodeId st))) /\
     (forall nodeId,
        Marks.view_only containerId st
          (snd (CustomerGraph.selectNode containerId nodeId st))) /\
     (forall options,
        Marks.view_only containerId st
          (snd (CustomerGraph.setOptions containerId options st))) /\
     (forall enable,
        Marks.view_only containerId st
          (snd (CustomerGraph.enablePhysics containerId enable st))) /\
     (forall layoutType,
        Marks.view_only containerId st
          (snd (CustomerGraph.setLayout containerId layoutType st))) /\
     Marks.view_only containerId st (snd (CustomerGraph.exportNetwork containerId st)) /\
     Marks.view_only containerId st (snd (RelationshipGraph.centerGraph containerId st)) /\
     Marks.view_only containerId st (snd (RelationshipGraph.exportGraph containerId st)) /\
     (forall nodeIds,
        Marks.view_only containerId st
          (snd (RelationshipGraph.highlightNodes containerId nodeIds st))) /\
     Marks.view_only containerId st
       (snd (RelationshipGraph.getSelectedNodes containerId st))).
Proof.
  split; intros st.
  - repeat match goal with |- _ /\ _ => split end; intros;
      match goal with
      | |- Marks.journey_view_only _ _ (snd (?f _)) =>
          let m := constr:(f) in
          assert (Hk : Marks.keeps (Marks.journey_view_only containerId) m);
          [|exact (Hk st)]
      end;
      unfold JourneyBuilder.fit, JourneyBuilder.stabilize, JourneyBuilder.setPhysics,
        JourneyBuilder.focusNode, JourneyBuilder.exportToPNG, JourneyBuilder.lookup_network;
      view_only_steps.
  - repeat match goal with |- _ /\ _ => split end; intros;
      match goal with
      | |- Marks.view_only _ _ (snd (?f _)) =>
          let m := constr:(f) in
          assert (Hk : Marks.keeps (Marks.view_only containerId) m);
          [|exact (Hk st)]
      end;
      unfold CustomerNetwork.stabilize, CustomerNetwork.setPhysicsEnabled,
        CustomerNetwork.focusNode, CustomerNetwork.exportToPNG,
        CustomerGraph.fitNetwork, CustomerGraph.focusNode, CustomerGraph.selectNode,
        CustomerGraph.setOptions, CustomerGraph.enablePhysics, CustomerGraph.setLayout,
        CustomerGraph.exportNetwork, RelationshipGraph.centerGraph,
        RelationshipGraph.exportGraph, RelationshipGraph.highlightNodes,
        RelationshipGraph.getSelectedNodes, Vis.lookup_instance;
      view_only_steps.
Qed.

(** ** Selecting nodes *)

Lemma selected_once (sel : list value) (x v : value) :
  In v (if includes sel x then sel else sel ++ [x]) <-> In v sel \/ v = x.
Proof.
  destruct (includes sel x) eqn:Hx.
  - split; [now left|]. intros [H | ->]; [exact H | now apply includes_In].
  - rewrite in_app_iff. simpl. intuition.
Qed.

(** The loop of selectNodes over ids that all name a node. *)
Lemma select_loop_ok (ids : list value) (n : Vis.Network) :
  (forall id, In id ids -> exists node, Marks.node_named (Vis.nodes n) id node) ->
  exists sel,
    for_each ids
      (fun id n =>
         match Vis.body_node (Vis.nodes n) id with
         | Some (Entry node) =>
             if includes (Vis.selection n) (Vis.id_of node) then (Return tt, n)
             else Vis.select (Vis.selection n ++ [Vis.id_of node]) n
         | Some Member => (Throw TypeError, n)
         | None => (Throw RangeError, n)
         end) n
    = (Return tt, snd (Vis.select sel n)) /\
    forall v, In v sel <->
              In v (Vis.selection n) \/
              exists id node, In id ids /\ Marks.node_named (Vis.nodes n) id node /\
                              Vis.id_of node = v.
Proof.
  revert n. induction ids as [|id ids IH]; intros n Hall.
  - exists (Vis.selection n). split; [now destruct n|].
    intros v. split; [now left|]. intros [H | [id [node [[] _]]]]. exact H.
  - destruct (Hall id (or_introl eq_refl)) as [node Hnode].
    cbn [for_each]. unfold bind. unfold Marks.node_named in Hnode. rewrite Hnode.
    set (sel1 := if includes (Vis.selection n) (Vis.id_of node) then Vis.selection n
                 else Vis.selection n ++ [Vis.id_of node]).
    assert (Hstep : (if includes (Vis.selection n) (Vis.id_of node) then (Return tt, n)
                     else Vis.select (Vis.selection n ++ [Vis.id_of node]) n)
                    = (Return tt, snd (Vis.select sel1 n))).
    { subst sel1. destruct (includes (Vis.selection n) (Vis.id_of node)); [|reflexivity].
      now destruct n. }
    rewrite Hstep.
    destruct (IH (snd (Vis.select sel1 n))) as [sel [Hrun Hsel]].
    { intros id' Hin. apply Hall. now right. }
    exists sel. split; [exact Hrun|].
    intros v. rewrite Hsel. cbn [Vis.select snd Vis.selection Vis.nodes]. subst sel1.
    rewrite selected_once. split.
    + intros [[H | ->] | [id' [node' [Hin [Hnamed Hv]]]]].
      * now left.
      * right. exists id, node. split; [now left|]. now split.
      * right. exists id', node'. split; [now right|]. now split.
    + intros [H | [id' [node' [[<- | Hin] [Hnamed Hv]]]]].
      * left. now left.
      * left. right. unfold Marks.node_named in Hnamed. congruence.
      * right. exists id', node'. now repeat split.
Qed.

(** The loop over ids one of which names no node. *)
Lemma select_loop_fails (ids : list value) (n : Vis.Network) :
  (exists id, In id ids /\ forall node, ~ Marks.node_named (Vis.nodes n) id node) ->
  exists e n',
    for_each ids
      (fun id n =>
         match Vis.body_node (Vis.nodes n) id with
         | Some (Entry node) =>
             if includes (Vis.selection n) (Vis.id_of node) then (Return tt, n)
             else Vis.select (Vis.selection n ++ [Vis.id_of node]) n
         | Some Member => (Throw TypeError, n)
         | None => (Throw RangeError, n)
         end) n
    = (Throw e, n').
Proof.
  revert n. induction ids as [|id ids IH]; intros n [bad [Hin Hbad]]; [destruct Hin|].
  cbn [for_each]. unfold bind.
  destruct (Vis.body_node (Vis.nodes n) id) as [[node|]|] eqn:Hnode;
    [|now eexists; eexists..].
  destruct Hin as [-> | Hin]; [exfalso; exact (Hbad node Hnode)|].
  destruct (includes (Vis.selection n) (Vis.id_of node)).
  - apply IH. exists bad. split; [exact Hin | exact Hbad].
  - unfold Vis.select at 1. apply IH. exists bad. split; [exact Hin | exact Hbad].
Qed.

Lemma NoDup_map_inj {A B} (f : A -> B) (l : list A) (x y : A) :
  NoDup (map f l) -> In x l -> In y l -> f x = f y -> x = y.
Proof.
  induction l as [|a l IH]; intros Hnd Hx Hy Hf; [destruct Hx|].
  simpl in Hnd. apply NoDup_cons in Hnd as [Hout Hnd].
  destruct Hx as [-> | Hx], Hy as [-> | Hy].
  - reflexivity.
  - exfalso. apply Hout. rewrite Hf. apply list_elem_of_In. now apply in_map.
  - exfalso. apply Hout. rewrite <- Hf. apply list_elem_of_In. now apply in_map.
  - now apply IH.
Qed.

(** In a set with one node per key, an id the set holds names the item
    that carries it. *)
Lemma held_id_names_its_node (ds : Vis.DataSet) (id : value) :
  Marks.one_node_per_key ds ->
  Vis.has ds id = true ->
  exists node, Marks.node_named ds id node /\ Vis.id_of node = id.
Proof.
  intros Hkeys Hhas. unfold Vis.has in Hhas. apply existsb_exists in Hhas.
  destruct Hhas as [it [Hin Hid]]. apply strict_eq_eq in Hid.
  unfold Marks.node_named, Vis.body_node.
  destruct (List.find (fun it0 => String.eqb (to_text (Vis.id_of it0)) (to_text id))
                      (rev (Vis.items ds))) as [node|] eqn:Hfind.
  - exists node. split; [reflexivity|].
    apply find_some in Hfind as [Hnode Hkey]. apply String.eqb_eq in Hkey.
    apply in_rev in Hnode.
    assert (node = it); [|congruence].
    apply (NoDup_map_inj (fun it0 => to_text (Vis.id_of it0)) (Vis.items ds));
      [exact Hkeys | exact Hnode | exact Hin | congruence].
  - exfalso. apply in_rev in Hin. pose proof (find_none _ _ Hfind it Hin) as Hkey.
    cbn beta in Hkey. rewrite Hid, String.eqb_refl in Hkey. discriminate.
Qed.

(** X12.  highlightNodes of part_001 on a registered, live network
    whose nodes have property keys of their own, none of them
    [__proto__].  The renderer looks the ids up as property keys.  When
    every id of the array names a node, the call answers true and a
    following getSelectedNodes returns the ids of the nodes named and no
    other: what was selected before is dropped, and with ids the node
    set holds as given, these are the ids of the array.  When some id
    names nothing (and none is the name of a member of Object.prototype),
    the library's error is caught and the call answers false. *)
Theorem highlightNodes_selects_exactly (containerId : string) (nodeIds : list value)
    (st : Vis.page) (network : Vis.Network) :
  Vis.registry st !! containerId = Some network ->
  Vis.alive network = true ->
  Marks.body_mirrors (Vis.nodes network) ->
  ((forall id, In id nodeIds -> exists node, Marks.node_named (Vis.nodes network) id node) ->
   fst (RelationshipGraph.highlightNodes containerId nodeIds st) = Return (VBool true) /\
   exists selected,
     fst (RelationshipGraph.getSelectedNodes containerId
            (snd (RelationshipGraph.highlightNodes containerId nodeIds st)))
       = Return (VArr selected) /\
     (forall v, In v selected <->
                exists id node, In id nodeIds /\
                                Marks.node_named (Vis.nodes network) id node /\
                                Vis.id_of node = v) /\
     ((forall id, In id nodeIds -> Vis.has (Vis.nodes network) id = true) ->
      forall v, In v selected <-> In v nodeIds)) /\
  ((forall id, In id nodeIds -> Vis.body_node (Vis.nodes network) id <> Some Member) ->
   (exists id, In id nodeIds /\ Vis.body_node (Vis.nodes network) id = None) ->
   fst (RelationshipGraph.highlightNodes containerId nodeIds st) = Return (VBool false)).
Proof.
  intros Hnet Halive [Hkeys _]. split.
  - intros Hall.
    destruct (select_loop_ok nodeIds (snd (Vis.select [] network)) Hall)
      as [sel [Hloop Hsel]].
    set (n1 := snd (Vis.select sel network)).
    assert (H1 : Vis.selectNodes nodeIds network = (Return tt, n1)).
    { unfold Vis.selectNodes, Vis.method. rewrite Halive. unfold bind.
      change (Vis.select [] network) with (Return tt, snd (Vis.select [] network)).
      cbv beta iota. now rewrite Hloop. }
    assert (H2 : exists n2, Vis.focus (hd VUndefined nodeIds) n1 = (Return tt, n2) /\
                            Vis.alive n2 = true /\ Vis.selection n2 = sel).
    { exists (snd (Vis.focus (hd VUndefined nodeIds) n1)).
      unfold Vis.focus, Vis.method. subst n1. cbn [Vis.alive Vis.select snd].
      rewrite Halive.
      destruct (Vis.body_node _ _); cbn; (split; [reflexivity|]; split; reflexivity). }
    destruct H2 as [n2 [H2 [Ha2 Hs2]]].
    assert (Hrun : RelationshipGraph.highlightNodes containerId nodeIds st =
                   (Return (VBool true), Vis.set_instance containerId n2 st)).
    { unfold RelationshipGraph.highlightNodes, try_catch, Vis.lookup_instance.
      unfold bind at 1. rewrite Hnet. cbn [slot_of].
      rewrite (in_instance_bind _ _ _ _ _ _ _ Hnet H1).
      rewrite (in_instance_bind _ _ _ _ _ _ _ (set_instance_lookup _ _ _) H2).
      unfold ret. now rewrite set_instance_twice. }
    rewrite Hrun. cbn [fst snd]. split; [reflexivity|].
    assert (Hnamed : forall v, In v sel <->
                       exists id node, In id nodeIds /\
                                       Marks.node_named (Vis.nodes network) id node /\
                                       Vis.id_of node = v).
    { intros v. rewrite Hsel. cbn [Vis.select snd Vis.selection Vis.nodes].
      split; [intros [[] | H]; exact H | now right]. }
    exists sel. split; [|split; [exact Hnamed|]].
    + unfold RelationshipGraph.getSelectedNodes, try_catch, Vis.lookup_instance.
      unfold bind at 1. rewrite set_instance_lookup. cbn [slot_of].
      assert (H3 : Vis.getSelectedNodes n2 = (Return sel, n2)).
      { unfold Vis.getSelectedNodes, Vis.method. now rewrite Ha2, Hs2. }
      now rewrite (in_instance_bind _ _ _ _ _ _ _ (set_instance_lookup _ _ _) H3).
    + intros Hheld v. rewrite Hnamed. split.
      * intros [id [node [Hin [Hnode Hv]]]].
        destruct (held_id_names_its_node _ _ Hkeys (Hheld id Hin)) as [node' [Hnode' Hid]].
        unfold Marks.node_named in *. congruence.
      * intros Hin.
        destruct (held_id_names_its_node _ _ Hkeys (Hheld v Hin)) as [node [Hnode Hid]].
        now exists v, node.
  - intros _ [bad [Hin Hnone]].
    assert (Hbad : exists id, In id nodeIds /\
                     forall node, ~ Marks.node_named (Vis.nodes network) id node).
    { exists bad. split; [exact Hin|]. intros node Hnode.
      unfold Marks.node_named in Hnode. congruence. }
    destruct (select_loop_fails nodeIds (snd (Vis.select [] network)) Hbad)
      as [e [n' Hloop]].
    assert (H1 : Vis.selectNodes nodeIds network = (Throw e, n')).
    { unfold Vis.selectNodes, Vis.method. rewrite Halive. unfold bind.
      change (Vis.select [] network) with (Return tt, snd (Vis.select [] network)).
      cbv beta iota. now rewrite Hloop. }
    unfold RelationshipGraph.highlightNodes, try_catch, Vis.lookup_instance.
    unfold bind at 1. rewrite Hnet. cbn [slot_of].
    now rewrite (in_instance_throws _ _ _ _ _ _ _ Hnet H1).
Qed.

Lemma highlightNodes_witness :
  fst (RelationshipGraph.highlightNodes "customer-graph" [VStr "b"; VStr "a"]
         Examples.customer_page) = Return (VBool true) /\
  fst (RelationshipGraph.highlightNodes "customer-graph" [VStr "b"; VStr "zz"]
         Examples.customer_page) = Return (VBool false).
Proof.
  assert (Hkeys : Marks.body_mirrors
                    (Vis.nodes (Examples.network_of 0
                       [[("id", VStr "a"); ("label", VStr "Acme Ltd")];
                        [("id", VStr "b"); ("label", VStr "B. Owner")]]
                       [[("id", VStr "ab"); ("from", VStr "a"); ("to", VStr "b")]]))).
  { split; [|simpl; intuition discriminate].
    unfold Marks.one_node_per_key. simpl.
    apply NoDup_cons. split; [rewrite list_elem_of_In; simpl; intuition discriminate|].
    apply NoDup_cons. split; [rewrite list_elem_of_In; simpl; intuition|].
    apply NoDup_nil. exact I. }
  split.
  - refine (proj1 (proj1 (highlightNodes_selects_exactly "customer-graph"
                            [VStr "b"; VStr "a"] Examples.customer_page _
                            eq_refl eq_refl Hkeys) _)).
    intros id [<- | [<- | []]]; eexists; reflexivity.
  - refine (proj2 (highlightNodes_selects_exactly "customer-graph"
                     [VStr "b"; VStr "zz"] Examples.customer_page _
                     eq_refl eq_refl Hkeys) _ _).
    + intros id [<- | [<- | []]]; discriminate.
    + exists (VStr "zz"). split; [right; now left | reflexivity].
Defined.

(** The number 1 and the string "1" name the same node: highlightNodes
    with the string selects the node whose id is the number. *)
Lemma highlightNodes_by_key :
  fst (RelationshipGraph.getSelectedNodes "customer-graph"
         (snd (RelationshipGraph.highlightNodes "customer-graph" [VStr "1"]
                 (Vis.set_instance "customer-graph"
                    (Examples.network_of 0 [[("id", num 1)]] [])
                    Examples.customer_page))))
    = Return (VArr [num 1]).
Proof. vm_compute. reflexivity. Qed.

(** X13.  focusNode and selectNode of part_000 on a registered, live
    network whose nodes have property keys of their own, none of them
    [__proto__], for an id that is not the name of a member of
    Object.prototype without being a node; the id is looked up as a
    property key.  On an id that names a node, focusNode asks for the
    camera move and selectNode makes the node the whole selection; both
    answer true.  On an id that names nothing they differ: focusNode
    answers true all the same, having asked the renderer for nothing,
    while selectNode answers false and leaves nothing selected. *)
Theorem customer_focus_and_select (containerId : string) (nodeId : value)
    (st : Vis.page) (network : Vis.Network) :
  Vis.registry st !! containerId = Some network ->
  Vis.alive network = true ->
  Marks.body_mirrors (Vis.nodes network) ->
  Vis.body_node (Vis.nodes network) nodeId <> Some Member ->
  (fst (CustomerGraph.focusNode containerId nodeId st) = Return (VBool true) /\
   exists network',
     Vis.registry (snd (CustomerGraph.focusNode containerId nodeId st)) !! containerId
       = Some network' /\
     Vis.selection network' = Vis.selection network /\
     ((exists node, Marks.node_named (Vis.nodes network) nodeId node) ->
        Vis.requests network' = Vis.requests network ++ [Vis.Focus nodeId]) /\
     (Vis.body_node (Vis.nodes network) nodeId = None ->
        Vis.requests network' = Vis.requests network)) /\
  (exists network',
     Vis.registry (snd (CustomerGraph.selectNode containerId nodeId st)) !! containerId
       = Some network' /\
     Vis.requests network' = Vis.requests network /\
     (forall node, Marks.node_named (Vis.nodes network) nodeId node ->
        fst (CustomerGraph.selectNode containerId nodeId st) = Return (VBool true) /\
        Vis.selection network' = [Vis.id_of node]) /\
     (Vis.body_node (Vis.nodes network) nodeId = None ->
        fst (CustomerGraph.selectNode containerId nodeId st) = Return (VBool false) /\
        Vis.selection network' = [])).
Proof.
  intros Hnet Halive _ _. split.
  - unfold CustomerGraph.focusNode, try_catch, Vis.lookup_instance, bind, ret.
    rewrite Hnet. cbn [slot_of]. rewrite (in_instance_run _ _ _ _ Hnet).
    unfold Vis.focus, Vis.method, Marks.node_named. rewrite Halive.
    destruct (Vis.body_node (Vis.nodes network) nodeId) as [[node|]|]; cbn [fst snd];
      (split; [reflexivity|]; eexists; split; [apply set_instance_lookup|];
       split; [reflexivity|]);
      (split; [intros [node' Hn]; try discriminate; reflexivity|]);
      intros Hn; try discriminate; reflexivity.
  - assert (H1 : exists n1,
              Vis.selectNodes [nodeId] network =
                (match Vis.body_node (Vis.nodes network) nodeId with
                 | Some (Entry _) => Return tt
                 | Some Member => Throw TypeError
                 | None => Throw RangeError
                 end, n1) /\
              Vis.requests n1 = Vis.requests network /\
              Vis.selection n1 =
                match Vis.body_node (Vis.nodes network) nodeId with
                | Some (Entry node) => [Vis.id_of node]
                | _ => []
                end).
    { unfold Vis.selectNodes, Vis.method. rewrite Halive.
      unfold bind at 1, Vis.select at 1. cbn [for_each]. unfold bind, ret.
      cbn [Vis.nodes Vis.selection].
      destruct (Vis.body_node (Vis.nodes network) nodeId) as [[node|]|];
        cbn [includes existsb];
        (eexists; split; [reflexivity|]; split; reflexivity). }
    destruct H1 as [n1 [H1 [Hr1 Hs1]]].
    exists n1.
    unfold CustomerGraph.selectNode, try_catch, Vis.lookup_instance, bind, ret.
    rewrite Hnet. cbn [slot_of]. rewrite (in_instance_run _ _ _ _ Hnet), H1.
    unfold Marks.node_named.
    destruct (Vis.body_node (Vis.nodes network) nodeId) as [[node|]|]; cbn [fst snd];
      (split; [apply set_instance_lookup|]; split; [assumption|]; split;
       [intros node' Hn; try discriminate; injection Hn as <-; now split
       |intros Hn; try discriminate; now split]).
Qed.

Lemma customer_focus_and_select_witness :
  fst (CustomerGraph.focusNode "customer-graph" (VStr "zz") Examples.customer_page)
    = Return (VBool true) /\
  fst (CustomerGraph.selectNode "customer-graph" (VStr "zz") Examples.customer_page)
    = Return (VBool false) /\
  fst (CustomerGraph.selectNode "customer-graph" (VStr "a") Examples.customer_page)
    = Return (VBool true).
Proof.
  assert (Hkeys : Marks.body_mirrors
                    (Vis.nodes (Examples.network_of 0
                       [[("id", VStr "a"); ("label", VStr "Acme Ltd")];
                        [("id", VStr "b"); ("label", VStr "B. Owner")]]
                       [[("id", VStr "ab"); ("from", VStr "a"); ("to", VStr "b")]]))).
  { split; [|simpl; intuition discriminate].
    unfold Marks.one_node_per_key. simpl.
    apply NoDup_cons. split; [rewrite list_elem_of_In; simpl; intuition discriminate|].
    apply NoDup_cons. split; [rewrite list_elem_of_In; simpl; intuition|].
    apply NoDup_nil. exact I. }
  split; [|split].
  - refine (proj1 (proj1 (customer_focus_and_select "customer-graph" (VStr "zz")
                            Examples.customer_page _ eq_refl eq_refl Hkeys _))).
    discriminate.
  - assert (Hplain : Vis.body_node
                       (Vis.nodes (Examples.network_of 0
                          [[("id", VStr "a"); ("label", VStr "Acme Ltd")];
                           [("id", VStr "b"); ("label", VStr "B. Owner")]]
                          [[("id", VStr "ab"); ("from", VStr "a"); ("to", VStr "b")]]))
                       (VStr "zz") <> Some Member) by discriminate.
    destruct (proj2 (customer_focus_and_select "customer-graph" (VStr "zz")
                       Examples.customer_page _ eq_refl eq_refl Hkeys Hplain))
      as [network' [_ [_ [_ Hnone]]]].
    exact (proj1 (Hnone eq_refl)).
  - assert (Hplain : Vis.body_node
                       (Vis.nodes (Examples.network_of 0
                          [[("id", VStr "a"); ("label", VStr "Acme Ltd")];
                           [("id", VStr "b"); ("label", VStr "B. Owner")]]
                          [[("id", VStr "ab"); ("from", VStr "a"); ("to", VStr "b")]]))
                       (VStr "a") <> Some Member) by discriminate.
    destruct (proj2 (customer_focus_and_select "customer-graph" (VStr "a")
                       Examples.customer_page _ eq_refl eq_refl Hkeys Hplain))
      as [network' [_ [_ [Hfound _]]]].
    exact (proj1 (Hfound _ eq_refl)).
Defined.

(** ** Writing the same properties again *)

Lemma put_put_same (o : obj) (k : string) (v v' : value) :
  put (put o k v) k v' = put o k v'.
Proof.
  induction o as [|[k0 v0] o IH]; simpl.
  - now rewrite String.eqb_refl.
  - destruct (String.eqb k k0) eqn:Hk; simpl; rewrite Hk; [reflexivity|].
    now rewrite IH.
Qed.

Lemma put_put_comm (o : obj) (k k1 : string) (v v1 : value) :
  k <> k1 -> has_key o k = true ->
  put (put o k1 v1) k v = put (put o k v) k1 v1.
Proof.
  intros Hne. induction o as [|[k0 v0] o IH]; simpl; [discriminate|].
  intros Hhas.
  destruct (String.eqb k1 k0) eqn:Hk1; destruct (String.eqb k k0) eqn:Hk;
    simpl; rewrite ?Hk, ?Hk1; try reflexivity.
  - apply String.eqb_eq in Hk1, Hk. congruence.
  - simpl in Hhas. rewrite IH by exact Hhas. reflexivity.
Qed.

Lemma put_spread_comm (o p : obj) (k : string) (v : value) :
  has_key o k = true -> ~ In k (map fst p) ->
  put (spread o p) k v = spread (put o k v) p.
Proof.
  revert o. induction p as [|[k1 v1] p IH]; intros o Hhas Hout; [reflexivity|].
  unfold spread in *. simpl in *.
  rewrite IH.
  - rewrite put_put_comm; [reflexivity | | exact Hhas].
    intros ->. apply Hout. now left.
  - rewrite has_key_put, Hhas. reflexivity.
  - intros Hin. apply Hout. now right.
Qed.

(** Merging a record over another with the same property names leaves
    the second record's values alone. *)
Lemma spread_overwrite (o p q : obj) :
  map fst p = map fst q -> NoDup (map fst q) ->
  spread (spread o p) q = spread o q.
Proof.
  revert o q. induction p as [|[k v] p IH]; intros o [|[k' v'] q] Hkeys Hnd;
    try discriminate; [reflexivity|].
  simpl in Hkeys. injection Hkeys as <- Hkeys.
  simpl in Hnd. apply NoDup_cons in Hnd. destruct Hnd as [Hout Hnd].
  rewrite list_elem_of_In in Hout.
  change (spread (spread (put o k v) p) ((k, v') :: q)
          = spread o ((k, v') :: q)).
  change (spread (put (spread (put o k v) p) k v') q = spread (put o k v') q).
  rewrite put_spread_comm.
  - rewrite put_put_same. now apply IH.
  - rewrite has_key_put, String.eqb_refl. apply orb_true_r.
  - now rewrite Hkeys.
Qed.

Lemma mark_again (p q : value -> obj) (old : obj) :
  Marks.patch_for p -> Marks.patch_for q ->
  (forall v, map fst (p v) = map fst (q v)) ->
  Marks.mark_with q (Marks.mark_with p old) = Marks.mark_with q old.
Proof.
  intros Hp Hq Hkeys. unfold Marks.mark_with at 1.
  rewrite (mark_with_id p Hp). unfold Marks.mark_with.
  apply spread_overwrite; [apply Hkeys | apply Hq].
Qed.

(** ** Highlights do not pile up *)

Lemma well_keyed_items (g : obj -> obj) (ds ds' : Vis.DataSet) :
  (forall it, Vis.id_of (g it) = Vis.id_of it) ->
  Marks.well_keyed ds ->
  Vis.items ds' = map g (Vis.items ds) ->
  Marks.well_keyed ds'.
Proof.
  intros Hg [Hnd Hkeys] Hitems. unfold Marks.well_keyed. rewrite Hitems, map_map.
  rewrite (map_ext _ Vis.id_of) by exact Hg. split; [exact Hnd|].
  rewrite Forall_map. eapply Forall_impl; [exact Hkeys|].
  intros it Hit. cbn beta. now rewrite Hg.
Qed.

Lemma opacity_patch_id (it : obj) (x : value) :
  Vis.id_of (spread it [("id", get it "id"); ("opacity", x)]) = Vis.id_of it.
Proof. unfold Vis.id_of. apply get_spread_bound; [distinct_keys | now left]. Qed.

Lemma opacity_again (it : obj) (x y : value) :
  spread (spread it [("id", get it "id"); ("opacity", x)])
         [("id", get (spread it [("id", get it "id"); ("opacity", x)]) "id");
          ("opacity", y)]
  = spread it [("id", get it "id"); ("opacity", y)].
Proof.
  change (get (spread it [("id", get it "id"); ("opacity", x)]) "id")
    with (Vis.id_of (spread it [("id", get it "id"); ("opacity", x)])).
  rewrite opacity_patch_id. apply spread_overwrite; [reflexivity | distinct_keys].
Qed.

Lemma customer_resetHighlight_exact (containerId : string) (st : Vis.page)
    (network : Vis.Network) :
  Vis.registry st !! containerId = Some network ->
  Marks.well_keyed (Vis.nodes network) -> Marks.well_keyed (Vis.edges network) ->
  fst (CustomerNetwork.resetHighlight containerId st) = Return (VBool true) /\
  exists network',
    Vis.registry (snd (CustomerNetwork.resetHighlight containerId st)) !! containerId
      = Some network' /\
    Vis.items (Vis.nodes network') =
      map (fun n => spread n [("id", get n "id"); ("opacity", CustomerNetwork.opacity true)])
          (Vis.items (Vis.nodes network)) /\
    Vis.items (Vis.edges network') =
      map (fun e => spread e [("id", get e "id"); ("opacity", CustomerNetwork.opacity true)])
          (Vis.items (Vis.edges network)).
Proof.
  intros Hnet [_ Hnkeys] [_ Hekeys].
  pose (full := fun v : value => [("id", v); ("opacity", CustomerNetwork.opacity true)]).
  assert (Hfull : Marks.patch_for full).
  { intros v. split; [now left|]. distinct_keys. }
  destruct (sweep_nodes full network Hfull Hnkeys) as [n1 [Hrun1 [Hn1 [He1 _]]]].
  assert (Hekeys1 : Forall (fun it => is_id (Vis.id_of it) = true) (Vis.items (Vis.edges n1)))
    by now rewrite He1.
  destruct (sweep_edges full n1 Hfull Hekeys1) as [n2 [Hrun2 [He2 [Hn2 _]]]].
  unfold CustomerNetwork.resetHighlight, try_catch, bind, ret, Vis.lookup_instance.
  rewrite Hnet. cbn [slot_of].
  rewrite (in_instance_run _ _ _ _ Hnet).
  change (Vis.for_each_item Vis.nodes _ network)
    with (Vis.for_each_item Vis.nodes
            (fun it => Vis.on_nodes (Vis.update (full (get it "id")))) network).
  rewrite Hrun1. simpl.
  rewrite (in_instance_run _ _ _ _ (set_instance_lookup _ _ _)).
  change (Vis.for_each_item Vis.edges _ n1)
    with (Vis.for_each_item Vis.edges
            (fun it => Vis.on_edges (Vis.update (full (get it "id")))) n1).
  rewrite Hrun2. simpl.
  split; [reflexivity|].
  exists n2. split; [apply lookup_insert_eq|]. split.
  - now rewrite Hn2, Hn1.
  - now rewrite He2, He1.
Qed.

Lemma journey_patch_keys :
  (forall v, map fst (Marks.highlight_node v) = map fst (Marks.reset_node v)) /\
  (forall v, map fst (Marks.highlight_edge v) = map fst (Marks.reset_edge v)).
Proof. split; reflexivity. Qed.

(** X14.  resetHighlight takes back what highlightPath wrote.  In theme.js
    every node and every edge is at opacity 1.0 afterwards and has its
    other properties as before the highlight; in the journey builder every
    node and edge has the plain border, width and colour.  In both the
    data is what resetHighlight alone would have left. *)
Theorem resetHighlight_undoes_highlightPath (containerId : string) (nodeIds : list value) :
  (forall (st : Vis.page) (network : Vis.Network),
     Vis.registry st !! containerId = Some network ->
     Marks.well_keyed (Vis.nodes network) ->
     Marks.well_keyed (Vis.edges network) ->
     fst (CustomerNetwork.resetHighlight containerId
            (snd (CustomerNetwork.highlightPath containerId nodeIds st)))
       = Return (VBool true) /\
     exists network',
       Vis.registry (snd (CustomerNetwork.resetHighlight containerId
                            (snd (CustomerNetwork.highlightPath containerId nodeIds st))))
         !! containerId = Some network' /\
       Vis.items (Vis.nodes network') =
         map (fun n => spread n [("id", get n "id");
                                 ("opacity", CustomerNetwork.opacity true)])
             (Vis.items (Vis.nodes network)) /\
       Vis.items (Vis.edges network') =
         map (fun e => spread e [("id", get e "id");
                                 ("opacity", CustomerNetwork.opacity true)])
             (Vis.items (Vis.edges network))) /\
  (forall (st : JourneyBuilder.state) (network : Vis.Network),
     JourneyBuilder.networks st !! containerId = Some network ->
     Marks.well_keyed (Vis.nodes network) ->
     Marks.well_keyed (Vis.edges network) ->
     Forall (fun v => is_id v = true) nodeIds ->
     fst (JourneyBuilder.resetHighlight containerId
            (snd (JourneyBuilder.highlightPath containerId nodeIds st)))
       = Return (VBool true) /\
     exists network',
       JourneyBuilder.networks
         (snd (JourneyBuilder.resetHighlight containerId
                 (snd (JourneyBuilder.highlightPath containerId nodeIds st))))
         !! containerId = Some network' /\
       Vis.items (Vis.nodes network') =
         map (fun n => spread n (Marks.reset_node (get n "id")))
             (Vis.items (Vis.nodes network)) /\
       Vis.items (Vis.edges network') =
         map (fun e => spread e (Marks.reset_edge (get e "id")))
             (Vis.items (Vis.edges network))).
Proof.
  split.
  - intros st network Hnet Hn He.
    destruct (customer_highlightPath_exact containerId nodeIds st network Hnet Hn He)
      as [_ [n1 [Hnet1 [Hnodes1 Hedges1]]]].
    assert (Hn1 : Marks.well_keyed (Vis.nodes n1)).
    { eapply well_keyed_items; [|exact Hn|exact Hnodes1].
      intros it. apply opacity_patch_id. }
    assert (He1 : Marks.well_keyed (Vis.edges n1)).
    { eapply well_keyed_items; [|exact He|exact Hedges1].
      intros it. apply opacity_patch_id. }
    destruct (customer_resetHighlight_exact containerId _ n1 Hnet1 Hn1 He1)
      as [Hret [n2 [Hnet2 [Hnodes2 Hedges2]]]].
    split; [exact Hret|]. exists n2. split; [exact Hnet2|]. split.
    + rewrite Hnodes2, Hnodes1, map_map. apply map_ext. intros n. apply opacity_again.
    + rewrite Hedges2, Hedges1, map_map. apply map_ext. intros e. apply opacity_again.
  - intros st network Hnet Hn He Hids.
    destruct (journey_highlightPath_exact containerId nodeIds st network Hnet Hn He Hids)
      as [st1 [Hrun1 [n1 [Hnet1 [Hnodes1 Hedges1]]]]].
    rewrite Hrun1. cbn [snd].
    assert (Hn1 : Forall (fun it => is_id (Vis.id_of it) = true) (Vis.items (Vis.nodes n1))).
    { apply (well_keyed_items
               (fun n => if includes nodeIds (get n "id")
                         then Marks.mark_with Marks.highlight_node
                                (Marks.mark_with Marks.reset_node n)
                         else Marks.mark_with Marks.reset_node n)
               (Vis.nodes network)); [|exact Hn|exact Hnodes1].
      intros it. destruct (includes nodeIds (get it "id"));
        rewrite ?(mark_with_id Marks.highlight_node highlight_node_patch);
        apply (mark_with_id Marks.reset_node reset_node_patch). }
    assert (He1 : Forall (fun it => is_id (Vis.id_of it) = true) (Vis.items (Vis.edges n1))).
    { apply (well_keyed_items
               (fun e => if Marks.on_path nodeIds e
                         then Marks.mark_with Marks.highlight_edge
                                (Marks.mark_with Marks.reset_edge e)
                         else Marks.mark_with Marks.reset_edge e)
               (Vis.edges network)); [|exact He|exact Hedges1].
      intros it. destruct (Marks.on_path nodeIds it);
        rewrite ?(mark_with_id Marks.highlight_edge highlight_edge_patch);
        apply (mark_with_id Marks.reset_edge reset_edge_patch). }
    destruct (journey_resetHighlight_exact containerId st1 n1 Hnet1 Hn1 He1)
      as [st2 [Hrun2 Hd2]].
    rewrite Hrun2. cbn [fst snd]. split; [reflexivity|].
    destruct (data_at_network _ _ _ _ Hd2) as [n2 [Hnet2 [Hnodes2 Hedges2]]].
    exists n2. split; [exact Hnet2|]. split.
    + rewrite Hnodes2. cbn [Vis.items]. rewrite Hnodes1, map_map.
      apply map_ext. intros n.
      change (spread n (Marks.reset_node (get n "id")))
        with (Marks.mark_with Marks.reset_node n).
      destruct (includes nodeIds (get n "id")).
      * rewrite (mark_again Marks.highlight_node Marks.reset_node)
          by (try apply highlight_node_patch; try apply reset_node_patch;
              apply journey_patch_keys).
        apply (mark_with_twice Marks.reset_node reset_node_patch).
      * apply (mark_with_twice Marks.reset_node reset_node_patch).
    + rewrite Hedges2. cbn [Vis.items]. rewrite Hedges1, map_map.
      apply map_ext. intros e.
      change (spread e (Marks.reset_edge (get e "id")))
        with (Marks.mark_with Marks.reset_edge e).
      destruct (Marks.on_path nodeIds e).
      * rewrite (mark_again Marks.highlight_edge Marks.reset_edge)
          by (try apply highlight_edge_patch; try apply reset_edge_patch;
              apply journey_patch_keys).
        apply (mark_with_twice Marks.reset_edge reset_edge_patch).
      * apply (mark_with_twice Marks.reset_edge reset_edge_patch).
Qed.

Lemma opacity_patch_other (it : obj) (x : value) (k : string) :
  k <> "id" -> k <> "opacity" ->
  get (spread it [("id", get it "id"); ("opacity", x)]) k = get it k.
Proof.
  intros Hid Hop. apply get_spread_other.
  intros kv [<- | [<- | []]]; simpl; congruence.
Qed.

Lemma reset_after_mark (n : obj) (b : bool) :
  Marks.mark_with Marks.reset_node
    (if b then Marks.mark_with Marks.highlight_node (Marks.mark_with Marks.reset_node n)
     else Marks.mark_with Marks.reset_node n)
  = Marks.mark_with Marks.reset_node n.
Proof.
  destruct b.
  - rewrite (mark_again Marks.highlight_node Marks.reset_node)
      by (try apply highlight_node_patch; try apply reset_node_patch;
          apply journey_patch_keys).
    apply (mark_with_twice Marks.reset_node reset_node_patch).
  - apply (mark_with_twice Marks.reset_node reset_node_patch).
Qed.

Lemma reset_after_mark_edge (e : obj) (b : bool) :
  Marks.mark_with Marks.reset_edge
    (if b then Marks.mark_with Marks.highlight_edge (Marks.mark_with Marks.reset_edge e)
     else Marks.mark_with Marks.reset_edge e)
  = Marks.mark_with Marks.reset_edge e.
Proof.
  destruct b.
  - rewrite (mark_again Marks.highlight_edge Marks.reset_edge)
      by (try apply highlight_edge_patch; try apply reset_edge_patch;
          apply journey_patch_keys).
    apply (mark_with_twice Marks.reset_edge reset_edge_patch).
  - apply (mark_with_twice Marks.reset_edge reset_edge_patch).
Qed.

(** X15.  A highlight does not build on the one before it: highlightPath
    with a second list, called after highlightPath with a first one,
    leaves the nodes and edges exactly as highlightPath with the second
    list alone would, in theme.js and in the journey builder. *)
Theorem highlightPath_starts_afresh (containerId : string) (first second : list value) :
  (forall (st : Vis.page) (network : Vis.Network),
     Vis.registry st !! containerId = Some network ->
     Marks.well_keyed (Vis.nodes network) ->
     Marks.well_keyed (Vis.edges network) ->
     exists after_both after_second,
       Vis.registry
         (snd (CustomerNetwork.highlightPath containerId second
                 (snd (CustomerNetwork.highlightPath containerId first st))))
         !! containerId = Some after_both /\
       Vis.registry (snd (CustomerNetwork.highlightPath containerId second st))
         !! containerId = Some after_second /\
       Vis.items (Vis.nodes after_both) = Vis.items (Vis.nodes after_second) /\
       Vis.items (Vis.edges after_both) = Vis.items (Vis.edges after_second)) /\
  (forall (st : JourneyBuilder.state) (network : Vis.Network),
     JourneyBuilder.networks st !! containerId = Some network ->
     Marks.well_keyed (Vis.nodes network) ->
     Marks.well_keyed (Vis.edges network) ->
     Forall (fun v => is_id v = true) first ->
     Forall (fun v => is_id v = true) second ->
     exists after_both after_second,
       JourneyBuilder.networks
         (snd (JourneyBuilder.highlightPath containerId second
                 (snd (JourneyBuilder.highlightPath containerId first st))))
         !! containerId = Some after_both /\
       JourneyBuilder.networks (snd (JourneyBuilder.highlightPath containerId second st))
         !! containerId = Some after_second /\
       Vis.items (Vis.nodes after_both) = Vis.items (Vis.nodes after_second) /\
       Vis.items (Vis.edges after_both) = Vis.items (Vis.edges after_second)).
Proof.
  split.
  - intros st network Hnet Hn He.
    destruct (customer_highlightPath_exact containerId first st network Hnet Hn He)
      as [_ [n1 [Hnet1 [Hnodes1 Hedges1]]]].
    assert (Hn1 : Marks.well_keyed (Vis.nodes n1)).
    { eapply well_keyed_items; [|exact Hn|exact Hnodes1].
      intros it. apply opacity_patch_id. }
    assert (He1 : Marks.well_keyed (Vis.edges n1)).
    { eapply well_keyed_items; [|exact He|exact Hedges1].
      intros it. apply opacity_patch_id. }
    destruct (customer_highlightPath_exact containerId second _ n1 Hnet1 Hn1 He1)
      as [_ [n12 [Hnet12 [Hnodes12 Hedges12]]]].
    destruct (customer_highlightPath_exact containerId second st network Hnet Hn He)
      as [_ [n2 [Hnet2 [Hnodes2 Hedges2]]]].
    exists n12, n2. split; [exact Hnet12|]. split; [exact Hnet2|]. split.
    + rewrite Hnodes12, Hnodes1, Hnodes2, map_map. apply map_ext. intros n.
      change (get (spread n [("id", get n "id");
                             ("opacity", CustomerNetwork.opacity (includes first (get n "id")))])
                  "id")
        with (Vis.id_of (spread n [("id", get n "id");
                                   ("opacity",
                                    CustomerNetwork.opacity (includes first (get n "id")))])).
      rewrite opacity_patch_id. unfold Vis.id_of.
      apply spread_overwrite; [reflexivity | distinct_keys].
    + rewrite Hedges12, Hedges1, Hedges2, map_map. apply map_ext. intros e.
      rewrite (opacity_patch_other e _ "from"), (opacity_patch_other e _ "to")
        by discriminate.
      change (get (spread e [("id", get e "id");
                             ("opacity",
                              CustomerNetwork.opacity
                                (includes first (get e "from")
                                 && includes first (get e "to")))])
                  "id")
        with (Vis.id_of (spread e [("id", get e "id");
                                   ("opacity",
                                    CustomerNetwork.opacity
                                      (includes first (get e "from")
                                       && includes first (get e "to")))])).
      rewrite opacity_patch_id. unfold Vis.id_of.
      apply spread_overwrite; [reflexivity | distinct_keys].
  - intros st network Hnet Hn He Hfirst Hsecond.
    destruct (journey_highlightPath_exact containerId first st network Hnet Hn He Hfirst)
      as [st1 [Hrun1 [n1 [Hnet1 [Hnodes1 Hedges1]]]]].
    assert (Hn1 : Marks.well_keyed (Vis.nodes n1)).
    { apply (well_keyed_items
               (fun n => if includes first (get n "id")
                         then Marks.mark_with Marks.highlight_node
                                (Marks.mark_with Marks.reset_node n)
                         else Marks.mark_with Marks.reset_node n)
               (Vis.nodes network)); [|exact Hn|exact Hnodes1].
      intros it. destruct (includes first (get it "id"));
        rewrite ?(mark_with_id Marks.highlight_node highlight_node_patch);
        apply (mark_with_id Marks.reset_node reset_node_patch). }
    assert (He1 : Marks.well_keyed (Vis.edges n1)).
    { apply (well_keyed_items
               (fun e => if Marks.on_path first e
                         then Marks.mark_with Marks.highlight_edge
                                (Marks.mark_with Marks.reset_edge e)
                         else Marks.mark_with Marks.reset_edge e)
               (Vis.edges network)); [|exact He|exact Hedges1].
      intros it. destruct (Marks.on_path first it);
        rewrite ?(mark_with_id Marks.highlight_edge highlight_edge_patch);
        apply (mark_with_id Marks.reset_edge reset_edge_patch). }
    destruct (journey_highlightPath_exact containerId second st1 n1 Hnet1 Hn1 He1 Hsecond)
      as [st12 [Hrun12 [n12 [Hnet12 [Hnodes12 Hedges12]]]]].
    destruct (journey_highlightPath_exact containerId second st network Hnet Hn He Hsecond)
      as [st2 [Hrun2 [n2 [Hnet2 [Hnodes2 Hedges2]]]]].
    rewrite Hrun1. cbn [snd]. rewrite Hrun12, Hrun2. cbn [snd].
    exists n12, n2. split; [exact Hnet12|]. split; [exact Hnet2|]. split.
    + rewrite Hnodes12, Hnodes1, Hnodes2, map_map. apply map_ext. intros n.
      rewrite reset_after_mark.
      replace (get (if includes first (get n "id")
                    then Marks.mark_with Marks.highlight_node
                           (Marks.mark_with Marks.reset_node n)
                    else Marks.mark_with Marks.reset_node n) "id")
        with (get n "id"); [reflexivity|].
      change (get n "id") with (Vis.id_of n).
      destruct (includes first (Vis.id_of n)).
      * change (get ?x "id") with (Vis.id_of x).
        rewrite (mark_with_id Marks.highlight_node highlight_node_patch).
        now rewrite (mark_with_id Marks.reset_node reset_node_patch).
      * change (get ?x "id") with (Vis.id_of x).
        now rewrite (mark_with_id Marks.reset_node reset_node_patch).
    + rewrite Hedges12, Hedges1, Hedges2, map_map. apply map_ext. intros e.
      rewrite reset_after_mark_edge.
      replace (Marks.on_path second
                 (if Marks.on_path first e
                  then Marks.mark_with Marks.highlight_edge
                         (Marks.mark_with Marks.reset_edge e)
                  else Marks.mark_with Marks.reset_edge e))
        with (Marks.on_path second e); [reflexivity|].
      destruct (Marks.on_path first e).
      * rewrite (on_path_marked Marks.highlight_edge second _ highlight_edge_keeps_ends).
        now rewrite (on_path_marked Marks.reset_edge second _ reset_edge_keeps_ends).
      * now rewrite (on_path_marked Marks.reset_edge second _ reset_edge_keeps_ends).
Qed.

Lemma highlightPath_afresh_witness :
  (fun n => Vis.items (Vis.nodes n)) <$>
    (Vis.registry
       (snd (CustomerNetwork.highlightPath "customer-graph" [VStr "b"]
               (snd (CustomerNetwork.highlightPath "customer-graph" [VStr "a"]
                       Examples.customer_page))))
       !! "customer-graph")
  = (fun n => Vis.items (Vis.nodes n)) <$>
      (Vis.registry
         (snd (CustomerNetwork.highlightPath "customer-graph" [VStr "b"]
                 Examples.customer_page))
         !! "customer-graph").
Proof.
  destruct (proj1 (highlightPath_starts_afresh "customer-graph" [VStr "a"] [VStr "b"])
              Examples.customer_page _ eq_refl
              (proj1 customer_page_well_keyed) (proj2 customer_page_well_keyed))
    as [n12 [n2 [H12 [H2 [Hnodes _]]]]].
  rewrite H12, H2. cbn [fmap option_fmap option_map]. now rewrite Hnodes.
Defined.

Lemma resetHighlight_undoes_witness :
  fst (CustomerNetwork.resetHighlight "customer-graph"
         (snd (CustomerNetwork.highlightPath "customer-graph" [VStr "a"]
                 Examples.customer_page)))
    = Return (VBool true).
Proof.
  exact (proj1 (proj1 (resetHighlight_undoes_highlightPath "customer-graph" [VStr "a"])
                  Examples.customer_page _ eq_refl
                  (proj1 customer_page_well_keyed) (proj2 customer_page_well_keyed))).
Defined.

(** ** A journey just initialized *)


(** ** loadData of theme.js *)



Section CustomerLoadData.

Variable getNodeSize : obj -> value.
Variable createNodeTooltip : obj -> value.
Variable createEdgeTooltip : obj -> value.

Let node_record := CustomerNetwork.node_record getNodeSize createNodeTooltip.
Let edge_record := CustomerNetwork.edge_record createEdgeTooltip.
Let loadData := CustomerNetwork.loadData getNodeSize createNodeTooltip createEdgeTooltip.





End CustomerLoadData.



(** ** Highlights of the d3 graph before the first render *)

Lemma d3_initialize_run (containerId : string) (options : obj) (st : D3Graph.state)
    (scheme : string) :
  D3Graph.getElementById st containerId = true ->
  get (spread [("colorScheme", VStr "category10")] options) "colorScheme" = VStr scheme ->
  D3Graph.has_scheme st (D3Graph.capitalize scheme) = true ->
  D3Graph.initialize containerId options st =
    (Return (VBool true), D3Graph.set_instance containerId D3Graph.empty_instance st).
Proof.
  intros Hel Hscheme Hknown. unfold D3Graph.initialize, bind, read, ret, modify.
  now rewrite Hel, Hscheme, Hknown.
Qed.

(** X18.  highlightNode and clearHighlights of the d3 module go through the
    element selections renderGraph stores.  On an instance just created by
    initialize (the container is there and the colour scheme asked for,
    category10 by default, is one the d3 build has) there are none yet:
    both calls throw a TypeError whatever the node asked for, while
    focusNode answers false.  Once a call that renders
    has run (clearGraph here), they answer: clearHighlights true,
    highlightNode false for a node the graph does not hold. *)
Theorem d3_highlight_needs_a_render (containerId : string) (options : obj)
    (st : D3Graph.state) (scheme : string) :
  D3Graph.getElementById st containerId = true ->
  get (spread [("colorScheme", VStr "category10")] options) "colorScheme" = VStr scheme ->
  D3Graph.has_scheme st (D3Graph.capitalize scheme) = true ->
  fst (D3Graph.initialize containerId options st) = Return (VBool true) /\
  (forall nodeId,
     fst (D3Graph.highlightNode containerId nodeId
            (snd (D3Graph.initialize containerId options st))) = Throw TypeError) /\
  fst (D3Graph.clearHighlights containerId
         (snd (D3Graph.initialize containerId options st))) = Throw TypeError /\
  (forall nodeId,
     fst (D3Graph.focusNode containerId nodeId
            (snd (D3Graph.initialize containerId options st))) = Return (VBool false)) /\
  fst (D3Graph.clearGraph containerId
         (snd (D3Graph.initialize containerId options st))) = Return (VBool true) /\
  fst (D3Graph.clearHighlights containerId
         (snd (D3Graph.clearGraph containerId
                 (snd (D3Graph.initialize containerId options st))))) = Return (VBool true) /\
  (forall nodeId,
     fst (D3Graph.highlightNode containerId nodeId
            (snd (D3Graph.clearGraph containerId
                    (snd (D3Graph.initialize containerId options st)))))
       = Return (VBool false)).
Proof.
  intros Hel Hscheme Hknown.
  rewrite (d3_initialize_run _ _ _ _ Hel Hscheme Hknown). cbn [fst snd].
  pose proof (d3_set_instance_lookup containerId D3Graph.empty_instance st) as Hinst.
  set (st1 := D3Graph.set_instance containerId D3Graph.empty_instance st) in *.
  split; [reflexivity|]. split; [|split; [|split]].
  - intros nodeId.
    unfold D3Graph.highlightNode, D3Graph.lookup_instance, bind, ret.
    rewrite Hinst. cbn [slot_of]. now rewrite (d3_in_instance_run _ _ _ _ Hinst).
  - unfold D3Graph.clearHighlights, D3Graph.lookup_instance, bind, ret.
    rewrite Hinst. cbn [slot_of]. now rewrite (d3_in_instance_run _ _ _ _ Hinst).
  - intros nodeId.
    unfold D3Graph.focusNode, D3Graph.lookup_instance, bind, ret.
    rewrite Hinst. reflexivity.
  - assert (Hclear : exists st2 inst,
              D3Graph.clearGraph containerId st1 = (Return (VBool true), st2) /\
              D3Graph.graphInstances st2 !! containerId = Some inst /\
              D3Graph.elements inst = true /\ D3Graph.nodes inst = []).
    { unfold D3Graph.clearGraph, D3Graph.lookup_instance.
      unfold bind at 1. rewrite Hinst. cbn [slot_of].
      unfold bind at 1. rewrite (d3_in_instance_run _ _ _ _ Hinst). cbn [fst snd].
      unfold bind at 1.
      rewrite (d3_in_instance_run _ _ _ _ (d3_set_instance_lookup _ _ _)). cbn [fst snd].
      unfold D3Graph.renderGraph, D3Graph.lookup_instance.
      unfold bind at 1. unfold bind at 1. rewrite d3_set_instance_lookup. cbn [slot_of].
      rewrite (d3_in_instance_run _ _ _ _ (d3_set_instance_lookup _ _ _)).
      cbn. eexists. eexists. split; [reflexivity|].
      split; [apply d3_set_instance_lookup|]. split; reflexivity. }
    destruct Hclear as [st2 [inst [Hclear [Hinst' [Hel' Hnodes]]]]].
    rewrite Hclear. cbn [fst snd].
    split; [reflexivity|]. split.
    + unfold D3Graph.clearHighlights, D3Graph.lookup_instance, bind, ret.
      rewrite Hinst'. cbn [slot_of]. rewrite (d3_in_instance_run _ _ _ _ Hinst').
      unfold D3Graph.restyle_elements. now rewrite Hel'.
    + intros nodeId.
      unfold D3Graph.highlightNode, D3Graph.lookup_instance, bind, ret.
      rewrite Hinst'. cbn [slot_of]. rewrite (d3_in_instance_run _ _ _ _ Hinst').
      unfold D3Graph.restyle_elements. rewrite Hel'. cbn [fst snd].
      unfold D3Graph.find_node. now rewrite Hnodes.
Qed.

Lemma d3_highlight_witness :
  fst (D3Graph.highlightNode "graph" (VStr "a")
         (snd (D3Graph.initialize "graph" [] Examples.d3_page))) = Throw TypeError.
Proof.
  exact (proj1 (proj2 (d3_highlight_needs_a_render "graph" [] Examples.d3_page "category10"
                         eq_refl eq_refl eq_refl)) (VStr "a")).
Defined.

(** ** Allocation in the d3 graph *)

Section D3Alloc.
Import D3Graph.

Lemma new_all_nodes (ns : list obj) (inst : instance) :
  exists inst',
    new_all new_node ns inst = (Return (seq (next inst) (length ns)), inst') /\
    next inst' = next inst + length ns /\
    (forall i n, nth_error ns i = Some n ->
       node_objects inst' !! (next inst + i) = Some n) /\
    (forall k, k < next inst -> node_objects inst' !! k = node_objects inst !! k) /\
    (forall k, is_Some (node_objects inst' !! k) ->
       is_Some (node_objects inst !! k) \/ k < next inst + length ns) /\
    link_objects inst' = link_objects inst /\
    arrays_kept inst inst'.
Proof.
  revert inst. induction ns as [|n ns IH]; intros inst.
  - exists inst. simpl. unfold ret. rewrite Nat.add_0_r.
    split; [reflexivity|]. split; [reflexivity|]. split.
    + intros [|i] n' Hn; discriminate.
    + split; [reflexivity|]. split; [now left|]. split; [reflexivity|].
      repeat split.
  - cbn [new_all]. unfold bind at 1. unfold new_node at 1.
    set (inst1 := {| node_objects := <[next inst := n]> (node_objects inst);
                     link_objects := link_objects inst; next := S (next inst);
                     nodes := nodes inst; links := links inst;
                     force_links := force_links inst; elements := elements inst;
                     running := running inst; layered := layered inst |}).
    destruct (IH inst1) as [inst' [Hrun [Hnext [Hnew [Hold [Hdom [Hlinks Hkept]]]]]]].
    exists inst'. unfold bind. rewrite Hrun. unfold ret.
    cbn [next inst1 length seq] in *.
    split; [reflexivity|]. split; [lia|]. split; [|split; [|split; [|split]]].
    + intros [|i] n' Hn.
      * simpl in Hn. injection Hn as <-. rewrite Nat.add_0_r.
        rewrite Hold by lia. cbn [node_objects inst1]. apply lookup_insert_eq.
      * simpl in Hn. replace (next inst + S i) with (S (next inst) + i) by lia.
        now apply Hnew.
    + intros k Hk. rewrite Hold by lia. cbn [node_objects inst1].
      apply lookup_insert_ne. lia.
    + intros k Hk. destruct (Hdom k Hk) as [Hin | Hlt]; [|right; lia].
      cbn [node_objects inst1] in Hin.
      destruct (decide (k = next inst)) as [-> | Hne]; [right; lia|].
      left. now rewrite lookup_insert_ne in Hin by congruence.
    + exact Hlinks.
    + exact Hkept.
Qed.

Lemma new_all_links (ls : list obj) (inst : instance) :
  exists inst',
    new_all new_link ls inst = (Return (seq (next inst) (length ls)), inst') /\
    next inst' = next inst + length ls /\
    (forall j l, nth_error ls j = Some l ->
       link_objects inst' !! (next inst + j)
         = Some {| source := Given (get l "source"); target := Given (get l "target");
                   fields := l |}) /\
    (forall k, k < next inst -> link_objects inst' !! k = link_objects inst !! k) /\
    (forall k, is_Some (link_objects inst' !! k) ->
       is_Some (link_objects inst !! k) \/ k < next inst + length ls) /\
    node_objects inst' = node_objects inst /\
    arrays_kept inst inst'.
Proof.
  revert inst. induction ls as [|l ls IH]; intros inst.
  - exists inst. simpl. unfold ret. rewrite Nat.add_0_r.
    split; [reflexivity|]. split; [reflexivity|]. split.
    + intros [|i] n' Hn; discriminate.
    + split; [reflexivity|]. split; [now left|]. split; [reflexivity|].
      repeat split.
  - cbn [new_all]. unfold bind at 1. unfold new_link at 1.
    set (inst1 := {| node_objects := node_objects inst;
                     link_objects :=
                       <[next inst := {| source := Given (get l "source");
                                         target := Given (get l "target");
                                         fields := l |}]> (link_objects inst);
                     next := S (next inst);
                     nodes := nodes inst; links := links inst;
                     force_links := force_links inst; elements := elements inst;
                     running := running inst; layered := layered inst |}).
    destruct (IH inst1) as [inst' [Hrun [Hnext [Hnew [Hold [Hdom [Hnodes Hkept]]]]]]].
    exists inst'. unfold bind. rewrite Hrun. unfold ret.
    cbn [next inst1 length seq] in *.
    split; [reflexivity|]. split; [lia|]. split; [|split; [|split; [|split]]].
    + intros [|j] l' Hl.
      * simpl in Hl. injection Hl as <-. rewrite Nat.add_0_r.
        rewrite Hold by lia. cbn [link_objects inst1]. apply lookup_insert_eq.
      * simpl in Hl. replace (next inst + S j) with (S (next inst) + j) by lia.
        now apply Hnew.
    + intros k Hk. rewrite Hold by lia. cbn [link_objects inst1].
      apply lookup_insert_ne. lia.
    + intros k Hk. destruct (Hdom k Hk) as [Hin | Hlt]; [|right; lia].
      cbn [link_objects inst1] in Hin.
      destruct (decide (k = next inst)) as [-> | Hne]; [right; lia|].
      left. now rewrite lookup_insert_ne in Hin by congruence.
    + exact Hnodes.
    + exact Hkept.
Qed.

Lemma node_by_id_same (inst inst' : instance) (v : value) :
  node_objects inst' = node_objects inst -> nodes inst' = nodes inst ->
  node_by_id inst' v = node_by_id inst v.
Proof. intros Hobj Hnodes. unfold node_by_id, node_at. now rewrite Hobj, Hnodes. Qed.

Lemma resolve_id (inst : instance) (v : value) :
  is_id v = true ->
  resolve inst (Given v) =
    match node_by_id inst v with
    | Some k => Return (Node k)
    | None => Throw Error
    end.
Proof. now destruct v. Qed.

Lemma initialize_link_resolves (k : nat) (inst : instance) (vs vt : value) (f : obj)
    (s t : nat) :
  link_objects inst !! k
    = Some {| source := Given vs; target := Given vt; fields := f |} ->
  is_id vs = true -> is_id vt = true ->
  node_by_id inst vs = Some s -> node_by_id inst vt = Some t ->
  initialize_link k inst =
    (Return tt, set_link k {| source := Node s; target := Node t; fields := f |} inst).
Proof.
  intros Hk Hvs Hvt Hs Ht. unfold initialize_link, link_at. rewrite Hk.
  cbn [default source target fields].
  rewrite (resolve_id _ _ Hvs), Hs.
  rewrite (resolve_id _ _ Hvt).
  rewrite (node_by_id_same inst) by reflexivity. rewrite Ht.
  f_equal. unfold set_link. cbn [node_objects link_objects next nodes links force_links
    elements running layered]. now rewrite insert_insert_eq.
Qed.

Lemma resolve_loop (ks : list nat) (inst : instance) :
  NoDup ks ->
  (forall k, In k ks ->
     exists vs vt f s t,
       link_objects inst !! k
         = Some {| source := Given vs; target := Given vt; fields := f |} /\
       is_id vs = true /\ is_id vt = true /\
       node_by_id inst vs = Some s /\ node_by_id inst vt = Some t) ->
  exists inst',
    for_each ks initialize_link inst = (Return tt, inst') /\
    node_objects inst' = node_objects inst /\ next inst' = next inst /\
    arrays_kept inst inst' /\
    (forall k, ~ In k ks -> link_objects inst' !! k = link_objects inst !! k) /\
    (forall k, In k ks ->
       exists vs vt f s t,
         link_objects inst !! k
           = Some {| source := Given vs; target := Given vt; fields := f |} /\
         node_by_id inst vs = Some s /\ node_by_id inst vt = Some t /\
         link_objects inst' !! k
           = Some {| source := Node s; target := Node t; fields := f |}).
Proof.
  revert inst. induction ks as [|k ks IH]; intros inst Hnd Hall.
  - exists inst. split; [reflexivity|]. split; [reflexivity|]. split; [reflexivity|].
    split; [repeat split|]. split; [reflexivity|]. intros k [].
  - apply NoDup_cons in Hnd. destruct Hnd as [Hout Hnd].
    rewrite list_elem_of_In in Hout.
    destruct (Hall k (or_introl eq_refl)) as [vs [vt [f [s [t [Hk [Hvs [Hvt [Hs Ht]]]]]]]]].
    cbn [for_each]. unfold bind.
    rewrite (initialize_link_resolves k inst vs vt f s t Hk Hvs Hvt Hs Ht).
    set (inst1 := set_link k {| source := Node s; target := Node t; fields := f |} inst).
    destruct (IH inst1 Hnd) as [inst' [Hrun [Hobj [Hnext [Hkept [Hother Hres]]]]]].
    { intros k' Hin. destruct (Hall k' (or_intror Hin))
        as [vs' [vt' [f' [s' [t' [Hk' [Hvs' [Hvt' [Hs' Ht']]]]]]]]].
      exists vs', vt', f', s', t'. split.
      - subst inst1. unfold set_link. cbn [link_objects].
        rewrite lookup_insert_ne; [exact Hk'|]. intros ->. contradiction.
      - split; [exact Hvs'|]. split; [exact Hvt'|].
        split; rewrite (node_by_id_same inst) by reflexivity; assumption. }
    exists inst'. split; [exact Hrun|]. split; [now rewrite Hobj|].
    split; [now rewrite Hnext|]. split; [exact Hkept|]. split.
    + intros k' Hk'. rewrite Hother by (intros Hin; apply Hk'; now right).
      subst inst1. unfold set_link. cbn [link_objects].
      apply lookup_insert_ne. intros ->. apply Hk'. now left.
    + intros k' [<- | Hin].
      * exists vs, vt, f, s, t. split; [exact Hk|]. split; [exact Hs|]. split; [exact Ht|].
        rewrite Hother by exact Hout. subst inst1. unfold set_link. cbn [link_objects].
        apply lookup_insert_eq.
      * destruct (Hres k' Hin) as [vs' [vt' [f' [s' [t' [Hk' [Hs' [Ht' Hfin]]]]]]]].
        exists vs', vt', f', s', t'.
        assert (Hne : k <> k') by (intros ->; contradiction).
        subst inst1. unfold set_link in Hk'. cbn [link_objects] in Hk'.
        rewrite lookup_insert_ne in Hk' by exact Hne.
        split; [exact Hk'|].
        rewrite (node_by_id_same inst) in Hs', Ht' by reflexivity.
        split; [exact Hs'|]. split; [exact Ht' | exact Hfin].
Qed.

End D3Alloc.

Section D3SetData.
Import D3Graph.

Lemma find_first {A} (f : A -> bool) (l : list A) (x : A) :
  In x l -> f x = true -> exists y, List.find f l = Some y.
Proof.
  intros Hin Hx. destruct (List.find f l) as [y|] eqn:Hfind; [now exists y|].
  now rewrite (find_none _ _ Hfind x Hin) in Hx.
Qed.

Lemma nth_error_lt {A} (l : list A) (i : nat) (x : A) :
  nth_error l i = Some x -> i < length l.
Proof. intros Hi. apply nth_error_Some. congruence. Qed.

Lemma map_seq_nth {A} (f : nat -> A) (a : nat) (l : list A) :
  (forall i x, nth_error l i = Some x -> f (a + i) = x) ->
  map f (seq a (length l)) = l.
Proof.
  revert a. induction l as [|x l IH]; intros a Hnth; [reflexivity|].
  simpl. f_equal.
  - rewrite <- (Nat.add_0_r a). now apply Hnth.
  - apply IH. intros i y Hy. replace (S a + i) with (a + S i) by lia. now apply Hnth.
Qed.

Lemma node_at_lookup (inst : instance) (k : nat) (n : obj) :
  node_objects inst !! k = Some n -> node_at inst k = n.
Proof. intros Hk. exact (f_equal (default []) Hk). Qed.

Lemma names_node_found (ns : list obj) (v : value) (inst : instance) (a : nat) :
  names_node ns v = true ->
  nodes inst = seq a (length ns) ->
  (forall i n, nth_error ns i = Some n -> node_objects inst !! (a + i) = Some n) ->
  is_id v = true /\ exists k, node_by_id inst v = Some k.
Proof.
  unfold names_node. intros Hnames Hnodes Hobj.
  apply andb_true_iff in Hnames. destruct Hnames as [Hid Hex].
  split; [exact Hid|].
  apply existsb_exists in Hex. destruct Hex as [n [Hin Hn]].
  apply In_nth_error in Hin. destruct Hin as [i Hi].
  unfold node_by_id. apply (find_first _ _ (a + i)).
  - rewrite <- in_rev, Hnodes. apply in_seq. split; [lia|].
    apply nth_error_lt in Hi. lia.
  - cbn beta. now rewrite (node_at_lookup _ _ _ (Hobj i n Hi)).
Qed.

Lemma d3_setData_instance (ns ls : list obj) (inst : instance) :
  settled inst -> well_allocated inst -> links_closed ns ls = true ->
  exists instA instB inst',
    (let! ks := new_all new_node ns in set_nodes ks) inst = (Return tt, instA) /\
    (let! ks := new_all new_link ls in set_links ks) instA = (Return tt, instB) /\
    renderGraph_instance instB = (Return tt, inst') /\
    map (node_at inst') (nodes inst') = ns /\
    map (fun k => fields (link_at inst' k)) (links inst') = ls /\
    (forall k, In k (links inst') ->
       exists s t,
         source (link_at inst' k) = Node s /\ target (link_at inst' k) = Node t /\
         In s (nodes inst') /\ In t (nodes inst') /\
         strict_eq (get (node_at inst' s) "id") (get (fields (link_at inst' k)) "source")
           = true /\
         strict_eq (get (node_at inst' t) "id") (get (fields (link_at inst' k)) "target")
           = true) /\
    settled inst' /\ well_allocated inst' /\
    elements inst' = true /\ running inst' = true.
Proof.
  intros Hsettled [Hwn Hwl] Hclosed.
  destruct (new_all_nodes ns inst)
    as [inst1 [Hrun1 [Hnext1 [Hnew1 [Hold1 [Hdom1 [Hl1 Hk1]]]]]]].
  destruct Hk1 as [Hk1n [Hk1l [Hk1f [Hk1e [Hk1r Hk1y]]]]].
  set (a := next inst) in *.
  set (instA := snd (set_nodes (seq a (length ns)) inst1)).
  assert (HmA : (let! ks := new_all new_node ns in set_nodes ks) inst = (Return tt, instA)).
  { unfold bind. now rewrite Hrun1. }
  destruct (new_all_links ls instA)
    as [inst2 [Hrun2 [Hnext2 [Hnew2 [Hold2 [Hdom2 [Hn2 Hk2]]]]]]].
  destruct Hk2 as [Hk2n [Hk2l [Hk2f [Hk2e [Hk2r Hk2y]]]]].
  assert (HnextA : next instA = a + length ns) by exact Hnext1.
  rewrite HnextA in *.
  set (b := a + length ns) in *.
  set (instB := snd (set_links (seq b (length ls)) inst2)).
  assert (HmB : (let! ks := new_all new_link ls in set_links ks) instA = (Return tt, instB)).
  { unfold bind. now rewrite Hrun2. }
  exists instA, instB.
  (* the state the two passes of the link force run in *)
  assert (HobjB : node_objects instB = node_objects inst1) by (cbn; now rewrite Hn2).
  assert (HnodesB : nodes instB = seq a (length ns)) by (cbn; now rewrite Hk2n).
  assert (HlinksB : links instB = seq b (length ls)) by reflexivity.
  assert (HforceB : current_force_links instB = current_force_links inst).
  { unfold current_force_links. cbn. rewrite Hk2l, Hk2f. cbn.
    rewrite Hk1l, Hk1f. now destruct (force_links inst). }
  assert (HoldB : forall k, k < a -> link_objects instB !! k = link_objects inst !! k).
  { intros k Hk. cbn. rewrite Hold2 by lia. cbn. now rewrite Hl1. }
  assert (HnewB : forall j l, nth_error ls j = Some l ->
            link_objects instB !! (b + j)
              = Some {| source := Given (get l "source"); target := Given (get l "target");
                        fields := l |}) by exact Hnew2.
  assert (HnextB : next instB = b + length ls) by exact Hnext2.
  assert (HdomB : forall k, is_Some (link_objects instB !! k) ->
            is_Some (link_objects inst !! k) \/ k < b + length ls).
  { intros k Hk. destruct (Hdom2 k Hk) as [Hin | Hlt]; [left | now right].
    change (link_objects instA) with (link_objects inst1) in Hin. now rewrite Hl1 in Hin. }
  clearbody instB instA.
  cut (exists inst',
         renderGraph_instance instB = (Return tt, inst') /\
         map (node_at inst') (nodes inst') = ns /\
         map (fun k => fields (link_at inst' k)) (links inst') = ls /\
         (forall k, In k (links inst') ->
            exists s t,
              source (link_at inst' k) = Node s /\ target (link_at inst' k) = Node t /\
              In s (nodes inst') /\ In t (nodes inst') /\
              strict_eq (get (node_at inst' s) "id") (get (fields (link_at inst' k)) "source")
                = true /\
              strict_eq (get (node_at inst' t) "id") (get (fields (link_at inst' k)) "target")
                = true) /\
         settled inst' /\ well_allocated inst' /\
         elements inst' = true /\ running inst' = true).
  { intros [inst' Hrender]. exists inst'. split; [exact HmA|]. split; [exact HmB|].
    exact Hrender. }
  clear HmA HmB.
  cbv beta iota delta [renderGraph_instance bind modify read].
  match goal with
  | |- context [for_each (current_force_links ?x) initialize_link ?x] => set (instC1 := x)
  end.
  assert (Hpass1 : for_each (current_force_links instC1) initialize_link instC1
                   = (Return tt, instC1)).
  { apply for_each_settled. intros k Hin.
    change (current_force_links instC1) with (current_force_links instB) in Hin.
    rewrite HforceB in Hin.
    destruct (Hsettled k (or_intror Hin)) as [l [Hl Hres]].
    exists l. split; [|exact Hres].
    change (link_objects instC1) with (link_objects instB).
    rewrite HoldB; [exact Hl|]. apply Hwl. now rewrite Hl. }
  rewrite Hpass1. cbv beta iota.
  match goal with
  | |- context [for_each (links ?x) initialize_link ?x] => set (instC3 := x)
  end.
  destruct (resolve_loop (links instC3) instC3)
    as [instC4 [Hrun4 [Hobj4 [Hnext4 [Hkept4 [Hother4 Hres4]]]]]].
  { change (links instC3) with (links instB). rewrite HlinksB. apply NoDup_ListNoDup, seq_NoDup. }
  { intros k Hin. change (links instC3) with (links instB) in Hin.
    rewrite HlinksB in Hin. apply in_seq in Hin.
    assert (Hj : exists l, nth_error ls (k - b) = Some l).
    { destruct (nth_error ls (k - b)) as [l|] eqn:Hl; [now exists l|].
      apply nth_error_None in Hl. lia. }
    destruct Hj as [l Hl].
    assert (Hl' : In l ls) by (eapply nth_error_In; exact Hl).
    unfold links_closed in Hclosed. rewrite forallb_forall in Hclosed.
    pose proof (Hclosed l Hl') as Hends. apply andb_true_iff in Hends.
    destruct Hends as [Hsrc Htgt].
    assert (HobjC : forall i n, nth_error ns i = Some n ->
              node_objects instC3 !! (a + i) = Some n).
    { intros i n Hi. change (node_objects instC3) with (node_objects instB).
      rewrite HobjB. now apply Hnew1. }
    destruct (names_node_found ns _ instC3 a Hsrc HnodesB HobjC) as [Hids [s Hs]].
    destruct (names_node_found ns _ instC3 a Htgt HnodesB HobjC) as [Hidt [t Ht]].
    exists (get l "source"), (get l "target"), l, s, t.
    split; [|now repeat split].
    change (link_objects instC3) with (link_objects instB).
    replace k with (b + (k - b)) by lia. now apply HnewB. }
  rewrite Hrun4. cbv beta iota.
  match goal with
  | |- context [(Return tt, ?x) = _] => set (inst' := x)
  end.
  exists inst'. split; [reflexivity|].
  destruct Hkept4 as [Hk4n [Hk4l [Hk4f [Hk4e [Hk4r Hk4y]]]]].
  assert (Hnodes' : nodes inst' = seq a (length ns)).
  { change (nodes inst') with (nodes instC4). rewrite Hk4n. exact HnodesB. }
  assert (Hlinks' : links inst' = seq b (length ls)).
  { change (links inst') with (links instC4). rewrite Hk4l. exact HlinksB. }
  assert (Hobj' : forall i n, nth_error ns i = Some n ->
            node_objects inst' !! (a + i) = Some n).
  { intros i n Hi. change (node_objects inst') with (node_objects instC4).
    rewrite Hobj4. change (node_objects instC3) with (node_objects instB).
    rewrite HobjB. now apply Hnew1. }
  assert (Hlink' : forall k, In k (seq b (length ls)) ->
            exists l s t,
              nth_error ls (k - b) = Some l /\
              link_objects inst' !! k
                = Some {| source := Node s; target := Node t; fields := l |} /\
              node_by_id instC3 (get l "source") = Some s /\
              node_by_id instC3 (get l "target") = Some t).
  { intros k Hin.
    destruct (Hres4 k) as [vs [vt [f [s [t [Hk [Hs [Ht Hfin]]]]]]]].
    { change (links instC3) with (links instB). now rewrite HlinksB. }
    apply in_seq in Hin.
    assert (Hj : exists l, nth_error ls (k - b) = Some l).
    { destruct (nth_error ls (k - b)) as [l|] eqn:Hl; [now exists l|].
      apply nth_error_None in Hl. lia. }
    destruct Hj as [l Hl].
    pose proof (HnewB (k - b) l Hl) as Hnew.
    replace (b + (k - b)) with k in Hnew by lia.
    change (link_objects instC3) with (link_objects instB) in Hk.
    rewrite Hnew in Hk. injection Hk as <- <- <-.
    exists l, s, t. split; [exact Hl|]. split; [exact Hfin|]. split; assumption. }
  split; [|split; [|split; [|split; [|split; [|split]]]]].
  - rewrite Hnodes'. apply map_seq_nth. intros i n Hi.
    exact (node_at_lookup _ _ _ (Hobj' i n Hi)).
  - rewrite Hlinks'. apply map_seq_nth. intros j l Hl.
    destruct (Hlink' (b + j)) as [l' [s [t [Hl' [Hk _]]]]].
    { apply in_seq. apply nth_error_lt in Hl. lia. }
    replace (b + j - b) with j in Hl' by lia.
    unfold link_at. rewrite Hk. cbn. congruence.
  - intros k Hin. rewrite Hlinks' in Hin.
    destruct (Hlink' k Hin) as [l [s [t [Hl [Hk [Hs Ht]]]]]].
    exists s, t. unfold link_at. rewrite Hk. cbn [default source target fields].
    split; [reflexivity|]. split; [reflexivity|].
    unfold node_by_id in Hs, Ht. apply find_some in Hs, Ht.
    destruct Hs as [Hs Hsid]. destruct Ht as [Ht Htid].
    rewrite <- in_rev in Hs, Ht.
    change (nodes instC3) with (nodes instB) in Hs, Ht.
    rewrite HnodesB in Hs, Ht. rewrite Hnodes'.
    split; [exact Hs|]. split; [exact Ht|].
    unfold node_at in *. change (node_objects inst') with (node_objects instC4).
    rewrite Hobj4. split; assumption.
  - intros k Hin.
    assert (Hk : In k (seq b (length ls))).
    { destruct Hin as [Hin | Hin].
      - now rewrite Hlinks' in Hin.
      - unfold current_force_links in Hin.
        change (force_links inst') with (force_links instC4) in Hin.
        rewrite Hk4f in Hin.
        change (In k (links inst')) in Hin. now rewrite Hlinks' in Hin. }
    destruct (Hlink' k Hk) as [l [s [t [_ [Hlk _]]]]].
    eexists. split; [exact Hlk|]. split; reflexivity.
  - split.
    + intros k Hk. change (node_objects inst') with (node_objects instC4) in Hk.
      rewrite Hobj4 in Hk. change (node_objects instC3) with (node_objects instB) in Hk.
      rewrite HobjB in Hk. change (next inst') with (next instC4). rewrite Hnext4.
      change (next instC3) with (next instB).
      rewrite HnextB.
      destruct (Hdom1 k Hk) as [Hin | Hlt]; [|lia].
      pose proof (Hwn k Hin). lia.
    + intros k Hk. change (next inst') with (next instC4). rewrite Hnext4.
      change (next instC3) with (next instB).
      rewrite HnextB.
      destruct (in_dec Nat.eq_dec k (seq b (length ls))) as [Hin | Hout].
      * apply in_seq in Hin. lia.
      * change (link_objects inst') with (link_objects instC4) in Hk.
        rewrite Hother4 in Hk by (change (links instC3) with (links instB);
                                  now rewrite HlinksB).
        change (link_objects instC3) with (link_objects instB) in Hk.
        destruct (HdomB k Hk) as [Hin | Hlt]; [|lia].
        pose proof (Hwl k Hin). lia.
  - change (elements inst') with (elements instC4). now rewrite Hk4e.
  - reflexivity.
Qed.

End D3SetData.

Lemma d3_in_instance_bind {A B} (containerId : string) (m : M D3Graph.instance A)
    (k : A -> M D3Graph.state B) (st : D3Graph.state) (n n' : D3Graph.instance) (a : A) :
  D3Graph.graphInstances st !! containerId = Some n ->
  m n = (Return a, n') ->
  bind (D3Graph.in_instance containerId m) k st
    = k a (D3Graph.set_instance containerId n' st).
Proof.
  intros Hinst Hrun. unfold bind. now rewrite (d3_in_instance_run _ _ _ _ Hinst), Hrun.
Qed.

Lemma d3_in_instance_throws {A B} (containerId : string) (m : M D3Graph.instance A)
    (k : A -> M D3Graph.state B) (st : D3Graph.state) (n n' : D3Graph.instance) (e : exn) :
  D3Graph.graphInstances st !! containerId = Some n ->
  m n = (Throw e, n') ->
  bind (D3Graph.in_instance containerId m) k st
    = (Throw e, D3Graph.set_instance containerId n' st).
Proof.
  intros Hinst Hrun. unfold bind. now rewrite (d3_in_instance_run _ _ _ _ Hinst), Hrun.
Qed.

Lemma d3_renderGraph_run (containerId : string) (st : D3Graph.state)
    (n : D3Graph.instance) :
  D3Graph.graphInstances st !! containerId = Some n ->
  D3Graph.renderGraph containerId st =
    (fst (D3Graph.renderGraph_instance n),
     D3Graph.set_instance containerId (snd (D3Graph.renderGraph_instance n)) st).
Proof.
  intros Hinst. unfold D3Graph.renderGraph, D3Graph.lookup_instance, bind.
  rewrite Hinst. cbn [slot_of]. apply (d3_in_instance_run _ _ _ _ Hinst).
Qed.

(** X19.  setData of the d3 module, on an instance whose links are all
    resolved, with link records that name a node record at both ends: the
    call answers true; the instance holds a copy of every node record and
    of every link record, in order; the link force has replaced the ids
    at both ends of each link by a node of the new data carrying that id;
    and the instance is again one whose links are all resolved, so the
    next call starts from the same footing. *)
Theorem d3_setData_resolves_links (containerId : string) (ns ls : list obj)
    (st : D3Graph.state) (inst : D3Graph.instance) :
  D3Graph.graphInstances st !! containerId = Some inst ->
  D3Graph.settled inst ->
  D3Graph.well_allocated inst ->
  D3Graph.links_closed ns ls = true ->
  fst (D3Graph.setData containerId ns ls st) = Return (VBool true) /\
  exists inst',
    D3Graph.graphInstances (snd (D3Graph.setData containerId ns ls st)) !! containerId
      = Some inst' /\
    map (D3Graph.node_at inst') (D3Graph.nodes inst') = ns /\
    map (fun k => D3Graph.fields (D3Graph.link_at inst' k)) (D3Graph.links inst') = ls /\
    (forall k, In k (D3Graph.links inst') ->
       exists s t,
         D3Graph.source (D3Graph.link_at inst' k) = D3Graph.Node s /\
         D3Graph.target (D3Graph.link_at inst' k) = D3Graph.Node t /\
         In s (D3Graph.nodes inst') /\ In t (D3Graph.nodes inst') /\
         strict_eq (get (D3Graph.node_at inst' s) "id")
                   (get (D3Graph.fields (D3Graph.link_at inst' k)) "source") = true /\
         strict_eq (get (D3Graph.node_at inst' t) "id")
                   (get (D3Graph.fields (D3Graph.link_at inst' k)) "target") = true) /\
    D3Graph.settled inst' /\ D3Graph.well_allocated inst' /\
    D3Graph.elements inst' = true /\ D3Graph.running inst' = true.
Proof.
  intros Hinst Hsettled Hwell Hclosed.
  destruct (d3_setData_instance ns ls inst Hsettled Hwell Hclosed)
    as [instA [instB [inst' [HmA [HmB [Hrender Hprops]]]]]].
  assert (Hrun : D3Graph.setData containerId ns ls st =
                 (Return (VBool true),
                  D3Graph.set_instance containerId inst'
                    (D3Graph.set_instance containerId instB
                       (D3Graph.set_instance containerId instA st)))).
  { unfold D3Graph.setData, D3Graph.lookup_instance. unfold bind at 1. rewrite Hinst. cbn [slot_of].
    rewrite (d3_in_instance_bind _ _ _ _ _ _ _ Hinst HmA).
    rewrite (d3_in_instance_bind _ _ _ _ _ _ _ (d3_set_instance_lookup _ _ _) HmB).
    unfold bind at 1.
    rewrite (d3_renderGraph_run _ _ _ (d3_set_instance_lookup _ _ _)).
    now rewrite Hrender. }
  rewrite Hrun. cbn [fst snd]. split; [reflexivity|].
  exists inst'. split; [apply d3_set_instance_lookup | exact Hprops].
Qed.

Lemma empty_instance_ready :
  D3Graph.settled D3Graph.empty_instance /\ D3Graph.well_allocated D3Graph.empty_instance.
Proof.
  split.
  - intros k [[] | []].
  - split; intros k [x Hx]; simpl in Hx; now rewrite lookup_empty in Hx.
Qed.

Lemma d3_setData_witness :
  fst (D3Graph.setData "graph"
         [[("id", VStr "a")]; [("id", VStr "b")]]
         [[("source", VStr "a"); ("target", VStr "b")]]
         (snd (D3Graph.initialize "graph" [] Examples.d3_page)))
    = Return (VBool true).
Proof.
  exact (proj1 (d3_setData_resolves_links "graph"
                  [[("id", VStr "a")]; [("id", VStr "b")]]
                  [[("source", VStr "a"); ("target", VStr "b")]]
                  (snd (D3Graph.initialize "graph" [] Examples.d3_page))
                  D3Graph.empty_instance eq_refl
                  (proj1 empty_instance_ready) (proj2 empty_instance_ready) eq_refl)).
Defined.

(** ** A link to a node the d3 graph does not hold *)

Section D3Stuck.
Import D3Graph.

Lemma link_at_lookup (inst : instance) (k : nat) (l : link) :
  link_objects inst !! k = Some l -> link_at inst k = l.
Proof.
  intros Hk.
  exact (f_equal (default {| source := Given VUndefined; target := Given VUndefined;
                             fields := [] |}) Hk).
Qed.

Lemma initialize_link_unknown_source (k : nat) (inst : instance) (l : link) (v : value) :
  link_objects inst !! k = Some l ->
  source l = Given v -> is_id v = true -> node_by_id inst v = None ->
  initialize_link k inst = (Throw Error, inst).
Proof.
  intros Hk Hsrc Hid Hnone. unfold initialize_link.
  rewrite (link_at_lookup _ _ _ Hk).
  now rewrite Hsrc, (resolve_id _ _ Hid), Hnone.
Qed.

(** The link force stops at the first link whose source names no node;
    the links before it are resolved already and stay as they are. *)
Lemma for_each_stuck (pre post : list nat) (k : nat) (inst : instance) (l : link)
    (v : value) :
  (forall k', In k' pre ->
     exists l', link_objects inst !! k' = Some l' /\
                resolved (source l') = true /\ resolved (target l') = true) ->
  link_objects inst !! k = Some l ->
  source l = Given v -> is_id v = true -> node_by_id inst v = None ->
  for_each (pre ++ k :: post) initialize_link inst = (Throw Error, inst).
Proof.
  intros Hpre Hk Hsrc Hid Hnone.
  rewrite for_each_app, (for_each_settled pre inst Hpre).
  cbn [for_each]. unfold bind.
  now rewrite (initialize_link_unknown_source k inst l v Hk Hsrc Hid Hnone).
Qed.

Lemma clearGraph_stuck (containerId : string) (st : state) (inst : instance) :
  graphInstances st !! containerId = Some inst ->
  stuck inst ->
  exists st' inst',
    clearGraph containerId st = (Throw Error, st') /\
    graphInstances st' !! containerId = Some inst' /\
    stuck inst' /\ nodes inst' = [] /\ links inst' = [].
Proof.
  intros Hinst [pre [k [post [l [v [Hforce [Hpre [Hk [Hsrc Hid]]]]]]]]].
  set (instA := snd (set_nodes [] inst)).
  assert (HA : set_nodes [] inst = (Return tt, instA)) by reflexivity.
  set (instB := snd (set_links [] instA)).
  assert (HB : set_links [] instA = (Return tt, instB)) by reflexivity.
  assert (HforceB : force_links instB = Some (pre ++ k :: post)).
  { cbn. now rewrite <- Hforce. }
  set (instC := {| node_objects := node_objects instB; link_objects := link_objects instB;
                   next := next instB; nodes := nodes instB; links := links instB;
                   force_links := force_links instB;
                   elements := true; running := running instB;
                   layered := layered instB |}).
  assert (Hrender : renderGraph_instance instB = (Throw Error, instC)).
  { cbv beta iota delta [renderGraph_instance bind modify read].
    fold instC.
    assert (Hcur : current_force_links instC = pre ++ k :: post).
    { unfold current_force_links. change (force_links instC) with (force_links instB).
      now rewrite HforceB. }
    rewrite Hcur.
    now rewrite (for_each_stuck pre post k instC l v Hpre Hk Hsrc Hid eq_refl). }
  exists (set_instance containerId instC
            (set_instance containerId instB (set_instance containerId instA st))), instC.
  split; [|split; [apply d3_set_instance_lookup|split; [|split; reflexivity]]].
  - unfold clearGraph, lookup_instance. unfold bind at 1. rewrite Hinst. cbn [slot_of].
    rewrite (d3_in_instance_bind _ _ _ _ _ _ _ Hinst HA).
    rewrite (d3_in_instance_bind _ _ _ _ _ _ _ (d3_set_instance_lookup _ _ _) HB).
    unfold bind at 1.
    rewrite (d3_renderGraph_run _ _ _ (d3_set_instance_lookup _ _ _)).
    now rewrite Hrender.
  - exists pre, k, post, l, v. split.
    + unfold current_force_links. change (force_links instC) with (force_links instB).
      now rewrite HforceB.
    + split; [exact Hpre|]. split; [exact Hk|]. split; assumption.
Qed.

Lemma addLink_unknown_source (containerId : string) (l : obj) (st : state)
    (inst : instance) :
  graphInstances st !! containerId = Some inst ->
  settled inst -> well_allocated inst ->
  is_id (get l "source") = true ->
  node_by_id inst (get l "source") = None ->
  exists st' inst',
    addLink containerId l st = (Throw Error, st') /\
    graphInstances st' !! containerId = Some inst' /\
    stuck inst' /\
    nodes inst' = nodes inst /\
    links inst' = links inst ++ [next inst] /\
    fields (link_at inst' (next inst)) = l.
Proof.
  intros Hinst Hsettled [_ Hwl] Hid Hnone.
  set (fresh := {| source := Given (get l "source"); target := Given (get l "target");
                   fields := l |}).
  set (instA := snd ((let! k := new_link l in push_link k) inst)).
  assert (HA : (let! k := new_link l in push_link k) inst = (Return tt, instA))
    by reflexivity.
  assert (HlinkA : link_objects instA !! next inst = Some fresh)
    by (cbn; apply lookup_insert_eq).
  assert (HoldA : forall k', In k' (links inst) \/ In k' (current_force_links inst) ->
            exists l', link_objects instA !! k' = Some l' /\
                       resolved (source l') = true /\ resolved (target l') = true).
  { intros k' Hin. destruct (Hsettled k' Hin) as [l' [Hl' Hres]].
    exists l'. split; [|exact Hres]. cbn. rewrite lookup_insert_ne; [exact Hl'|].
    intros <-. assert (next inst < next inst); [|lia]. apply Hwl. now rewrite Hl'. }
  assert (HnoneA : forall i, node_objects i = node_objects instA -> nodes i = nodes instA ->
            node_by_id i (get l "source") = None).
  { intros i Hobj Hnodes. rewrite (node_by_id_same instA i) by assumption. exact Hnone. }
  assert (Hrender : exists instC,
            renderGraph_instance instA = (Throw Error, instC) /\
            current_force_links instC = links inst ++ [next inst] /\
            link_objects instC = link_objects instA /\
            nodes instC = nodes inst /\ links instC = links inst ++ [next inst]).
  { cbv beta iota delta [renderGraph_instance bind modify read].
    match goal with
    | |- context [for_each (current_force_links ?x) initialize_link ?x] => set (instC1 := x)
    end.
    destruct (force_links inst) as [F|] eqn:HF.
    - assert (Hcur : current_force_links instC1 = F).
      { unfold current_force_links. change (force_links instC1) with (force_links inst).
        now rewrite HF. }
      rewrite Hcur.
      rewrite (for_each_settled F instC1).
      2:{ intros k' Hin. apply HoldA. right. unfold current_force_links. now rewrite HF. }
      cbv beta iota.
      match goal with
      | |- context [for_each (links ?x) initialize_link ?x] => set (instC3 := x)
      end.
      change (links instC3) with (links inst ++ [next inst]).
      rewrite (for_each_stuck (links inst) [] (next inst) instC3 fresh (get l "source")).
      + exists instC3. split; [reflexivity|]. repeat split; reflexivity.
      + intros k' Hin. apply HoldA. now left.
      + exact HlinkA.
      + reflexivity.
      + exact Hid.
      + now apply HnoneA.
    - assert (Hcur : current_force_links instC1 = links inst ++ [next inst]).
      { unfold current_force_links. change (force_links instC1) with (force_links inst).
        now rewrite HF. }
      rewrite Hcur.
      rewrite (for_each_stuck (links inst) [] (next inst) instC1 fresh (get l "source")).
      + exists instC1. split; [reflexivity|]. split; [exact Hcur|].
        repeat split; reflexivity.
      + intros k' Hin. apply HoldA. now left.
      + exact HlinkA.
      + reflexivity.
      + exact Hid.
      + now apply HnoneA. }
  destruct Hrender as [instC [Hrender [Hcur [Hobj [Hnodes Hlinks]]]]].
  exists (set_instance containerId instC (set_instance containerId instA st)), instC.
  split; [|split; [apply d3_set_instance_lookup|split; [|split; [exact Hnodes|split]]]].
  - unfold addLink, lookup_instance. unfold bind at 1. rewrite Hinst. cbn [slot_of].
    rewrite (d3_in_instance_bind _ _ _ _ _ _ _ Hinst HA).
    unfold bind at 1.
    rewrite (d3_renderGraph_run _ _ _ (d3_set_instance_lookup _ _ _)).
    now rewrite Hrender.
  - exists (links inst), (next inst), [], fresh, (get l "source").
    split; [exact Hcur|]. rewrite Hobj. split.
    + intros k' Hin. apply HoldA. now left.
    + split; [exact HlinkA|]. split; [reflexivity | exact Hid].
  - exact Hlinks.
  - rewrite (link_at_lookup instC (next inst) fresh); [reflexivity|]. now rewrite Hobj.
Qed.

End D3Stuck.

(** X20.  addLink of the d3 module with a source id that no node of the
    graph carries: the link force's "node not found" Error leaves the
    call uncaught, after the link was put into the instance.  The graph
    is then stuck: clearGraph throws the same Error, and throws it again
    when called a second time, because the link force still holds the
    link and meets it before it is handed the emptied array. *)
Theorem d3_link_to_unknown_node_sticks (containerId : string) (l : obj)
    (st : D3Graph.state) (inst : D3Graph.instance) :
  D3Graph.graphInstances st !! containerId = Some inst ->
  D3Graph.settled inst ->
  D3Graph.well_allocated inst ->
  is_id (get l "source") = true ->
  D3Graph.node_by_id inst (get l "source") = None ->
  fst (D3Graph.addLink containerId l st) = Throw Error /\
  (exists inst',
     D3Graph.graphInstances (snd (D3Graph.addLink containerId l st)) !! containerId
       = Some inst' /\
     D3Graph.nodes inst' = D3Graph.nodes inst /\
     D3Graph.links inst' = D3Graph.links inst ++ [D3Graph.next inst] /\
     D3Graph.fields (D3Graph.link_at inst' (D3Graph.next inst)) = l) /\
  fst (D3Graph.clearGraph containerId (snd (D3Graph.addLink containerId l st)))
    = Throw Error /\
  fst (D3Graph.clearGraph containerId
         (snd (D3Graph.clearGraph containerId
                 (snd (D3Graph.addLink containerId l st)))))
    = Throw Error.
Proof.
  intros Hinst Hsettled Hwell Hid Hnone.
  destruct (addLink_unknown_source containerId l st inst Hinst Hsettled Hwell Hid Hnone)
    as [st1 [inst1 [Hrun1 [Hinst1 [Hstuck1 [Hnodes1 [Hlinks1 Hfields1]]]]]]].
  destruct (clearGraph_stuck containerId st1 inst1 Hinst1 Hstuck1)
    as [st2 [inst2 [Hrun2 [Hinst2 [Hstuck2 _]]]]].
  destruct (clearGraph_stuck containerId st2 inst2 Hinst2 Hstuck2)
    as [st3 [inst3 [Hrun3 _]]].
  rewrite Hrun1. cbn [fst snd]. rewrite Hrun2. cbn [fst snd]. rewrite Hrun3.
  split; [reflexivity|]. split; [|split; reflexivity].
  exists inst1. split; [exact Hinst1|]. split; [exact Hnodes1|]. split; assumption.
Qed.

Lemma d3_link_to_unknown_node_witness :
  fst (D3Graph.addLink "graph" [("source", VStr "a"); ("target", VStr "b")]
         (snd (D3Graph.initialize "graph" [] Examples.d3_page)))
    = Throw Error.
Proof.
  exact (proj1 (d3_link_to_unknown_node_sticks "graph"
                  [("source", VStr "a"); ("target", VStr "b")]
                  (snd (D3Graph.initialize "graph" [] Examples.d3_page))
                  D3Graph.empty_instance eq_refl
                  (proj1 empty_instance_ready) (proj2 empty_instance_ready)
                  eq_refl eq_refl)).
Defined.

(** ** Pages stay in order *)

Lemma same_identity_refl (n : Vis.Network) : Marks.same_identity n n.
Proof. split; reflexivity. Qed.

Lemma same_identity_trans (n1 n2 n3 : Vis.Network) :
  Marks.same_identity n1 n2 -> Marks.same_identity n2 n3 -> Marks.same_identity n1 n3.
Proof. intros [H1 H2] [H1' H2']. split; congruence. Qed.

Lemma entry_kept_refl (o : option Vis.Network) : Marks.entry_kept o o.
Proof. destruct o; [apply same_identity_refl | exact I]. Qed.

Lemma entry_kept_trans (o1 o2 o3 : option Vis.Network) :
  Marks.entry_kept o1 o2 -> Marks.entry_kept o2 o3 -> Marks.entry_kept o1 o3.
Proof. destruct o1, o2, o3; simpl; try tauto. apply same_identity_trans. Qed.




(** The steps on a network that keep the object and its usability. *)
Lemma on_nodes_identity {A} (m : M Vis.DataSet A) :
  Marks.keeps Marks.same_identity (Vis.on_nodes m).
Proof. intros n. rewrite on_nodes_run. split; reflexivity. Qed.

Lemma on_edges_identity {A} (m : M Vis.DataSet A) :
  Marks.keeps Marks.same_identity (Vis.on_edges m).
Proof. intros n. rewrite on_edges_run. split; reflexivity. Qed.

Lemma same_graph_identity {A} (m : M Vis.Network A) :
  Marks.keeps Marks.same_graph m -> Marks.keeps Marks.same_identity m.
Proof. intros Hm n. destruct (Hm n) as [_ [_ [Ha Hh]]]. now split. Qed.

Lemma for_each_item_identity (ds_of : Vis.Network -> Vis.DataSet)
    (body : obj -> M Vis.Network unit) :
  (forall it, Marks.keeps Marks.same_identity (body it)) ->
  Marks.keeps Marks.same_identity (Vis.for_each_item ds_of body).
Proof.
  intros Hbody n. unfold Vis.for_each_item.
  apply (for_each_keeps Marks.same_identity);
    [exact same_identity_refl | exact same_identity_trans |].
  intros id n'. destruct (Vis.find_item (ds_of n') id);
    [apply Hbody | apply same_identity_refl].
Qed.












Lemma empty_page_coherent : Marks.coherent Examples.empty_page.
Proof.
  split; [|split].
  - intros k n Hn. simpl in Hn. now rewrite lookup_empty in Hn.
  - intros k1 k2 n1 n2 Hn. simpl in Hn. now rewrite lookup_empty in Hn.
  - constructor.
Qed.



(** ** Journeys stay in order *)

Lemma journey_identities_kept_refl (st : JourneyBuilder.state) :
  Marks.journey_identities_kept st st.
Proof. split; [reflexivity|]. split; [reflexivity|]. intros k. apply entry_kept_refl. Qed.

Lemma journey_identities_kept_trans (s1 s2 s3 : JourneyBuilder.state) :
  Marks.journey_identities_kept s1 s2 -> Marks.journey_identities_kept s2 s3 ->
  Marks.journey_identities_kept s1 s3.
Proof.
  intros [H1 [H0 H2]] [H1' [H0' H2']]. split; [congruence|]. split; [congruence|].
  intros k. eapply entry_kept_trans; [apply H2 | apply H2'].
Qed.

Lemma journey_coherent_kept (st st' : JourneyBuilder.state) :
  Marks.journey_coherent st -> Marks.journey_identities_kept st st' ->
  Marks.journey_coherent st'.
Proof.
  intros [Hlive [Hinj [Hfresh Hrefs]]] [Henv [Hdot Hkept]].
  assert (Hback : forall k n', JourneyBuilder.networks st' !! k = Some n' ->
            exists n, JourneyBuilder.networks st !! k = Some n /\ Marks.same_identity n n').
  { intros k n' Hn'. pose proof (Hkept k) as Hk. rewrite Hn' in Hk.
    destruct (JourneyBuilder.networks st !! k) as [n|]; [|destruct Hk]. now exists n. }
  split; [|split; [|split]].
  - intros k n' Hn'. destruct (Hback k n' Hn') as [n [Hn [Ha Hh]]].
    destruct (Hlive k n Hn) as [Halive Hin]. rewrite Ha, Hh, Henv. now split.
  - intros k1 k2 n1' n2' H1 H2 Heq.
    destruct (Hback k1 n1' H1) as [n1 [Hn1 [_ Hh1]]].
    destruct (Hback k2 n2' H2) as [n2 [Hn2 [_ Hh2]]].
    apply (Hinj k1 k2 n1 n2 Hn1 Hn2). congruence.
  - now rewrite Henv.
  - intros k. rewrite Hdot, <- Hrefs. pose proof (Hkept k) as Hk.
    destruct (JourneyBuilder.networks st !! k), (JourneyBuilder.networks st' !! k);
      simpl in Hk; try contradiction; split; intros [x Hx]; try discriminate; eauto.
Qed.

Lemma in_network_identities {A} (containerId : string) (m : M Vis.Network A) :
  Marks.keeps Marks.same_identity m ->
  Marks.keeps Marks.journey_identities_kept (JourneyBuilder.in_network containerId m).
Proof.
  intros Hm st. unfold JourneyBuilder.in_network.
  destruct (JourneyBuilder.networks st !! containerId) as [n|] eqn:Hnet;
    [|apply journey_identities_kept_refl].
  pose proof (Hm n) as Hn. destruct (m n) as [r n']. cbn [snd] in *.
  split; [reflexivity|]. split; [reflexivity|].
  intros k. unfold JourneyBuilder.set_network. cbn [JourneyBuilder.networks].
  destruct (decide (k = containerId)) as [-> | Hne].
  - now rewrite Hnet, lookup_insert_eq.
  - rewrite lookup_insert_ne by congruence. apply entry_kept_refl.
Qed.

Lemma reading_identity {A} (f : Vis.Network -> A) :
  Marks.keeps Marks.same_identity (fun n => (Return (f n), n)).
Proof. intros n. apply same_identity_refl. Qed.

(** The same construction for the journey builder's functions. *)
Ltac journey_identity_steps :=
  repeat first
    [ apply keeps_bind; [apply journey_identities_kept_trans | | intros ?]
    | apply keeps_ret; apply journey_identities_kept_refl
    | apply for_each_keeps;
      [apply journey_identities_kept_refl | apply journey_identities_kept_trans | intros ?]
    | apply in_network_identities
    | apply on_nodes_identity
    | apply on_edges_identity
    | apply for_each_item_identity; intros ?
    | apply reading_identity
    | apply same_graph_identity;
      first [ apply focus_same_graph | apply selectNodes_same_graph
            | apply setOptions_same_graph | apply toDataURL_same_graph
            | apply method_same_graph; apply ask_same_graph ]
    | match goal with
      | |- Marks.keeps _ (match ?o with Some _ => _ | None => _ end) => destruct o as [[|]|]
      | |- Marks.keeps _ (match ?l with [] => _ | _ :: _ => _ end) => destruct l
      | |- Marks.keeps _ (if ?b then _ else _) => destruct b
      end
    | (intros ?; apply journey_identities_kept_refl) ].

Lemma journey_initialize_coherent (containerId : string) (dotNetRef : value)
    (options : obj) (st : JourneyBuilder.state) :
  Marks.journey_coherent st ->
  Marks.journey_coherent (snd (JourneyBuilder.initialize containerId dotNetRef options st)).
Proof.
  intros Hco.
  unfold JourneyBuilder.initialize, bind, read, ret, JourneyBuilder.in_env,
    Vis.new_network, modify.
  destruct (Vis.getElementById (JourneyBuilder.env st) containerId); cbn [negb fst snd];
    [|exact Hco].
  destruct Hco as [Hlive [Hinj [Hfresh Hrefs]]].
  assert (Hlt : forall k n, JourneyBuilder.networks st !! k = Some n ->
            Vis.handle n < Vis.fresh (JourneyBuilder.env st)).
  { intros k n Hn. destruct (Hlive k n Hn) as [_ Hin].
    rewrite Forall_forall in Hfresh. apply Hfresh. now apply list_elem_of_In. }
  split; [|split; [|split]];
    cbn [JourneyBuilder.env JourneyBuilder.networks JourneyBuilder.dotNetRefs
         Vis.live Vis.fresh].
  - intros k n Hn. destruct (decide (k = containerId)) as [-> | Hne].
    + rewrite lookup_insert_eq in Hn. injection Hn as <-. cbn.
      split; [reflexivity|]. apply in_or_app. right. now left.
    + rewrite lookup_insert_ne in Hn by congruence.
      destruct (Hlive k n Hn) as [Ha Hin]. split; [exact Ha|].
      apply in_or_app. now left.
  - intros k1 k2 n1 n2 H1 H2 Heq.
    destruct (decide (k1 = containerId)) as [-> | Hne1];
      destruct (decide (k2 = containerId)) as [-> | Hne2]; [reflexivity| | |].
    + rewrite lookup_insert_eq in H1. injection H1 as <-.
      rewrite lookup_insert_ne in H2 by congruence.
      pose proof (Hlt k2 n2 H2). cbn in Heq. lia.
    + rewrite lookup_insert_eq in H2. injection H2 as <-.
      rewrite lookup_insert_ne in H1 by congruence.
      pose proof (Hlt k1 n1 H1). cbn in Heq. lia.
    + rewrite lookup_insert_ne in H1, H2 by congruence.
      exact (Hinj k1 k2 n1 n2 H1 H2 Heq).
  - apply Forall_app. split.
    + eapply Forall_impl; [exact Hfresh|]. intros h Hh. cbn beta in *. lia.
    + constructor; [lia | constructor].
  - intros k. destruct (decide (k = containerId)) as [-> | Hne].
    + rewrite !lookup_insert_eq. split; intros _; eauto.
    + rewrite !lookup_insert_ne by congruence. apply Hrefs.
Qed.

Lemma journey_destroy_coherent (containerId : string) (st : JourneyBuilder.state) :
  Marks.journey_coherent st ->
  Marks.journey_coherent (snd (JourneyBuilder.destroy containerId st)).
Proof.
  intros Hco.
  destruct (JourneyBuilder.networks st !! containerId) as [old|] eqn:Hold.
  - rewrite (journey_destroy_live _ _ _ Hold). cbn [snd].
    destruct Hco as [Hlive [Hinj [Hfresh Hrefs]]].
    split; [|split; [|split]];
      cbn [JourneyBuilder.env JourneyBuilder.networks JourneyBuilder.dotNetRefs].
    + intros k n Hn. apply lookup_delete_Some in Hn. destruct Hn as [Hne Hn].
      destruct (Hlive k n Hn) as [Ha Hin]. split; [exact Ha|].
      apply release_keeps; [|exact Hin].
      intros Heq. apply Hne. symmetry. exact (Hinj k containerId n old Hn Hold Heq).
    + intros k1 k2 n1 n2 H1 H2 Heq.
      apply lookup_delete_Some in H1, H2. destruct H1 as [_ H1]. destruct H2 as [_ H2].
      exact (Hinj k1 k2 n1 n2 H1 H2 Heq).
    + unfold Vis.release. cbn [Vis.live Vis.fresh].
      rewrite Forall_forall in Hfresh |- *. intros h Hh.
      apply Hfresh. apply list_elem_of_In. apply list_elem_of_In in Hh.
      apply filter_In in Hh. tauto.
    + intros k. destruct (decide (k = containerId)) as [-> | Hne].
      * rewrite !lookup_delete_eq. split; intros [x Hx]; discriminate.
      * rewrite !lookup_delete_ne by congruence. apply Hrefs.
  - destruct (inherited containerId) eqn:Hname.
    + now rewrite (journey_destroy_member _ _ Hold Hname).
    + now rewrite (journey_destroy_missing _ _ Hold Hname).
Qed.

(** X22.  The journey builder keeps its state in order.  If every
    registered network is usable and held by the library, no network is
    registered under two ids, and an id has a network exactly when it has
    a host reference, then the same is true after any call of
    journeyBuilderGraph, whatever the arguments, and also when the call
    throws. *)
Theorem journey_stays_coherent (containerId : string) (st : JourneyBuilder.state) :
  Marks.journey_coherent st ->
  (forall dotNetRef options,
     Marks.journey_coherent
       (snd (JourneyBuilder.initialize containerId dotNetRef options st))) /\
  (forall nodeData,
     Marks.journey_coherent (snd (JourneyBuilder.addNode containerId nodeData st))) /\
  (forall edgeData,
     Marks.journey_coherent (snd (JourneyBuilder.addEdge containerId edgeData st))) /\
  (forall nodeId,
     Marks.journey_coherent (snd (JourneyBuilder.removeNode containerId nodeId st))) /\
  (forall edgeId,
     Marks.journey_coherent (snd (JourneyBuilder.removeEdge containerId edgeId st))) /\
  (forall nodeId updates,
     Marks.journey_coherent
       (snd (JourneyBuilder.updateNode containerId nodeId updates st))) /\
  (forall edgeId updates,
     Marks.journey_coherent
       (snd (JourneyBuilder.updateEdge containerId edgeId updates st))) /\
  (forall data,
     Marks.journey_coherent (snd (JourneyBuilder.loadData containerId data st))) /\
  Marks.journey_coherent (snd (JourneyBuilder.getData containerId st)) /\
  (forall nodeId,
     Marks.journey_coherent (snd (JourneyBuilder.focusNode containerId nodeId st))) /\
  (forall nodeIds,
     Marks.journey_coherent (snd (JourneyBuilder.highlightPath containerId nodeIds st))) /\
  Marks.journey_coherent (snd (JourneyBuilder.resetHighlight containerId st)) /\
  Marks.journey_coherent (snd (JourneyBuilder.fit containerId st)) /\
  Marks.journey_coherent (snd (JourneyBuilder.clear containerId st)) /\
  (forall enabled,
     Marks.journey_coherent (snd (JourneyBuilder.setPhysics containerId enabled st))) /\
  Marks.journey_coherent (snd (JourneyBuilder.stabilize containerId st)) /\
  Marks.journey_coherent (snd (JourneyBuilder.exportToPNG containerId st)) /\
  Marks.journey_coherent (snd (JourneyBuilder.validate containerId st)) /\
  Marks.journey_coherent (snd (JourneyBuilder.destroy containerId st)).
Proof.
  intros Hco.
  repeat match goal with |- _ /\ _ => split end; intros;
    try (now apply journey_initialize_coherent);
    try (now apply journey_destroy_coherent);
    apply (journey_coherent_kept st); try exact Hco;
    match goal with
    | |- Marks.journey_identities_kept _ (snd (?f _)) =>
        let m := constr:(f) in
        assert (Hk : Marks.keeps Marks.journey_identities_kept m); [|exact (Hk st)]
    end;
    unfold JourneyBuilder.addNode, JourneyBuilder.addEdge, JourneyBuilder.removeNode,
      JourneyBuilder.removeEdge, JourneyBuilder.updateNode, JourneyBuilder.updateEdge,
      JourneyBuilder.loadData, JourneyBuilder.getData, JourneyBuilder.focusNode,
      JourneyBuilder.highlightPath, JourneyBuilder.resetHighlight, JourneyBuilder.fit,
      JourneyBuilder.clear, JourneyBuilder.setPhysics, JourneyBuilder.stabilize,
      JourneyBuilder.exportToPNG, JourneyBuilder.validate, JourneyBuilder.lookup_network;
    cbv zeta; journey_identity_steps.
Qed.

Lemma journey_page_coherent : Marks.journey_coherent (Examples.journey_page [] []).
Proof.
  split; [|split; [|split]].
  - intros k n Hn. unfold Examples.journey_page in Hn. cbn in Hn.
    apply lookup_singleton_Some in Hn. destruct Hn as [_ <-]. split; [reflexivity|].
    now left.
  - intros k1 k2 n1 n2 H1 H2 _. unfold Examples.journey_page in H1, H2. cbn in H1, H2.
    apply lookup_singleton_Some in H1, H2. destruct H1 as [<- _]. now destruct H2 as [<- _].
  - repeat constructor.
  - intros k. unfold Examples.journey_page.
    cbn [JourneyBuilder.networks JourneyBuilder.dotNetRefs].
    destruct (decide (k = "journey")) as [-> | Hne].
    + rewrite !lookup_singleton_eq. split; intros _; eauto.
    + rewrite !lookup_singleton_ne by congruence. split; intros [x Hx]; discriminate.
Qed.

Lemma journey_stays_coherent_witness :
  Marks.journey_coherent
    (snd (JourneyBuilder.destroy "journey" (Examples.journey_page [] []))).
Proof.
  exact (proj2 (proj2 (proj2 (proj2 (proj2 (proj2 (proj2 (proj2 (proj2
           (proj2 (proj2 (proj2 (proj2 (proj2 (proj2 (proj2 (proj2 (proj2
           (journey_stays_coherent "journey" (Examples.journey_page [] [])
              journey_page_coherent))))))))))))))))))).
Defined.

(** ** A d3 graph stays settled *)

Section D3Settled.
Import D3Graph.

Lemma rendered_settled (inst : instance) : settled inst -> settled (rendered inst).
Proof.
  intros Hs k Hk. apply Hs. left.
  destruct Hk as [Hk | Hk]; exact Hk.
Qed.

Lemma d3_render_settled_run (containerId : string) (st : state) (inst : instance) :
  graphInstances st !! containerId = Some inst ->
  settled inst ->
  renderGraph containerId st = (Return tt, set_instance containerId (rendered inst) st).
Proof.
  intros Hinst Hs. rewrite (d3_renderGraph_run _ _ _ Hinst).
  now rewrite (render_settled _ Hs).
Qed.

Lemma d3_addNode_settled (containerId : string) (node : obj) (st : state)
    (inst : instance) :
  graphInstances st !! containerId = Some inst ->
  settled inst -> well_allocated inst ->
  exists st' inst',
    addNode containerId node st = (Return (VBool true), st') /\
    graphInstances st' !! containerId = Some inst' /\
    nodes inst' = nodes inst ++ [next inst] /\
    node_at inst' (next inst) = node /\
    (forall k, k < next inst -> node_at inst' k = node_at inst k) /\
    links inst' = links inst /\
    (forall k, link_at inst' k = link_at inst k) /\
    settled inst' /\ well_allocated inst'.
Proof.
  intros Hinst Hs [Hwn Hwl].
  set (instA := snd ((let! k := new_node node in push_node k) inst)).
  assert (HA : (let! k := new_node node in push_node k) inst = (Return tt, instA))
    by reflexivity.
  assert (HsA : settled instA).
  { intros k Hk. exact (Hs k Hk). }
  exists (set_instance containerId (rendered instA) (set_instance containerId instA st)),
         (rendered instA).
  split; [|split; [apply d3_set_instance_lookup|]].
  - unfold addNode, lookup_instance. unfold bind at 1. rewrite Hinst. cbn [slot_of].
    rewrite (d3_in_instance_bind _ _ _ _ _ _ _ Hinst HA).
    unfold bind at 1.
    now rewrite (d3_render_settled_run _ _ _ (d3_set_instance_lookup _ _ _) HsA).
  - split; [reflexivity|]. split; [|split; [|split; [reflexivity|split; [reflexivity|]]]].
    + unfold node_at. cbn. now rewrite lookup_insert_eq.
    + intros k Hk. unfold node_at. cbn. rewrite lookup_insert_ne by lia. reflexivity.
    + split; [now apply rendered_settled|]. split.
      * intros k Hk. cbn in Hk |- *.
        destruct (decide (k = next inst)) as [-> | Hne]; [lia|].
        rewrite lookup_insert_ne in Hk by congruence. pose proof (Hwn k Hk). lia.
      * intros k Hk. cbn in Hk |- *. pose proof (Hwl k Hk). lia.
Qed.

Lemma d3_clearGraph_settled (containerId : string) (st : state) (inst : instance) :
  graphInstances st !! containerId = Some inst ->
  settled inst -> well_allocated inst ->
  exists st' inst',
    clearGraph containerId st = (Return (VBool true), st') /\
    graphInstances st' !! containerId = Some inst' /\
    nodes inst' = [] /\ links inst' = [] /\
    settled inst' /\ well_allocated inst'.
Proof.
  intros Hinst Hs Hw.
  set (instA := snd (set_nodes [] inst)).
  assert (HA : set_nodes [] inst = (Return tt, instA)) by reflexivity.
  set (instB := snd (set_links [] instA)).
  assert (HB : set_links [] instA = (Return tt, instB)) by reflexivity.
  assert (HsB : settled instB).
  { intros k [[] | Hk]. apply Hs. right. exact Hk. }
  exists (set_instance containerId (rendered instB)
            (set_instance containerId instB (set_instance containerId instA st))),
         (rendered instB).
  split; [|split; [apply d3_set_instance_lookup|]].
  - unfold clearGraph, lookup_instance. unfold bind at 1. rewrite Hinst. cbn [slot_of].
    rewrite (d3_in_instance_bind _ _ _ _ _ _ _ Hinst HA).
    rewrite (d3_in_instance_bind _ _ _ _ _ _ _ (d3_set_instance_lookup _ _ _) HB).
    unfold bind at 1.
    now rewrite (d3_render_settled_run _ _ _ (d3_set_instance_lookup _ _ _) HsB).
  - split; [reflexivity|]. split; [reflexivity|].
    split; [now apply rendered_settled | exact Hw].
Qed.

Lemma d3_removeNode_settled (containerId : string) (nodeId : value) (st : state)
    (inst : instance) :
  graphInstances st !! containerId = Some inst ->
  settled inst -> well_allocated inst ->
  exists st' inst',
    removeNode containerId nodeId st = (Return (VBool true), st') /\
    graphInstances st' !! containerId = Some inst' /\
    nodes inst' =
      List.filter (fun k => negb (strict_eq (get (node_at inst k) "id") nodeId))
                  (nodes inst) /\
    (forall k, In k (links inst') -> In k (links inst)) /\
    (forall k, node_at inst' k = node_at inst k) /\
    settled inst' /\ well_allocated inst'.
Proof.
  intros Hinst Hs Hw.
  pose (ns := List.filter (fun k => negb (strict_eq (get (node_at inst k) "id") nodeId))
                          (nodes inst)).
  pose (inst1 := snd (set_nodes ns inst)).
  destruct (filter_links_settled inst1 nodeId (links inst1)) as [kept [Hkept Hall]].
  { intros k Hk. apply Hs. left. exact Hk. }
  pose (inst2 := snd (set_links kept inst1)).
  assert (Hs2 : settled inst2).
  { intros k [Hk | Hk].
    - apply Hs. left. simpl in Hk. now apply (Hall k).
    - apply Hs. right. exact Hk. }
  assert (H1 : (let! i := read in
                set_nodes (List.filter
                             (fun k => negb (strict_eq (get (node_at i k) "id") nodeId))
                             (nodes i))) inst = (Return tt, inst1)) by reflexivity.
  assert (H2 : (let! i := read in
                match filter_links i nodeId (links i) with
                | Throw e => throw e
                | Return kept => set_links kept
                end) inst1 = (Return tt, inst2)).
  { unfold bind, read. now rewrite Hkept. }
  exists (set_instance containerId (rendered inst2)
            (set_instance containerId inst2 (set_instance containerId inst1 st))),
         (rendered inst2).
  split; [|split; [apply d3_set_instance_lookup|]].
  - unfold removeNode, lookup_instance. unfold bind at 1. rewrite Hinst. cbn [slot_of].
    rewrite (d3_in_instance_bind _ _ _ _ _ _ _ Hinst H1).
    rewrite (d3_in_instance_bind _ _ _ _ _ _ _ (d3_set_instance_lookup _ _ _) H2).
    unfold bind at 1.
    now rewrite (d3_render_settled_run _ _ _ (d3_set_instance_lookup _ _ _) Hs2).
  - split; [reflexivity|]. split; [|split; [reflexivity|]].
    + intros k Hk. simpl in Hk. now apply (Hall k).
    + split; [now apply rendered_settled | exact Hw].
Qed.

End D3Settled.

(** X23.  A d3 graph whose links are all resolved stays that way under
    addNode, clearGraph and removeNode, and these calls then always answer
    true.  addNode appends a copy of the record, whether or not a node
    with its id is there already, and touches no other node and no link;
    clearGraph leaves no node and no link; removeNode keeps exactly the
    nodes carrying another id and drops links only. *)
Theorem d3_graph_stays_settled (containerId : string) (st : D3Graph.state)
    (inst : D3Graph.instance) :
  D3Graph.graphInstances st !! containerId = Some inst ->
  D3Graph.settled inst ->
  D3Graph.well_allocated inst ->
  (forall node,
     fst (D3Graph.addNode containerId node st) = Return (VBool true) /\
     exists inst',
       D3Graph.graphInstances (snd (D3Graph.addNode containerId node st)) !! containerId
         = Some inst' /\
       D3Graph.nodes inst' = D3Graph.nodes inst ++ [D3Graph.next inst] /\
       D3Graph.node_at inst' (D3Graph.next inst) = node /\
       (forall k, k < D3Graph.next inst ->
          D3Graph.node_at inst' k = D3Graph.node_at inst k) /\
       D3Graph.links inst' = D3Graph.links inst /\
       (forall k, D3Graph.link_at inst' k = D3Graph.link_at inst k) /\
       D3Graph.settled inst' /\ D3Graph.well_allocated inst') /\
  (fst (D3Graph.clearGraph containerId st) = Return (VBool true) /\
   exists inst',
     D3Graph.graphInstances (snd (D3Graph.clearGraph containerId st)) !! containerId
       = Some inst' /\
     D3Graph.nodes inst' = [] /\ D3Graph.links inst' = [] /\
     D3Graph.settled inst' /\ D3Graph.well_allocated inst') /\
  (forall nodeId,
     fst (D3Graph.removeNode containerId nodeId st) = Return (VBool true) /\
     exists inst',
       D3Graph.graphInstances (snd (D3Graph.removeNode containerId nodeId st)) !! containerId
         = Some inst' /\
       D3Graph.nodes inst' =
         List.filter (fun k => negb (strict_eq (get (D3Graph.node_at inst k) "id") nodeId))
                     (D3Graph.nodes inst) /\
       (forall k, In k (D3Graph.links inst') -> In k (D3Graph.links inst)) /\
       (forall k, D3Graph.node_at inst' k = D3Graph.node_at inst k) /\
       D3Graph.settled inst' /\ D3Graph.well_allocated inst').
Proof.
  intros Hinst Hs Hw. split; [|split].
  - intros node.
    destruct (d3_addNode_settled containerId node st inst Hinst Hs Hw)
      as [st' [inst' [Hrun Hrest]]].
    rewrite Hrun. cbn [fst snd]. split; [reflexivity|]. now exists inst'.
  - destruct (d3_clearGraph_settled containerId st inst Hinst Hs Hw)
      as [st' [inst' [Hrun Hrest]]].
    rewrite Hrun. cbn [fst snd]. split; [reflexivity|]. now exists inst'.
  - intros nodeId.
    destruct (d3_removeNode_settled containerId nodeId st inst Hinst Hs Hw)
      as [st' [inst' [Hrun Hrest]]].
    rewrite Hrun. cbn [fst snd]. split; [reflexivity|]. now exists inst'.
Qed.

Lemma d3_graph_stays_settled_witness :
  exists inst,
    D3Graph.graphInstances Examples.d3_page !! "graph" = Some inst /\
    D3Graph.links inst <> [] /\
    fst (D3Graph.addNode "graph" [("id", VStr "a")] Examples.d3_page)
      = Return (VBool true) /\
    fst (D3Graph.removeNode "graph" (VStr "a") Examples.d3_page)
      = Return (VBool true).
Proof.
  eexists. split; [reflexivity|]. split; [discriminate|].
  pose proof (d3_graph_stays_settled "graph" Examples.d3_page _ eq_refl
                (proj1 (proj2 (d3_page_ready _ eq_refl)))
                (proj2 (proj2 (d3_page_ready _ eq_refl)))) as Hkept.
  split.
  - exact (proj1 (proj1 Hkept [("id", VStr "a")])).
  - exact (proj1 (proj2 (proj2 Hkept) (VStr "a"))).
Defined.

(** ** initialize of the d3 module *)



(** Names that are no colour scheme of d3: viridis is an interpolator
    only, and the empty name reads [d3.scheme]. *)
Lemma d3_initialize_unknown_scheme :
  D3Graph.initialize "graph" [("colorScheme", VStr "viridis")] Examples.d3_page
    = (Throw TypeError, Examples.d3_page) /\
  D3Graph.initialize "graph" [("colorScheme", VStr "")] Examples.d3_page
    = (Throw TypeError, Examples.d3_page) /\
  D3Graph.initialize "graph" [("colorScheme", num 3)] Examples.d3_page
    = (Throw TypeError, Examples.d3_page).
Proof. repeat split; reflexivity. Qed.

(** The first letter is made a capital as toUpperCase does it: the long
    s becomes S, so that its name reaches the scheme Set1. *)
Lemma capitalize_examples :
  D3Graph.capitalize "category10" = "Category10" /\
  D3Graph.capitalize "Set1" = "Set1" /\
  D3Graph.capitalize "" = "" /\
  D3Graph.capitalize "1a" = "1a" /\
  D3Graph.capitalize
    (String (Ascii.ascii_of_nat 197) (String (Ascii.ascii_of_nat 191) "et1")) = "Set1" /\
  D3Graph.has_scheme Examples.d3_page "Set1" = true /\
  D3Graph.has_scheme Examples.d3_page "set1" = false.
Proof. repeat split; reflexivity. Qed.

(** A call under the name of a member of Object.prototype leaves its
    arrays on the member. *)
Lemma d3_setData_extends_member :
  D3Graph.setData "constructor" [[("id", VStr "a")]] [] Examples.d3_page
    = (Throw TypeError, D3Graph.extend_member Examples.d3_page) /\
  D3Graph.extended (D3Graph.extend_member Examples.d3_page) = true /\
  D3Graph.extended Examples.d3_page = false.
Proof. repeat split; reflexivity. Qed.
